(** * The host-side Parquet reader of cudf: [read_parquet]

    A shallow embedding of [cpp/src/io/parquet/parquet_reader.cpp] and the
    properties of its orchestration pipeline.

    Conventions of the embedding.
    - Integers are [Z].  A conversion to an unsigned type, and arithmetic
      carried out in [size_t], is reduced modulo the width; a conversion to
      a signed type is the two's-complement one.  Arithmetic on [int]
      operands is left in [Z]: its overflow is undefined in the source.
      The one [int] product that is handed on as a [size_t], the byte
      count of line 332, is the two's-complement product.
    - Arrays are lists.  An unchecked read past the end yields the
      environment's [stray] element of that type.  The one read of an
      element of a vector that has none, line 182, ends the call as
      [Undefined].
    - A pointer is a named buffer and an offset in elements; the null
      pointer has no buffer.
    - Everything that the reader calls and that lives outside the file
      (metadata parser, kernels, allocator, CUDA runtime, constants and
      layouts of other headers) is a field of [Environment].
    - [printf] and [std::cout] output is not modelled, nor is the release
      of buffers by the destructors of [parquet_state] and [gdf_columns]
      when the function returns. *)

From Stdlib Require Import ZArith List String Ascii Bool Lia.
From Stdlib Require Strings.Byte.
Import ListNotations.
Local Open Scope Z_scope.

Set Implicit Arguments.

(** ** C++ integer conversions *)

Module Cxx.

Definition unsigned (w z : Z) : Z := z mod 2 ^ w.
Definition signed (w z : Z) : Z := (z + 2 ^ (w - 1)) mod 2 ^ w - 2 ^ (w - 1).

Definition to_size_t : Z -> Z := unsigned 64.
Definition to_uint32 : Z -> Z := unsigned 32.
Definition to_uint16 : Z -> Z := unsigned 16.
Definition to_uint8 : Z -> Z := unsigned 8.
Definition to_int32 : Z -> Z := signed 32.
Definition to_int16 : Z -> Z := signed 16.

(** [std::string::npos] *)
Definition npos : Z := 2 ^ 64 - 1.

(** The characters of a C string: a [std::string] read through [c_str()]
    by [strcpy], [strlen] or a comparison with a [const char *] ends at its
    first NUL. *)
Fixpoint c_str (s : string) : string :=
  match s with
  | EmptyString => EmptyString
  | String c r => if Ascii.eqb c Ascii.zero then EmptyString else String c (c_str r)
  end.

(** [s.find(pat, pos)] as a [size_t]. *)
Definition find (pat : string) (pos : Z) (s : string) : Z :=
  if (pos <? 0) || (Z.of_nat (String.length s) <? pos) then npos
  else match String.index (Z.to_nat pos) pat s with
       | Some i => Z.of_nat i
       | None => npos
       end.

(** [s.substr(pos, n)]: the characters from [pos], at most [n] of them and
    no more than the string has; [None] when [pos] is past the end and the
    call throws [std::out_of_range]. *)
Definition substr (pos n : Z) (s : string) : option string :=
  let len := Z.of_nat (String.length s) in
  if len <? pos then None
  else Some (String.substring (Z.to_nat pos) (Z.to_nat (Z.min n (len - pos))) s).

(** A [std::vector<size_t>]: the allocated storage and the current size.
    [clear()] resets the size and keeps the storage (the capacity is
    unchanged and the elements are trivially destructible); [operator[]]
    is an unchecked read of the storage. *)
Module vector.
Record t := { storage : list Z; size : nat }.

Definition iota (n : nat) : t :=
  {| storage := map Z.of_nat (seq 0 n); size := n |}.

Definition clear (v : t) : t :=
  {| storage := storage v; size := 0 |}.

Definition push_back (x : Z) (v : t) : t :=
  {| storage := firstn (size v) (storage v) ++ x :: skipn (S (size v)) (storage v);
     size := S (size v) |}.

Definition at_unchecked (v : t) (i : nat) : Z := nth i (storage v) 0.

Definition empty (v : t) : bool := Nat.eqb (size v) 0.
End vector.

(** [memcpy]-style copy of the first [n] elements of [src] over [dst]. *)
Fixpoint copy_n {A} (n : nat) (src dst : list A) : list A :=
  match n, src, dst with
  | S n', s :: src', _ :: dst' => s :: copy_n n' src' dst'
  | _, _, _ => dst
  end.

(** Store [x] at index [i] of an array; no effect out of range. *)
Fixpoint store {A} (i : nat) (x : A) (l : list A) : list A :=
  match l, i with
  | [], _ => []
  | _ :: r, O => x :: r
  | y :: r, S i' => y :: store i' x r
  end.

End Cxx.

Import Cxx.

(** ** Parquet metadata ([parquet.h], as the reader uses it) *)

Inductive parquet_Type :=
  BOOLEAN | INT32 | INT64 | INT96 | FLOAT | DOUBLE | BYTE_ARRAY | FIXED_LEN_BYTE_ARRAY.

Inductive ConvertedType :=
  | UTF8 | MAP | MAP_KEY_VALUE | LIST | ENUM | DECIMAL | DATE | TIME_MILLIS
  | TIME_MICROS | TIMESTAMP_MILLIS | TIMESTAMP_MICROS | UINT_8 | UINT_16
  | UINT_32 | UINT_64 | INT_8 | INT_16 | INT_32 | INT_64 | JSON | BSON
  | INTERVAL | UNKNOWN.

Inductive Compression := UNCOMPRESSED | SNAPPY | GZIP | LZO | BROTLI | LZ4 | ZSTD.

Definition Type_eqb (a b : parquet_Type) : bool :=
  match a, b with
  | BOOLEAN, BOOLEAN | INT32, INT32 | INT64, INT64 | INT96, INT96
  | FLOAT, FLOAT | DOUBLE, DOUBLE | BYTE_ARRAY, BYTE_ARRAY
  | FIXED_LEN_BYTE_ARRAY, FIXED_LEN_BYTE_ARRAY => true
  | _, _ => false
  end.

Definition Compression_eqb (a b : Compression) : bool :=
  match a, b with
  | UNCOMPRESSED, UNCOMPRESSED | SNAPPY, SNAPPY | GZIP, GZIP | LZO, LZO
  | BROTLI, BROTLI | LZ4, LZ4 | ZSTD, ZSTD => true
  | _, _ => false
  end.

Module SchemaElement.
Record t := {
  type : parquet_Type;
  converted_type : ConvertedType;
  type_length : Z;
  name : string;
  max_definition_level : Z;
  max_repetition_level : Z }.
End SchemaElement.

Module ColumnChunkMetaData.
Record t := {
  path_in_schema : list string;
  codec : Compression;
  num_values : Z;
  total_compressed_size : Z;
  data_page_offset : Z;
  dictionary_page_offset : Z }.
End ColumnChunkMetaData.

Module ColumnChunk.
Record t := {
  meta_data : ColumnChunkMetaData.t;
  schema_idx : Z }.
End ColumnChunk.

Module RowGroup.
Record t := {
  columns : list ColumnChunk.t;
  total_byte_size : Z;
  num_rows : Z }.
End RowGroup.

Module KeyValue.
Record t := { key : string; value : string }.
End KeyValue.

Module FileMetaData.
Record t := {
  schema : list SchemaElement.t;
  num_rows : Z;
  row_groups : list RowGroup.t;
  key_value_metadata : list KeyValue.t }.

(** a default-constructed [FileMetaData] *)
Definition empty : t :=
  {| schema := []; num_rows := 0; row_groups := []; key_value_metadata := [] |}.
End FileMetaData.

(** ** libgdf types ([cudf.h], as the reader uses them) *)

Inductive gdf_dtype :=
  | GDF_invalid | GDF_INT8 | GDF_INT16 | GDF_INT32 | GDF_INT64
  | GDF_FLOAT32 | GDF_FLOAT64 | GDF_DATE32 | GDF_DATE64 | GDF_STRING.

Inductive gdf_time_unit := TIME_UNIT_NONE | TIME_UNIT_ms | TIME_UNIT_us.

Inductive gdf_error :=
  | GDF_SUCCESS | GDF_FILE_ERROR | GDF_DATASET_EMPTY
  | GDF_CUDA_ERROR | GDF_MEMORYMANAGER_ERROR.

Definition gdf_dtype_eqb (a b : gdf_dtype) : bool :=
  match a, b with
  | GDF_invalid, GDF_invalid | GDF_INT8, GDF_INT8 | GDF_INT16, GDF_INT16
  | GDF_INT32, GDF_INT32 | GDF_INT64, GDF_INT64 | GDF_FLOAT32, GDF_FLOAT32
  | GDF_FLOAT64, GDF_FLOAT64 | GDF_DATE32, GDF_DATE32 | GDF_DATE64, GDF_DATE64
  | GDF_STRING, GDF_STRING => true
  | _, _ => false
  end.

Definition gdf_error_eqb (a b : gdf_error) : bool :=
  match a, b with
  | GDF_SUCCESS, GDF_SUCCESS | GDF_FILE_ERROR, GDF_FILE_ERROR
  | GDF_DATASET_EMPTY, GDF_DATASET_EMPTY | GDF_CUDA_ERROR, GDF_CUDA_ERROR
  | GDF_MEMORYMANAGER_ERROR, GDF_MEMORYMANAGER_ERROR => true
  | _, _ => false
  end.

(** ** Buffers and pointers *)

Inductive buffer :=
  | buf_raw
  | buf_chunk_desc | buf_chunk_desc_dev
  | buf_page_index | buf_page_index_dev
  | buf_str_dict_index | buf_decompressed_pages
  | buf_compressed_data (chunk : nat)
  | buf_inflate_in | buf_inflate_in_dev | buf_inflate_out | buf_inflate_out_dev
  | buf_column_data (column : nat) | buf_column_valid (column : nat).

Record ptr := { base : option buffer; offset : Z }.

Definition nullptr : ptr := {| base := None; offset := 0 |}.
Definition buffer_start (b : buffer) : ptr := {| base := Some b; offset := 0 |}.
Definition ptr_add (p : ptr) (n : Z) : ptr :=
  {| base := base p; offset := offset p + n |}.

Module gdf_column.
Record t := {
  data : ptr;
  valid : ptr;
  size : Z;
  dtype : gdf_dtype;
  null_count : Z;
  dtype_info : gdf_time_unit;
  col_name : string }.

Definition set_data (x : ptr) (c : t) : t :=
  {| data := x; valid := valid c; size := size c; dtype := dtype c;
     null_count := null_count c; dtype_info := dtype_info c; col_name := col_name c |}.
Definition set_valid (x : ptr) (c : t) : t :=
  {| data := data c; valid := x; size := size c; dtype := dtype c;
     null_count := null_count c; dtype_info := dtype_info c; col_name := col_name c |}.
Definition set_null_count (x : Z) (c : t) : t :=
  {| data := data c; valid := valid c; size := size c; dtype := dtype c;
     null_count := x; dtype_info := dtype_info c; col_name := col_name c |}.
End gdf_column.

(** ** Accelerator descriptors ([parquet_gpu.h], [gpuinflate.h]) *)

Module ColumnChunkDesc.
Record t := {
  compressed_data : ptr;
  compressed_size : Z;
  num_values : Z;
  start_row : Z;
  num_rows : Z;
  max_def_level : Z;
  max_rep_level : Z;
  def_level_bits : Z;
  rep_level_bits : Z;
  data_type : Z;
  num_data_pages : Z;
  num_dict_pages : Z;
  max_num_pages : Z;
  page_info : ptr;
  str_dict_index : ptr;
  valid_map_base : ptr;
  column_data_base : ptr }.

Definition set_pages (n : Z) (p : ptr) (c : t) : t :=
  {| compressed_data := compressed_data c; compressed_size := compressed_size c;
     num_values := num_values c; start_row := start_row c; num_rows := num_rows c;
     max_def_level := max_def_level c; max_rep_level := max_rep_level c;
     def_level_bits := def_level_bits c; rep_level_bits := rep_level_bits c;
     data_type := data_type c; num_data_pages := num_data_pages c;
     num_dict_pages := num_dict_pages c; max_num_pages := n; page_info := p;
     str_dict_index := str_dict_index c; valid_map_base := valid_map_base c;
     column_data_base := column_data_base c |}.
Definition set_str_dict_index (p : ptr) (c : t) : t :=
  {| compressed_data := compressed_data c; compressed_size := compressed_size c;
     num_values := num_values c; start_row := start_row c; num_rows := num_rows c;
     max_def_level := max_def_level c; max_rep_level := max_rep_level c;
     def_level_bits := def_level_bits c; rep_level_bits := rep_level_bits c;
     data_type := data_type c; num_data_pages := num_data_pages c;
     num_dict_pages := num_dict_pages c; max_num_pages := max_num_pages c;
     page_info := page_info c;
     str_dict_index := p; valid_map_base := valid_map_base c;
     column_data_base := column_data_base c |}.
Definition set_column (v d : ptr) (c : t) : t :=
  {| compressed_data := compressed_data c; compressed_size := compressed_size c;
     num_values := num_values c; start_row := start_row c; num_rows := num_rows c;
     max_def_level := max_def_level c; max_rep_level := max_rep_level c;
     def_level_bits := def_level_bits c; rep_level_bits := rep_level_bits c;
     data_type := data_type c; num_data_pages := num_data_pages c;
     num_dict_pages := num_dict_pages c; max_num_pages := max_num_pages c;
     page_info := page_info c;
     str_dict_index := str_dict_index c; valid_map_base := v;
     column_data_base := d |}.
End ColumnChunkDesc.

Module PageInfo.
Record t := {
  compressed_page_data : ptr;
  uncompressed_page_size : Z;
  compressed_page_size : Z;
  num_values : Z;
  chunk_row : Z;
  num_rows : Z;
  chunk_idx : Z;
  flags : Z;
  encoding : Z;
  valid_count : Z }.

Definition set_compressed_page_data (p : ptr) (g : t) : t :=
  {| compressed_page_data := p;
     uncompressed_page_size := uncompressed_page_size g;
     compressed_page_size := compressed_page_size g;
     num_values := num_values g; chunk_row := chunk_row g;
     num_rows := num_rows g; chunk_idx := chunk_idx g; flags := flags g;
     encoding := encoding g; valid_count := valid_count g |}.
End PageInfo.

Record gpu_inflate_input_s := {
  srcDevice : ptr; srcSize : Z; dstDevice : ptr; dstSize : Z }.

Record gpu_inflate_status_s := {
  bytes_written : Z; status : Z; reserved : Z }.

(** ** Calls that leave the reader

    The trace of a read is the list of these calls, oldest first.  The
    count [n] of an allocation, copy or fill is in elements of the buffer's
    element type (bytes for data buffers).  The launch of the header
    kernel records the descriptors the kernel finds on the accelerator. *)

Inductive call :=
  | call_cp_read (footer : list Byte.byte)
  | call_cp_InitSchema
  | RMM_ALLOC (b : buffer) (n : Z)
  | cudaMallocHost (b : buffer) (n : Z)
  | cudaMemcpyAsync (dst src : ptr) (n : Z)
  | cudaMemset (dst : ptr) (n : Z)
  | cudaStreamSynchronize
  | launch_DecodePageHeaders (chunks : list ColumnChunkDesc.t)
  | launch_gpuinflate (start count : Z)
  | launch_gpu_unsnap (start count : Z)
  | launch_BuildStringDictionaryIndex (num_chunks : Z)
  | launch_DecodePageData (num_pages num_chunks total_rows : Z).

(** ** What the reader is linked against and runs on

    [gpu_mem] is the content of the accelerator's data buffers (staged
    chunk bytes, decompressed pages, column data and validity, dictionary
    index); the descriptor arrays the host mirrors are kept apart from it. *)

Record Environment (gpu_mem : Type) := {
  (** constants and layouts of [parquet.h] and [parquet_gpu.h] *)
  PARQUET_MAGIC : Z;
  Type_value : parquet_Type -> Z;
  sizeof_nvstrdesc_s : Z;
  (** the file system under [fopen(name, "rb")] and [fread] *)
  file_content : string -> option (list Byte.byte);
  (** [parquet::CPReader]: [read] and [InitSchema] return their verdict
      and leave [file_md] as far as they filled it *)
  cp_read : list Byte.byte -> bool * FileMetaData.t;
  cp_InitSchema : FileMetaData.t -> bool * FileMetaData.t;
  NumRequiredBits : Z -> Z;
  (** libgdf helpers *)
  gdf_get_num_chars_bitmask : Z -> Z;
  get_column_byte_width : gdf_column.t -> Z;
  (** whether a call of the allocator or of the CUDA runtime succeeds,
      given the calls made before it *)
  runtime_ok : list call -> call -> bool;
  (** what the caller reads as the result of a [gdf_error] function that
      reached its closing brace without a [return] statement *)
  no_return_value : list call -> gdf_error;
  (** content of memory nobody has written: element [i] of a fresh
      allocation, or of what lies behind it *)
  uninit_PageInfo : buffer -> Z -> PageInfo.t;
  stray_SchemaElement : Z -> SchemaElement.t;
  stray_ColumnChunk : Z -> ColumnChunk.t;
  (** copies and fills of accelerator data buffers *)
  gpu_initial : gpu_mem;
  gpu_store : gpu_mem -> ptr -> list Byte.byte -> gpu_mem;
  gpu_fill : gpu_mem -> ptr -> Z -> gpu_mem;
  (** kernels: the chunk descriptors and page records they are given are
      the accelerator's copies; each returns the copies as it leaves them *)
  DecodePageHeaders :
    gpu_mem -> list ColumnChunkDesc.t -> list PageInfo.t ->
    list ColumnChunkDesc.t * list PageInfo.t;
  gpuinflate :
    gpu_mem -> list gpu_inflate_input_s -> list gpu_inflate_status_s ->
    gpu_mem * list gpu_inflate_status_s;
  gpu_unsnap :
    gpu_mem -> list gpu_inflate_input_s -> list gpu_inflate_status_s ->
    gpu_mem * list gpu_inflate_status_s;
  BuildStringDictionaryIndex :
    gpu_mem -> list ColumnChunkDesc.t -> list PageInfo.t -> gpu_mem;
  DecodePageData :
    gpu_mem -> list PageInfo.t -> list ColumnChunkDesc.t -> Z ->
    gpu_mem * list PageInfo.t }.

(** ** Helpers of the reader *)

Definition NUM_SUPPORTED_CODECS : Z := 2.
Definition g_supportedCodecs : list Compression := [GZIP; SNAPPY].

(** Modelled from the spec: the layout of [file_header_s] and
    [file_ender_s], which [parquet.h] declares: a 4-byte magic at offset 0,
    and at the end of the file a 4-byte little-endian footer length
    followed by a 4-byte magic. *)
Definition sizeof_file_header_s : Z := 4.
Definition sizeof_file_ender_s : Z := 8.

Fixpoint little_endian (bytes : list Byte.byte) : Z :=
  match bytes with
  | [] => 0
  | b :: r => Z.of_N (Byte.to_N b) + 256 * little_endian r
  end.

Definition header_magic (raw : list Byte.byte) : Z :=
  little_endian (firstn 4 raw).
Definition ender_footer_len (raw : list Byte.byte) : Z :=
  little_endian (firstn 4 (skipn (List.length raw - 8) raw)).
Definition ender_magic (raw : list Byte.byte) : Z :=
  little_endian (firstn 4 (skipn (List.length raw - 4) raw)).

Definition LoadFile {G} (E : Environment G) (input_fname : option string)
  : option (list Byte.byte) :=
  match input_fname with
  | None => None
  | Some name =>
      match file_content E name with
      | None => None
      | Some bytes => if Nat.eqb (List.length bytes) 0 then None else Some bytes
      end
  end.

Definition to_dot_string (path_in_schema : list string) : string :=
  match path_in_schema with
  | [] => EmptyString
  | p0 :: rest => fold_left (fun s p => (s ++ "." ++ p)%string) rest p0
  end.

Definition to_dtype (physical : parquet_Type) (logical : ConvertedType)
  : gdf_dtype * gdf_time_unit :=
  match logical with
  | UINT_8 | INT_8 => (GDF_INT8, TIME_UNIT_NONE)
  | UINT_16 | INT_16 => (GDF_INT16, TIME_UNIT_NONE)
  | DATE => (GDF_DATE32, TIME_UNIT_NONE)
  | TIMESTAMP_MILLIS => (GDF_DATE64, TIME_UNIT_ms)
  | TIMESTAMP_MICROS => (GDF_DATE64, TIME_UNIT_us)
  | _ =>
      match physical with
      | BOOLEAN => (GDF_INT8, TIME_UNIT_NONE)
      | INT32 => (GDF_INT32, TIME_UNIT_NONE)
      | INT64 => (GDF_INT64, TIME_UNIT_NONE)
      | FLOAT => (GDF_FLOAT32, TIME_UNIT_NONE)
      | DOUBLE => (GDF_FLOAT64, TIME_UNIT_NONE)
      | BYTE_ARRAY | FIXED_LEN_BYTE_ARRAY => (GDF_STRING, TIME_UNIT_NONE)
      | INT96 => (GDF_invalid, TIME_UNIT_NONE)
      end
  end.

(** [None]: the [substr] in it threw. *)
Definition get_index_col (md : FileMetaData.t) : option string :=
  match List.find (fun item => String.eqb (KeyValue.key item) "pandas")
          (FileMetaData.key_value_metadata md) with
  | Some it =>
      let pos := Cxx.find "index_columns" 0 (KeyValue.value it) in
      if negb (pos =? npos) then
        let begin := Cxx.find "[" pos (KeyValue.value it) in
        let end_ := Cxx.find "]" begin (KeyValue.value it) in
        if to_size_t (end_ - begin) >? 4 then
          substr (to_size_t (begin + 2)) (to_size_t (end_ - begin - 3)) (KeyValue.value it)
        else Some EmptyString
      else Some EmptyString
  | None => Some EmptyString
  end.

Definition required_bits {G} (E : Environment G) (max_level : Z) : Z :=
  to_uint8 (NumRequiredBits E (to_uint32 max_level)).


(** ** The pipeline state

    [parquet_state]: the struct of that name.  [chunk_desc] and
    [chunk_desc_dev] hold the descriptors written so far, so the source's
    counter [num_chunks] is their number; the slots of the two arrays
    behind them are never read. *)

Module parquet_state.
Record t := {
  chunk_desc : list ColumnChunkDesc.t;
  chunk_desc_dev : list ColumnChunkDesc.t;
  page_index : list PageInfo.t;
  page_index_dev : list PageInfo.t;
  max_num_chunks : Z;
  total_pages : Z;
  num_compressed_pages : Z;
  total_decompressed_size : Z;
  total_str_indices : Z;
  str_dict_index : ptr;
  decompressed_pages : ptr }.

Definition num_chunks (s : t) : Z := Z.of_nat (List.length (chunk_desc s)).

Definition init : t :=
  {| chunk_desc := []; chunk_desc_dev := []; page_index := [];
     page_index_dev := []; max_num_chunks := 0; total_pages := 0;
     num_compressed_pages := 0; total_decompressed_size := 0;
     total_str_indices := 0; str_dict_index := nullptr;
     decompressed_pages := nullptr |}.

Definition set_chunk_desc (x : list ColumnChunkDesc.t) (s : t) : t :=
  {| chunk_desc := x; chunk_desc_dev := chunk_desc_dev s;
     page_index := page_index s; page_index_dev := page_index_dev s;
     max_num_chunks := max_num_chunks s; total_pages := total_pages s;
     num_compressed_pages := num_compressed_pages s;
     total_decompressed_size := total_decompressed_size s;
     total_str_indices := total_str_indices s;
     str_dict_index := str_dict_index s;
     decompressed_pages := decompressed_pages s |}.
Definition set_chunk_desc_dev (x : list ColumnChunkDesc.t) (s : t) : t :=
  {| chunk_desc := chunk_desc s; chunk_desc_dev := x;
     page_index := page_index s; page_index_dev := page_index_dev s;
     max_num_chunks := max_num_chunks s; total_pages := total_pages s;
     num_compressed_pages := num_compressed_pages s;
     total_decompressed_size := total_decompressed_size s;
     total_str_indices := total_str_indices s;
     str_dict_index := str_dict_index s;
     decompressed_pages := decompressed_pages s |}.
Definition set_page_index (x : list PageInfo.t) (s : t) : t :=
  {| chunk_desc := chunk_desc s; chunk_desc_dev := chunk_desc_dev s;
     page_index := x; page_index_dev := page_index_dev s;
     max_num_chunks := max_num_chunks s; total_pages := total_pages s;
     num_compressed_pages := num_compressed_pages s;
     total_decompressed_size := total_decompressed_size s;
     total_str_indices := total_str_indices s;
     str_dict_index := str_dict_index s;
     decompressed_pages := decompressed_pages s |}.
Definition set_page_index_dev (x : list PageInfo.t) (s : t) : t :=
  {| chunk_desc := chunk_desc s; chunk_desc_dev := chunk_desc_dev s;
     page_index := page_index s; page_index_dev := x;
     max_num_chunks := max_num_chunks s; total_pages := total_pages s;
     num_compressed_pages := num_compressed_pages s;
     total_decompressed_size := total_decompressed_size s;
     total_str_indices := total_str_indices s;
     str_dict_index := str_dict_index s;
     decompressed_pages := decompressed_pages s |}.
Definition set_max_num_chunks (x : Z) (s : t) : t :=
  {| chunk_desc := chunk_desc s; chunk_desc_dev := chunk_desc_dev s;
     page_index := page_index s; page_index_dev := page_index_dev s;
     max_num_chunks := x; total_pages := total_pages s;
     num_compressed_pages := num_compressed_pages s;
     total_decompressed_size := total_decompressed_size s;
     total_str_indices := total_str_indices s;
     str_dict_index := str_dict_index s;
     decompressed_pages := decompressed_pages s |}.
Definition set_total_pages (x : Z) (s : t) : t :=
  {| chunk_desc := chunk_desc s; chunk_desc_dev := chunk_desc_dev s;
     page_index := page_index s; page_index_dev := page_index_dev s;
     max_num_chunks := max_num_chunks s; total_pages := x;
     num_compressed_pages := num_compressed_pages s;
     total_decompressed_size := total_decompressed_size s;
     total_str_indices := total_str_indices s;
     str_dict_index := str_dict_index s;
     decompressed_pages := decompressed_pages s |}.
Definition set_num_compressed_pages (x : Z) (s : t) : t :=
  {| chunk_desc := chunk_desc s; chunk_desc_dev := chunk_desc_dev s;
     page_index := page_index s; page_index_dev := page_index_dev s;
     max_num_chunks := max_num_chunks s; total_pages := total_pages s;
     num_compressed_pages := x;
     total_decompressed_size := total_decompressed_size s;
     total_str_indices := total_str_indices s;
     str_dict_index := str_dict_index s;
     decompressed_pages := decompressed_pages s |}.
Definition set_total_decompressed_size (x : Z) (s : t) : t :=
  {| chunk_desc := chunk_desc s; chunk_desc_dev := chunk_desc_dev s;
     page_index := page_index s; page_index_dev := page_index_dev s;
     max_num_chunks := max_num_chunks s; total_pages := total_pages s;
     num_compressed_pages := num_compressed_pages s;
     total_decompressed_size := x;
     total_str_indices := total_str_indices s;
     str_dict_index := str_dict_index s;
     decompressed_pages := decompressed_pages s |}.
Definition set_total_str_indices (x : Z) (s : t) : t :=
  {| chunk_desc := chunk_desc s; chunk_desc_dev := chunk_desc_dev s;
     page_index := page_index s; page_index_dev := page_index_dev s;
     max_num_chunks := max_num_chunks s; total_pages := total_pages s;
     num_compressed_pages := num_compressed_pages s;
     total_decompressed_size := total_decompressed_size s;
     total_str_indices := x; str_dict_index := str_dict_index s;
     decompressed_pages := decompressed_pages s |}.
Definition set_str_dict_index (x : ptr) (s : t) : t :=
  {| chunk_desc := chunk_desc s; chunk_desc_dev := chunk_desc_dev s;
     page_index := page_index s; page_index_dev := page_index_dev s;
     max_num_chunks := max_num_chunks s; total_pages := total_pages s;
     num_compressed_pages := num_compressed_pages s;
     total_decompressed_size := total_decompressed_size s;
     total_str_indices := total_str_indices s; str_dict_index := x;
     decompressed_pages := decompressed_pages s |}.
Definition set_decompressed_pages (x : ptr) (s : t) : t :=
  {| chunk_desc := chunk_desc s; chunk_desc_dev := chunk_desc_dev s;
     page_index := page_index s; page_index_dev := page_index_dev s;
     max_num_chunks := max_num_chunks s; total_pages := total_pages s;
     num_compressed_pages := num_compressed_pages s;
     total_decompressed_size := total_decompressed_size s;
     total_str_indices := total_str_indices s;
     str_dict_index := str_dict_index s; decompressed_pages := x |}.
End parquet_state.

(** The caller's side of [pq_read_arg]. *)
Record pq_read_arg := {
  source : option string;
  use_cols : option (list string) }.

Record pq_read_out := {
  data_out : list gdf_column.t;
  num_cols_out : Z;
  num_rows_out : Z;
  index_col_out : option Z }.

(** How a call of [read_parquet] ends: it returns an error code, an
    exception leaves it, or it runs into undefined behaviour (line 182,
    element 0 of an empty [row_groups]: a read through a null pointer). *)
Inductive outcome :=
  | Returned (e : gdf_error)
  | Thrown
  | Undefined.

Section Reader.

Context {gpu_mem : Type} (E : Environment gpu_mem).

(** The local variables of [read_parquet], the caller's output arguments,
    and the world the call acts on: the trace of calls and the accelerator's
    data memory. *)
Record frame := {
  raw : list Byte.byte;
  file_md : FileMetaData.t;
  index_col_name : string;
  col_indexes : vector.t;
  columns : list gdf_column.t;
  num_columns : Z;
  num_rows : Z;
  index_col : Z;
  chunk_map : list (ColumnChunk.t * nat);
  compressed_page_cnt : list Z;
  inflate_in : list gpu_inflate_input_s;
  inflate_out : list gpu_inflate_status_s;
  state : parquet_state.t;
  out : option pq_read_out;
  trace : list call;
  gpu : gpu_mem }.

Definition set_raw (x : list Byte.byte) (f : frame) : frame :=
  {| raw := x; file_md := file_md f; index_col_name := index_col_name f;
     col_indexes := col_indexes f; columns := columns f;
     num_columns := num_columns f; num_rows := num_rows f;
     index_col := index_col f; chunk_map := chunk_map f;
     compressed_page_cnt := compressed_page_cnt f;
     inflate_in := inflate_in f; inflate_out := inflate_out f;
     state := state f; out := out f; trace := trace f; gpu := gpu f |}.
Definition set_file_md (x : FileMetaData.t) (f : frame) : frame :=
  {| raw := raw f; file_md := x; index_col_name := index_col_name f;
     col_indexes := col_indexes f; columns := columns f;
     num_columns := num_columns f; num_rows := num_rows f;
     index_col := index_col f; chunk_map := chunk_map f;
     compressed_page_cnt := compressed_page_cnt f;
     inflate_in := inflate_in f; inflate_out := inflate_out f;
     state := state f; out := out f; trace := trace f; gpu := gpu f |}.
Definition set_index_col_name (x : string) (f : frame) : frame :=
  {| raw := raw f; file_md := file_md f; index_col_name := x;
     col_indexes := col_indexes f; columns := columns f;
     num_columns := num_columns f; num_rows := num_rows f;
     index_col := index_col f; chunk_map := chunk_map f;
     compressed_page_cnt := compressed_page_cnt f;
     inflate_in := inflate_in f; inflate_out := inflate_out f;
     state := state f; out := out f; trace := trace f; gpu := gpu f |}.
Definition set_col_indexes (x : vector.t) (f : frame) : frame :=
  {| raw := raw f; file_md := file_md f; index_col_name := index_col_name f;
     col_indexes := x; columns := columns f; num_columns := num_columns f;
     num_rows := num_rows f; index_col := index_col f;
     chunk_map := chunk_map f; compressed_page_cnt := compressed_page_cnt f;
     inflate_in := inflate_in f; inflate_out := inflate_out f;
     state := state f; out := out f; trace := trace f; gpu := gpu f |}.
Definition set_columns (x : list gdf_column.t) (f : frame) : frame :=
  {| raw := raw f; file_md := file_md f; index_col_name := index_col_name f;
     col_indexes := col_indexes f; columns := x;
     num_columns := num_columns f; num_rows := num_rows f;
     index_col := index_col f; chunk_map := chunk_map f;
     compressed_page_cnt := compressed_page_cnt f;
     inflate_in := inflate_in f; inflate_out := inflate_out f;
     state := state f; out := out f; trace := trace f; gpu := gpu f |}.
Definition set_num_columns (x : Z) (f : frame) : frame :=
  {| raw := raw f; file_md := file_md f; index_col_name := index_col_name f;
     col_indexes := col_indexes f; columns := columns f; num_columns := x;
     num_rows := num_rows f; index_col := index_col f;
     chunk_map := chunk_map f; compressed_page_cnt := compressed_page_cnt f;
     inflate_in := inflate_in f; inflate_out := inflate_out f;
     state := state f; out := out f; trace := trace f; gpu := gpu f |}.
Definition set_num_rows (x : Z) (f : frame) : frame :=
  {| raw := raw f; file_md := file_md f; index_col_name := index_col_name f;
     col_indexes := col_indexes f; columns := columns f;
     num_columns := num_columns f; num_rows := x; index_col := index_col f;
     chunk_map := chunk_map f; compressed_page_cnt := compressed_page_cnt f;
     inflate_in := inflate_in f; inflate_out := inflate_out f;
     state := state f; out := out f; trace := trace f; gpu := gpu f |}.
Definition set_index_col (x : Z) (f : frame) : frame :=
  {| raw := raw f; file_md := file_md f; index_col_name := index_col_name f;
     col_indexes := col_indexes f; columns := columns f;
     num_columns := num_columns f; num_rows := num_rows f; index_col := x;
     chunk_map := chunk_map f; compressed_page_cnt := compressed_page_cnt f;
     inflate_in := inflate_in f; inflate_out := inflate_out f;
     state := state f; out := out f; trace := trace f; gpu := gpu f |}.
Definition set_chunk_map (x : list (ColumnChunk.t * nat)) (f : frame) : frame :=
  {| raw := raw f; file_md := file_md f; index_col_name := index_col_name f;
     col_indexes := col_indexes f; columns := columns f;
     num_columns := num_columns f; num_rows := num_rows f;
     index_col := index_col f; chunk_map := x;
     compressed_page_cnt := compressed_page_cnt f;
     inflate_in := inflate_in f; inflate_out := inflate_out f;
     state := state f; out := out f; trace := trace f; gpu := gpu f |}.
Definition set_compressed_page_cnt (x : list Z) (f : frame) : frame :=
  {| raw := raw f; file_md := file_md f; index_col_name := index_col_name f;
     col_indexes := col_indexes f; columns := columns f;
     num_columns := num_columns f; num_rows := num_rows f;
     index_col := index_col f; chunk_map := chunk_map f;
     compressed_page_cnt := x; inflate_in := inflate_in f;
     inflate_out := inflate_out f; state := state f; out := out f;
     trace := trace f; gpu := gpu f |}.
Definition set_inflate_in (x : list gpu_inflate_input_s) (f : frame) : frame :=
  {| raw := raw f; file_md := file_md f; index_col_name := index_col_name f;
     col_indexes := col_indexes f; columns := columns f;
     num_columns := num_columns f; num_rows := num_rows f;
     index_col := index_col f; chunk_map := chunk_map f;
     compressed_page_cnt := compressed_page_cnt f; inflate_in := x;
     inflate_out := inflate_out f; state := state f; out := out f;
     trace := trace f; gpu := gpu f |}.
Definition set_inflate_out (x : list gpu_inflate_status_s) (f : frame) : frame :=
  {| raw := raw f; file_md := file_md f; index_col_name := index_col_name f;
     col_indexes := col_indexes f; columns := columns f;
     num_columns := num_columns f; num_rows := num_rows f;
     index_col := index_col f; chunk_map := chunk_map f;
     compressed_page_cnt := compressed_page_cnt f;
     inflate_in := inflate_in f; inflate_out := x; state := state f;
     out := out f; trace := trace f; gpu := gpu f |}.
Definition set_state (x : parquet_state.t) (f : frame) : frame :=
  {| raw := raw f; file_md := file_md f; index_col_name := index_col_name f;
     col_indexes := col_indexes f; columns := columns f;
     num_columns := num_columns f; num_rows := num_rows f;
     index_col := index_col f; chunk_map := chunk_map f;
     compressed_page_cnt := compressed_page_cnt f;
     inflate_in := inflate_in f; inflate_out := inflate_out f; state := x;
     out := out f; trace := trace f; gpu := gpu f |}.
Definition set_out (x : option pq_read_out) (f : frame) : frame :=
  {| raw := raw f; file_md := file_md f; index_col_name := index_col_name f;
     col_indexes := col_indexes f; columns := columns f;
     num_columns := num_columns f; num_rows := num_rows f;
     index_col := index_col f; chunk_map := chunk_map f;
     compressed_page_cnt := compressed_page_cnt f;
     inflate_in := inflate_in f; inflate_out := inflate_out f;
     state := state f; out := x; trace := trace f; gpu := gpu f |}.
Definition set_trace (x : list call) (f : frame) : frame :=
  {| raw := raw f; file_md := file_md f; index_col_name := index_col_name f;
     col_indexes := col_indexes f; columns := columns f;
     num_columns := num_columns f; num_rows := num_rows f;
     index_col := index_col f; chunk_map := chunk_map f;
     compressed_page_cnt := compressed_page_cnt f;
     inflate_in := inflate_in f; inflate_out := inflate_out f;
     state := state f; out := out f; trace := x; gpu := gpu f |}.
Definition set_gpu (x : gpu_mem) (f : frame) : frame :=
  {| raw := raw f; file_md := file_md f; index_col_name := index_col_name f;
     col_indexes := col_indexes f; columns := columns f;
     num_columns := num_columns f; num_rows := num_rows f;
     index_col := index_col f; chunk_map := chunk_map f;
     compressed_page_cnt := compressed_page_cnt f;
     inflate_in := inflate_in f; inflate_out := inflate_out f;
     state := state f; out := out f; trace := trace f; gpu := x |}.

Definition with_state (g : parquet_state.t -> parquet_state.t) (f : frame) : frame :=
  set_state (g (state f)) f.

Definition log (c : call) (f : frame) : frame := set_trace (trace f ++ [c]) f.


(** *** Macros of [utilities/error_utils.h] and of this file

    Modelled from the spec: [RMM_TRY] and [CUDA_TRY], whose definitions are
    in [utilities/error_utils.h]: a failed allocation or runtime call
    aborts the function with an error of its kind. *)

Definition status_fn := frame -> gdf_error * frame.

Definition try_call (err : gdf_error) (c : call) (f : frame) (k : status_fn)
  : gdf_error * frame :=
  if runtime_ok E (trace f) c then k (log c f) else (err, log c f).

Definition RMM_TRY := try_call GDF_MEMORYMANAGER_ERROR.
Definition CUDA_TRY := try_call GDF_CUDA_ERROR.

(** The closing brace of a [gdf_error] function without [return]. *)
Definition falls_off_the_end : status_fn :=
  fun f => (no_return_value E (trace f), f).

(** [RMM_ALLOC(&p, n)] whose result is not looked at: [p] is set when the
    allocation succeeds and keeps its value otherwise. *)
Definition RMM_ALLOC_unchecked (b : buffer) (n : Z) (p : ptr) (f : frame)
  : ptr * frame :=
  let c := RMM_ALLOC b n in
  ((if runtime_ok E (trace f) c then buffer_start b else p), log c f).

Inductive step :=
  | Next (f : frame)
  | Stop (o : outcome) (f : frame).

Definition GDF_TRY (r : gdf_error * frame) (k : frame -> step) : step :=
  match fst r with
  | GDF_SUCCESS => k (snd r)
  | e => Stop (Returned e) (snd r)
  end.

(** *** Reads of arrays *)

Definition row_group0 (md : FileMetaData.t) : list ColumnChunk.t :=
  match FileMetaData.row_groups md with
  | [] => []
  | rg :: _ => RowGroup.columns rg
  end.

Definition column_at (md : FileMetaData.t) (i : Z) : ColumnChunk.t :=
  if i <? 0 then stray_ColumnChunk E i
  else nth (Z.to_nat i) (row_group0 md) (stray_ColumnChunk E i).

Definition schema_at (md : FileMetaData.t) (i : Z) : SchemaElement.t :=
  if i <? 0 then stray_SchemaElement E i
  else nth (Z.to_nat i) (FileMetaData.schema md) (stray_SchemaElement E i).

Definition page_at (pages : list PageInfo.t) (i : Z) : PageInfo.t :=
  if i <? 0 then uninit_PageInfo E buf_page_index i
  else nth (Z.to_nat i) pages (uninit_PageInfo E buf_page_index i).

Definition column_name (c : ColumnChunk.t) : string :=
  to_dot_string (ColumnChunkMetaData.path_in_schema (ColumnChunk.meta_data c)).

(** a [calloc]ed [gdf_column] *)
Definition zeroed_column : gdf_column.t :=
  {| gdf_column.data := nullptr; gdf_column.valid := nullptr;
     gdf_column.size := 0; gdf_column.dtype := GDF_invalid;
     gdf_column.null_count := 0; gdf_column.dtype_info := TIME_UNIT_NONE;
     gdf_column.col_name := EmptyString |}.

(** content of a fresh array of [n] page records *)
Definition fresh_pages (b : buffer) (n : Z) : list PageInfo.t :=
  map (fun i => uninit_PageInfo E b (Z.of_nat i)) (seq 0 (Z.to_nat n)).

(** what a kernel or a copy leaves in an array of fixed length *)
Definition overlay {A} (src dst : list A) : list A :=
  copy_n (List.length dst) src dst.

(** *** [read_parquet], lines 386-407: the file and its envelope *)

Definition footer_offset (raw : list Byte.byte) : Z :=
  to_size_t (Z.of_nat (List.length raw) - ender_footer_len raw - sizeof_file_ender_s).

Definition footer_bytes (raw : list Byte.byte) : list Byte.byte :=
  firstn (Z.to_nat (ender_footer_len raw)) (skipn (Z.to_nat (footer_offset raw)) raw).

Definition check_file (args : pq_read_arg) (f : frame) : step :=
  match LoadFile E (source args) with
  | None => Stop (Returned GDF_FILE_ERROR) f
  | Some bytes =>
      let f := set_raw bytes f in
      let raw_size := Z.of_nat (List.length bytes) in
      if raw_size <? sizeof_file_header_s + sizeof_file_ender_s then
        Stop (Returned GDF_FILE_ERROR) f
      else if negb (header_magic bytes =? PARQUET_MAGIC E)
              || negb (ender_magic bytes =? PARQUET_MAGIC E) then
        Stop (Returned GDF_FILE_ERROR) f
      else if (ender_footer_len bytes
                 >? to_size_t (raw_size - sizeof_file_header_s - sizeof_file_ender_s))
              || (ender_footer_len bytes <=? 0) then
        Stop (Returned GDF_FILE_ERROR) f
      else Next f
  end.

(** *** lines 167-183: [print_metadata].  What it reads of [file_md] is
    only printed; its last line reads [row_groups[0]] unchecked. *)

Definition print_metadata (f : frame) : step :=
  match FileMetaData.row_groups (file_md f) with
  | [] => Stop Undefined f
  | _ :: _ => Next f
  end.

(** *** lines 407-416: the metadata parser.  Its two verdicts are only
    printed. *)

Definition read_metadata (f : frame) : step :=
  let footer := footer_bytes (raw f) in
  let f := log (call_cp_read footer) f in
  let md := snd (cp_read E footer) in
  let f := log call_cp_InitSchema f in
  print_metadata (set_file_md (snd (cp_InitSchema E md)) f).

(** *** lines 418-451: the columns to read *)

Definition max_num_columns (md : FileMetaData.t) : Z :=
  match FileMetaData.row_groups md with
  | [] => 0
  | rg :: _ => to_int32 (Z.of_nat (List.length (RowGroup.columns rg)))
  end.

Definition filter_columns (md : FileMetaData.t) (names : list string)
    (v : vector.t) : vector.t :=
  fold_left
    (fun v i =>
       if existsb (String.eqb (column_name (column_at md (Z.of_nat i)))) names
       then vector.push_back (Z.of_nat i) v else v)
    (seq 0 (Z.to_nat (max_num_columns md)))
    (vector.clear v).

Definition select_columns (args : pq_read_arg) (f : frame) : step :=
  let md := file_md f in
  if max_num_columns md <=? 0 then Stop (Returned GDF_DATASET_EMPTY) f
  else
    match get_index_col md with
    | None => Stop Thrown f
    | Some index_col_name =>
        let f := set_index_col_name index_col_name f in
        let col_indexes := vector.iota (Z.to_nat (max_num_columns md)) in
        let col_indexes :=
          match use_cols args with
          | Some cols => filter_columns md (map c_str cols ++ [index_col_name]) col_indexes
          | None => col_indexes
          end in
        let f := set_col_indexes col_indexes f in
        if vector.empty col_indexes then Stop (Returned GDF_SUCCESS) f
        else Next f
    end.

(** *** lines 453-477: the output columns.  [col_indexes] is cleared on
    line 458 and indexed on line 462. *)

Definition init_column (f : frame) (i : nat) : gdf_column.t :=
  let md := file_md f in
  let col := column_at md (vector.at_unchecked (col_indexes f) i) in
  let schema := schema_at md (ColumnChunk.schema_idx col) in
  let ty := to_dtype (SchemaElement.type schema) (SchemaElement.converted_type schema) in
  {| gdf_column.data := nullptr; gdf_column.valid := nullptr;
     gdf_column.size := to_int32 (FileMetaData.num_rows md);
     gdf_column.dtype := fst ty;
     gdf_column.null_count := 0;
     gdf_column.dtype_info := snd ty;
     gdf_column.col_name := c_str (column_name col) |}.

Definition find_index_col (f : frame) (n : nat) : Z :=
  fold_left
    (fun index_col i =>
       let col := column_at (file_md f) (vector.at_unchecked (col_indexes f) i) in
       if String.eqb (column_name col) (index_col_name f) then Z.of_nat i
       else index_col)
    (seq 0 n) (index_col f).

Definition init_columns (f : frame) : step :=
  let num_cols := to_int32 (Z.of_nat (vector.size (col_indexes f))) in
  let f := set_num_columns num_cols f in
  let f := set_col_indexes (vector.clear (col_indexes f)) f in
  let n := Z.to_nat num_cols in
  let f := set_index_col (find_index_col f n) f in
  Next (set_columns (map (init_column f) (seq 0 n)) f).

(** *** lines 251-255 and 479-545: the chunk descriptors

    Fields of [ColumnChunkDesc] take the assigned value; the casts the
    reader writes are applied. *)

Definition alloc_chunks (rowgroups columns : Z) : status_fn := fun f =>
  let n := to_int32 (to_size_t (rowgroups * columns)) in
  let f := with_state (parquet_state.set_max_num_chunks n) f in
  RMM_TRY (RMM_ALLOC buf_chunk_desc_dev n) f (fun f =>
  CUDA_TRY (cudaMallocHost buf_chunk_desc n) f falls_off_the_end).

Fixpoint find_column (name : string) (cols : list gdf_column.t) (k : nat)
  : option nat :=
  match cols with
  | [] => None
  | c :: r =>
      if String.eqb name (gdf_column.col_name c) then Some k
      else find_column name r (S k)
  end.

Definition first_page_offset (cm : ColumnChunkMetaData.t) : Z :=
  if negb (ColumnChunkMetaData.dictionary_page_offset cm =? 0) then
    Z.min (ColumnChunkMetaData.data_page_offset cm)
          (ColumnChunkMetaData.dictionary_page_offset cm)
  else ColumnChunkMetaData.data_page_offset cm.

Definition chunk_type_length (schema : SchemaElement.t) (column : gdf_column.t) : Z :=
  let type_length :=
    if Type_eqb (SchemaElement.type schema) FIXED_LEN_BYTE_ARRAY
    then to_uint16 (Z.shiftl (SchemaElement.type_length schema) 3) else 0 in
  if gdf_dtype_eqb (gdf_column.dtype column) GDF_INT8 then 1
  else if gdf_dtype_eqb (gdf_column.dtype column) GDF_INT16 then 2
  else type_length.

Definition stage_chunk_data (col : ColumnChunk.t) (f : frame) : ptr * frame :=
  let cm := ColumnChunk.meta_data col in
  let n := ColumnChunkMetaData.total_compressed_size cm in
  if n >? 0 then
    let '(p, f) :=
      RMM_ALLOC_unchecked
        (buf_compressed_data (Z.to_nat (parquet_state.num_chunks (state f))))
        n nullptr f in
    let src := ptr_add (buffer_start buf_raw) (first_page_offset cm) in
    let f := log (cudaMemcpyAsync p src n) f in
    let bytes := firstn (Z.to_nat n) (skipn (Z.to_nat (first_page_offset cm)) (raw f)) in
    (p, set_gpu (gpu_store E (gpu f) p bytes) f)
  else (nullptr, f).

Definition add_chunk (rowgroup : RowGroup.t) (col : ColumnChunk.t) (k : nat)
    (f : frame) : frame :=
  let schema := schema_at (file_md f) (ColumnChunk.schema_idx col) in
  let cm := ColumnChunk.meta_data col in
  let column := nth k (columns f) zeroed_column in
  let '(p, f) := stage_chunk_data col f in
  let chunk :=
    {| ColumnChunkDesc.compressed_data := p;
       ColumnChunkDesc.compressed_size := ColumnChunkMetaData.total_compressed_size cm;
       ColumnChunkDesc.num_values := ColumnChunkMetaData.num_values cm;
       ColumnChunkDesc.start_row := num_rows f;
       ColumnChunkDesc.num_rows := to_uint32 (RowGroup.num_rows rowgroup);
       ColumnChunkDesc.max_def_level :=
         to_int16 (SchemaElement.max_definition_level schema);
       ColumnChunkDesc.max_rep_level :=
         to_int16 (SchemaElement.max_repetition_level schema);
       ColumnChunkDesc.def_level_bits :=
         required_bits E (SchemaElement.max_definition_level schema);
       ColumnChunkDesc.rep_level_bits :=
         required_bits E (SchemaElement.max_repetition_level schema);
       ColumnChunkDesc.data_type :=
         to_uint16 (Z.lor (Type_value E (SchemaElement.type schema))
                          (Z.shiftl (chunk_type_length schema column) 3));
       ColumnChunkDesc.num_data_pages := 0;
       ColumnChunkDesc.num_dict_pages := 0;
       ColumnChunkDesc.max_num_pages := 0;
       ColumnChunkDesc.page_info := nullptr;
       ColumnChunkDesc.str_dict_index := nullptr;
       ColumnChunkDesc.valid_map_base := nullptr;
       ColumnChunkDesc.column_data_base := nullptr |} in
  let f := set_chunk_map (chunk_map f ++ [(col, k)]) f in
  with_state
    (fun s => parquet_state.set_chunk_desc (parquet_state.chunk_desc s ++ [chunk]) s) f.

(** The body of the loop over the columns of a row group, lines 489-543. *)
Definition add_column_chunk (rowgroup : RowGroup.t) (f : frame)
    (col : ColumnChunk.t) : frame :=
  match find_column (column_name col) (columns f) 0 with
  | Some k =>
      if parquet_state.num_chunks (state f) <? parquet_state.max_num_chunks (state f)
      then add_chunk rowgroup col k f
      else f (* printf("Too many chunks!!!\n") *)
  | None => f
  end.

Definition add_rowgroup (f : frame) (rowgroup : RowGroup.t) : frame :=
  let f := fold_left (add_column_chunk rowgroup) (RowGroup.columns rowgroup) f in
  set_num_rows (to_int32 (num_rows f + RowGroup.num_rows rowgroup)) f.

Definition build_chunks (f : frame) : step :=
  let rowgroups := Z.of_nat (List.length (FileMetaData.row_groups (file_md f))) in
  GDF_TRY (alloc_chunks rowgroups (to_size_t (num_columns f)) f) (fun f =>
    (* chunk_map.resize(max_num_chunks) *)
    if parquet_state.max_num_chunks (state f) <? 0 then Stop Thrown f
    else Next (fold_left add_rowgroup (FileMetaData.row_groups (file_md f)) f)).

(** *** lines 266-276: [dispatch_chunk_op]

    A copy or a launch whose status the source discards is taken to
    happen. *)

Definition dispatch_chunk_op (chunk_op : frame -> frame) : status_fn := fun f =>
  let n := parquet_state.num_chunks (state f) in
  let host := buffer_start buf_chunk_desc in
  let dev := buffer_start buf_chunk_desc_dev in
  CUDA_TRY (cudaMemcpyAsync dev host n) f (fun f =>
    let f := with_state
               (fun s => parquet_state.set_chunk_desc_dev (parquet_state.chunk_desc s) s) f in
    let f := chunk_op f in
    CUDA_TRY (cudaMemcpyAsync host dev n) f (fun f =>
      let f := with_state
                 (fun s => parquet_state.set_chunk_desc
                             (overlay (parquet_state.chunk_desc_dev s)
                                      (parquet_state.chunk_desc s)) s) f in
      CUDA_TRY cudaStreamSynchronize f falls_off_the_end)).

(** [parquet::gpu::DecodePageHeaders(chunk_desc_dev, num_chunks, nullptr)] *)
Definition launch_page_headers (f : frame) : frame :=
  let s := state f in
  let f := log (launch_DecodePageHeaders (parquet_state.chunk_desc_dev s)) f in
  let r := DecodePageHeaders E (gpu f) (parquet_state.chunk_desc_dev s)
                             (parquet_state.page_index_dev s) in
  with_state
    (fun s =>
       parquet_state.set_chunk_desc_dev (overlay (fst r) (parquet_state.chunk_desc_dev s))
         (parquet_state.set_page_index_dev
            (overlay (snd r) (parquet_state.page_index_dev s)) s)) f.

(** *** lines 547-558: header pass 1 and the page count *)

Definition chunk_pages (c : ColumnChunkDesc.t) : Z :=
  ColumnChunkDesc.num_data_pages c + ColumnChunkDesc.num_dict_pages c.

Definition sum_pages (chunks : list ColumnChunkDesc.t) (total_pages : Z) : Z :=
  fold_left (fun t c => to_size_t (t + chunk_pages c)) chunks total_pages.

Definition count_pages (f : frame) : step :=
  GDF_TRY (dispatch_chunk_op launch_page_headers f) (fun f =>
    Next (with_state
            (fun s => parquet_state.set_total_pages
                        (sum_pages (parquet_state.chunk_desc s)
                                   (parquet_state.total_pages s)) s) f)).

(** *** lines 257-260 and 560-578: the page records and header pass 2 *)

Definition alloc_pages : status_fn := fun f =>
  let n := parquet_state.total_pages (state f) in
  RMM_TRY (RMM_ALLOC buf_page_index_dev n) f (fun f =>
    let f := with_state
               (parquet_state.set_page_index_dev (fresh_pages buf_page_index_dev n)) f in
    CUDA_TRY (cudaMallocHost buf_page_index n) f (fun f =>
      falls_off_the_end
        (with_state (parquet_state.set_page_index (fresh_pages buf_page_index n)) f))).

Fixpoint assign_page_info (chunks : list ColumnChunkDesc.t) (page_cnt : Z)
  : list ColumnChunkDesc.t :=
  match chunks with
  | [] => []
  | c :: r =>
      let max_num_pages := chunk_pages c in
      ColumnChunkDesc.set_pages max_num_pages
        (ptr_add (buffer_start buf_page_index_dev) page_cnt) c
      :: assign_page_info r (page_cnt + max_num_pages)
  end.

Definition decode_page_headers (f : frame) : step :=
  if parquet_state.total_pages (state f) >? 0 then
    GDF_TRY (alloc_pages f) (fun f =>
      let f := with_state
                 (fun s => parquet_state.set_chunk_desc
                             (assign_page_info (parquet_state.chunk_desc s) 0) s) f in
      GDF_TRY (dispatch_chunk_op launch_page_headers f) Next)
  else Next f.

(** *** lines 580-684: decompression *)

(** The chunks in order, each with its entry of [chunk_map]. *)
Definition mapped_chunks (f : frame)
  : list (ColumnChunkDesc.t * (ColumnChunk.t * nat)) :=
  combine (parquet_state.chunk_desc (state f)) (chunk_map f).

Definition chunk_codec (c : ColumnChunkDesc.t * (ColumnChunk.t * nat)) : Compression :=
  ColumnChunkMetaData.codec (ColumnChunk.meta_data (fst (snd c))).

(** lines 594-597 *)
Definition add_uncompressed (pages : list PageInfo.t) (page_cnt max_num_pages total : Z) : Z :=
  fold_left
    (fun t k =>
       to_size_t
         (t + PageInfo.uncompressed_page_size
                (page_at pages (to_size_t (page_cnt + Z.of_nat k)))))
    (seq 0 (Z.to_nat max_num_pages)) total.

(** lines 588-600; the result is [codec_page_cnt] and
    [total_decompressed_size] *)
Fixpoint scan_codec (codec : Compression) (pages : list PageInfo.t)
    (chunks : list (ColumnChunkDesc.t * (ColumnChunk.t * nat)))
    (page_cnt codec_page_cnt total : Z) : Z * Z :=
  match chunks with
  | [] => (codec_page_cnt, total)
  | c :: r =>
      let max_num_pages := ColumnChunkDesc.max_num_pages (fst c) in
      if Compression_eqb (chunk_codec c) codec then
        scan_codec codec pages r (to_size_t (page_cnt + max_num_pages))
          (to_size_t (codec_page_cnt + max_num_pages))
          (add_uncompressed pages page_cnt max_num_pages total)
      else
        scan_codec codec pages r (to_size_t (page_cnt + max_num_pages))
          codec_page_cnt total
  end.

(** lines 581-607 *)
Definition count_compressed_pages (f : frame) : frame :=
  let f := set_compressed_page_cnt [] f in
  let f := with_state
             (fun s => parquet_state.set_num_compressed_pages 0
                         (parquet_state.set_total_decompressed_size 0 s)) f in
  fold_left
    (fun f codec =>
       let s := state f in
       let r := scan_codec codec (parquet_state.page_index s) (mapped_chunks f)
                           0 0 (parquet_state.total_decompressed_size s) in
       let f := set_compressed_page_cnt (compressed_page_cnt f ++ [to_size_t (0 + fst r)]) f in
       with_state
         (fun s => parquet_state.set_num_compressed_pages
                     (to_size_t (parquet_state.num_compressed_pages s + fst r))
                     (parquet_state.set_total_decompressed_size (snd r) s)) f)
    g_supportedCodecs f.

Definition store_at {A} (i : Z) (x : A) (l : list A) : list A :=
  if i <? 0 then l else store (Z.to_nat i) x l.

(** lines 637-645; the second component is [decompressed_ofs] *)
Definition fill_page (s : frame * Z) (i : Z) : frame * Z :=
  let '(f, decompressed_ofs) := s in
  let page := page_at (parquet_state.page_index (state f)) i in
  let dst := ptr_add (parquet_state.decompressed_pages (state f)) decompressed_ofs in
  let f := set_inflate_in
             (inflate_in f ++
              [{| srcDevice := PageInfo.compressed_page_data page;
                  srcSize := PageInfo.compressed_page_size page;
                  dstDevice := dst;
                  dstSize := PageInfo.uncompressed_page_size page |}]) f in
  let f := set_inflate_out
             (inflate_out f ++ [{| bytes_written := 0; status := -1000; reserved := 0 |}]) f in
  let f := with_state
             (fun s => parquet_state.set_page_index
                         (store_at i (PageInfo.set_compressed_page_data dst page)
                                   (parquet_state.page_index s)) s) f in
  (f, to_size_t (decompressed_ofs + PageInfo.uncompressed_page_size page)).

(** lines 631-649 *)
Fixpoint fill_codec (codec : Compression)
    (chunks : list (ColumnChunkDesc.t * (ColumnChunk.t * nat)))
    (page_cnt : Z) (s : frame * Z) : frame * Z :=
  match chunks with
  | [] => s
  | c :: r =>
      let max_num_pages := ColumnChunkDesc.max_num_pages (fst c) in
      let s :=
        if Compression_eqb (chunk_codec c) codec then
          fold_left (fun s k => fill_page s (page_cnt + Z.of_nat k))
                    (seq 0 (Z.to_nat max_num_pages)) s
        else s in
      fill_codec codec r (page_cnt + max_num_pages) s
  end.

(** lines 652-663 *)
Definition launch_inflate (codec : Compression) (start_pos : nat) (f : frame) : frame :=
  let count := Z.of_nat (List.length (inflate_in f)) - Z.of_nat start_pos in
  let ins := skipn start_pos (inflate_in f) in
  let outs := skipn start_pos (inflate_out f) in
  let run kernel c :=
    let f := log c f in
    let r := kernel (gpu f) ins outs in
    set_gpu (fst r)
      (set_inflate_out (firstn start_pos (inflate_out f) ++ overlay (snd r) outs) f) in
  match codec with
  | GZIP => run (gpuinflate E) (launch_gpuinflate (Z.of_nat start_pos) count)
  | SNAPPY => run (gpu_unsnap E) (launch_gpu_unsnap (Z.of_nat start_pos) count)
  | _ => f (* printf("This is a bug\n") *)
  end.

(** lines 625-665, one round of the loop over the codecs *)
Definition inflate_codec (s : frame * Z) (codec_cnt : Compression * Z) : frame * Z :=
  let '(codec, cnt) := codec_cnt in
  if cnt >? 0 then
    let start_pos := List.length (inflate_in (fst s)) in
    let '(f, decompressed_ofs) := fill_codec codec (mapped_chunks (fst s)) 0 s in
    let count := Z.of_nat (List.length (inflate_in f)) - Z.of_nat start_pos in
    let at_ b := ptr_add (buffer_start b) (Z.of_nat start_pos) in
    let f := log (cudaMemcpyAsync (at_ buf_inflate_in_dev) (at_ buf_inflate_in) count) f in
    let f := log (cudaMemcpyAsync (at_ buf_inflate_out_dev) (at_ buf_inflate_out) count) f in
    let f := launch_inflate codec start_pos f in
    let f := log (cudaMemcpyAsync (at_ buf_inflate_out) (at_ buf_inflate_out_dev) count) f in
    (f, decompressed_ofs)
  else s.

(** lines 609-683 *)
Definition inflate_pages (f : frame) : frame :=
  let n := parquet_state.num_compressed_pages (state f) in
  let f := set_inflate_out [] (set_inflate_in [] f) in
  let f := log (cudaMallocHost buf_inflate_in n) f in
  let f := log (RMM_ALLOC buf_inflate_in_dev n) f in
  let f := log (cudaMallocHost buf_inflate_out n) f in
  let f := log (RMM_ALLOC buf_inflate_out_dev n) f in
  let '(p, f) :=
    RMM_ALLOC_unchecked buf_decompressed_pages
      (parquet_state.total_decompressed_size (state f))
      (parquet_state.decompressed_pages (state f)) f in
  let f := with_state (parquet_state.set_decompressed_pages p) f in
  let f := fst (fold_left inflate_codec
                          (combine g_supportedCodecs (compressed_page_cnt f)) (f, 0)) in
  let f := log cudaStreamSynchronize f in
  (* lines 670-674: the statuses are printed *)
  let total := parquet_state.total_pages (state f) in
  let f := log (cudaMemcpyAsync (buffer_start buf_page_index_dev)
                                (buffer_start buf_page_index) total) f in
  let f := with_state
             (fun s => parquet_state.set_page_index_dev
                         (copy_n (Z.to_nat total) (parquet_state.page_index s)
                                 (parquet_state.page_index_dev s)) s) f in
  log cudaStreamSynchronize f.

Definition decompress_pages (f : frame) : step :=
  if parquet_state.total_pages (state f) >? 0 then
    let f := count_compressed_pages f in
    if parquet_state.num_compressed_pages (state f) >? 0 then Next (inflate_pages f)
    else Next f
  else Next f.

(** *** lines 318-337 and 686-687: the column buffers.  The byte count
    of line 332 is a product of two [int]s, converted to [size_t] for
    the allocator. *)

Definition column_byte_width (c : gdf_column.t) : Z :=
  if gdf_dtype_eqb (gdf_column.dtype c) GDF_STRING then sizeof_nvstrdesc_s E
  else get_column_byte_width E c.

Fixpoint alloc_columns (todo : list nat) : status_fn := fun f =>
  match todo with
  | [] => (GDF_SUCCESS, f)
  | i :: rest =>
      let c := nth i (columns f) zeroed_column in
      let num_rows := Z.max (gdf_column.size c) 1 in
      let num_masks := gdf_get_num_chars_bitmask E num_rows in
      let data := buffer_start (buf_column_data i) in
      let valid := buffer_start (buf_column_valid i) in
      RMM_TRY (RMM_ALLOC (buf_column_data i)
                         (to_size_t (to_int32 (num_rows * column_byte_width c)))) f (fun f =>
        let c := gdf_column.set_data data c in
        let f := set_columns (store i c (columns f)) f in
        RMM_TRY (RMM_ALLOC (buf_column_valid i) num_masks) f (fun f =>
          let c := gdf_column.set_valid valid c in
          let f := set_columns (store i c (columns f)) f in
          CUDA_TRY (cudaMemset valid num_masks) f (fun f =>
            alloc_columns rest (set_gpu (gpu_fill E (gpu f) valid num_masks) f))))
  end.

Definition alloc_column_data (f : frame) : step :=
  GDF_TRY (alloc_columns (seq 0 (Z.to_nat (num_columns f))) f) Next.

(** *** lines 262-264 and 689-724: the string dictionaries *)

Definition has_string_dictionary (md : FileMetaData.t)
    (c : ColumnChunkDesc.t * (ColumnChunk.t * nat)) : bool :=
  Type_eqb (SchemaElement.type (schema_at md (ColumnChunk.schema_idx (fst (snd c)))))
           BYTE_ARRAY
  && (ColumnChunkDesc.num_dict_pages (fst c) >? 0).

(** lines 691-699 *)
Fixpoint count_str_indices (md : FileMetaData.t) (pages : list PageInfo.t)
    (chunks : list (ColumnChunkDesc.t * (ColumnChunk.t * nat)))
    (page_cnt total_str_indices : Z) : Z :=
  match chunks with
  | [] => total_str_indices
  | c :: r =>
      count_str_indices md pages r
        (page_cnt + ColumnChunkDesc.max_num_pages (fst c))
        (if has_string_dictionary md c
         then to_size_t (total_str_indices + PageInfo.num_values (page_at pages page_cnt))
         else total_str_indices)
  end.

Definition alloc_dictionaries : status_fn := fun f =>
  RMM_TRY (RMM_ALLOC buf_str_dict_index (parquet_state.total_str_indices (state f))) f
    (fun f =>
       falls_off_the_end
         (with_state
            (parquet_state.set_str_dict_index (buffer_start buf_str_dict_index)) f)).

(** lines 706-718 *)
Fixpoint wire_chunks (md : FileMetaData.t) (pages : list PageInfo.t)
    (cols : list gdf_column.t) (str_dict_index : ptr)
    (chunks : list (ColumnChunkDesc.t * (ColumnChunk.t * nat)))
    (page_cnt str_ofs : Z) : list ColumnChunkDesc.t :=
  match chunks with
  | [] => []
  | c :: r =>
      let gdf := nth (snd (snd c)) cols zeroed_column in
      let dict := has_string_dictionary md c in
      let desc :=
        if dict then ColumnChunkDesc.set_str_dict_index (ptr_add str_dict_index str_ofs) (fst c)
        else fst c in
      ColumnChunkDesc.set_column (gdf_column.valid gdf) (gdf_column.data gdf) desc
      :: wire_chunks md pages cols str_dict_index r
           (page_cnt + ColumnChunkDesc.max_num_pages (fst c))
           (if dict then str_ofs + PageInfo.num_values (page_at pages page_cnt)
            else str_ofs)
  end.

Definition build_dictionaries (f : frame) : step :=
  let md := file_md f in
  let total :=
    count_str_indices md (parquet_state.page_index (state f)) (mapped_chunks f) 0 0 in
  let f := with_state (parquet_state.set_total_str_indices total) f in
  let f := if total >? 0 then snd (alloc_dictionaries f) else f in
  let s := state f in
  let wired :=
    wire_chunks md (parquet_state.page_index s) (columns f)
                (parquet_state.str_dict_index s) (mapped_chunks f) 0 0 in
  let f := with_state (parquet_state.set_chunk_desc wired) f in
  let f := log (cudaMemcpyAsync (buffer_start buf_chunk_desc_dev)
                                (buffer_start buf_chunk_desc)
                                (parquet_state.num_chunks (state f))) f in
  let f := with_state
             (fun s => parquet_state.set_chunk_desc_dev (parquet_state.chunk_desc s) s) f in
  if total >? 0 then
    let s := state f in
    let f := log (launch_BuildStringDictionaryIndex (parquet_state.num_chunks s)) f in
    let f := set_gpu (BuildStringDictionaryIndex E (gpu f)
                        (parquet_state.chunk_desc_dev s)
                        (parquet_state.page_index_dev s)) f in
    Next (log cudaStreamSynchronize f)
  else Next f.

(** *** lines 726-741: page data and null counts *)

(** lines 733-739 *)
Definition add_nulls (num_chunks : Z) (map : list (ColumnChunk.t * nat))
    (cols : list gdf_column.t) (page : PageInfo.t) : list gdf_column.t :=
  if negb (PageInfo.num_rows page =? 0) then
    let chunk := PageInfo.chunk_idx page in
    if (chunk >=? 0) && (chunk <? num_chunks) then
      match nth_error map (Z.to_nat chunk) with
      | Some (_, k) =>
          match nth_error cols k with
          | Some c =>
              store k
                (gdf_column.set_null_count
                   (gdf_column.null_count c
                    + (PageInfo.num_rows page - PageInfo.valid_count page)) c)
                cols
          | None => cols
          end
      | None => cols
      end
    else cols
  else cols.

Definition decode_page_data (f : frame) : step :=
  let total := parquet_state.total_pages (state f) in
  if total >? 0 then
    let s := state f in
    let total_rows := FileMetaData.num_rows (file_md f) in
    let f := log (launch_DecodePageData (to_int32 total) (parquet_state.num_chunks s)
                                        total_rows) f in
    let r := DecodePageData E (gpu f) (parquet_state.page_index_dev s)
                            (parquet_state.chunk_desc_dev s) total_rows in
    let f := set_gpu (fst r) f in
    let f := with_state
               (fun s => parquet_state.set_page_index_dev
                           (overlay (snd r) (parquet_state.page_index_dev s)) s) f in
    let f := log (cudaMemcpyAsync (buffer_start buf_page_index)
                                  (buffer_start buf_page_index_dev) total) f in
    let f := with_state
               (fun s => parquet_state.set_page_index
                           (copy_n (Z.to_nat total) (parquet_state.page_index_dev s)
                                   (parquet_state.page_index s)) s) f in
    let f := log cudaStreamSynchronize f in
    let pages := firstn (Z.to_nat (to_int32 total)) (parquet_state.page_index (state f)) in
    Next (set_columns
            (fold_left (add_nulls (parquet_state.num_chunks (state f)) (chunk_map f))
                       pages (columns f)) f)
  else Next f.

(** *** lines 743-753: the result *)

Definition transfer_ownership (f : frame) : step :=
  Stop (Returned GDF_SUCCESS)
    (set_out
       (Some {| data_out := columns f;
                num_cols_out := num_columns f;
                num_rows_out := num_rows f;
                index_col_out :=
                  if negb (index_col f =? -1) then Some (index_col f) else None |}) f).

(** *** [read_parquet] *)

Definition entry : frame :=
  {| raw := []; file_md := FileMetaData.empty; index_col_name := EmptyString;
     col_indexes := vector.iota 0; columns := []; num_columns := 0;
     num_rows := 0; index_col := -1; chunk_map := []; compressed_page_cnt := [];
     inflate_in := []; inflate_out := []; state := parquet_state.init;
     out := None; trace := []; gpu := gpu_initial E |}.

Definition pipeline (args : pq_read_arg) : list (frame -> step) :=
  [ check_file args; read_metadata; select_columns args; init_columns;
    build_chunks; count_pages; decode_page_headers; decompress_pages;
    alloc_column_data; build_dictionaries; decode_page_data;
    transfer_ownership ].

Fixpoint run (stages : list (frame -> step)) (f : frame) : step :=
  match stages with
  | [] => Next f
  | stage :: rest =>
      match stage f with
      | Next f' => run rest f'
      | stop => stop
      end
  end.

Definition read_parquet (args : pq_read_arg) : outcome * frame :=
  match run (pipeline args) entry with
  | Stop o f => (o, f)
  | Next f => (Returned GDF_SUCCESS, f)
  end.

(** The frame a stage leaves, whether it goes on or returns. *)
Definition after (s : step) : frame :=
  match s with Next f => f | Stop _ f => f end.

(** The read got through the first [n] stages of the pipeline and stands
    in [f]. *)
Definition reaches (args : pq_read_arg) (n : nat) (f : frame) : Prop :=
  run (firstn n (pipeline args)) entry = Next f.

End Reader.

(** ** Vocabulary of the properties *)

Definition sumZ (l : list Z) : Z := fold_right Z.add 0 l.

(** The counts of the allocations of one buffer that a trace holds. *)
Definition page_index_allocs (tr : list call) : list Z :=
  flat_map (fun c => match c with RMM_ALLOC buf_page_index_dev n => [n] | _ => [] end) tr.

Definition decompressed_allocs (tr : list call) : list Z :=
  flat_map (fun c => match c with RMM_ALLOC buf_decompressed_pages n => [n] | _ => [] end) tr.

Definition str_dict_index_allocs (tr : list call) : list Z :=
  flat_map (fun c => match c with RMM_ALLOC buf_str_dict_index n => [n] | _ => [] end) tr.

Definition col_sig (c : gdf_column.t) :=
  (gdf_column.col_name c, gdf_column.dtype c, gdf_column.dtype_info c, gdf_column.size c).

Definition supported (c : Compression) : bool :=
  existsb (Compression_eqb c) g_supportedCodecs.

Definition of_codec (codec : Compression) (x : Compression * Z * list PageInfo.t) : bool :=
  Compression_eqb (fst (fst x)) codec.

Definition uncompressed_volume (l : list (Compression * Z * list PageInfo.t)) : Z :=
  sumZ (map PageInfo.uncompressed_page_size (flat_map snd l)).

Definition page_total (l : list (Compression * Z * list PageInfo.t)) : Z :=
  sumZ (map (fun x => snd (fst x)) l).

Definition missing_values (p : PageInfo.t) : Z :=
  PageInfo.num_rows p - PageInfo.valid_count p.

(** The page record counts for column [k]: it has rows, its chunk index
    names a chunk, and that chunk is mapped to column [k]. *)
Definition counts_for (num_chunks : Z) (map : list (ColumnChunk.t * nat)) (k : nat)
    (p : PageInfo.t) : bool :=
  negb (PageInfo.num_rows p =? 0)
  && ((PageInfo.chunk_idx p >=? 0) && (PageInfo.chunk_idx p <? num_chunks))
  && match nth_error map (Z.to_nat (PageInfo.chunk_idx p)) with
     | Some (_, k') => Nat.eqb k' k
     | None => false
     end.

(** The page record belongs to a chunk of column [k], rows or not. *)
Definition page_of_column (num_chunks : Z) (map : list (ColumnChunk.t * nat)) (k : nat)
    (p : PageInfo.t) : bool :=
  ((PageInfo.chunk_idx p >=? 0) && (PageInfo.chunk_idx p <? num_chunks))
  && match nth_error map (Z.to_nat (PageInfo.chunk_idx p)) with
     | Some (_, k') => Nat.eqb k' k
     | None => false
     end.

Definition wanted (names : list string) (c : ColumnChunk.t) : bool :=
  existsb (String.eqb (column_name c)) names.

(** What a vector holds: the first [size] slots of its storage. *)
Definition contents (v : vector.t) : list Z :=
  firstn (vector.size v) (vector.storage v).

Section Properties.

Context {gpu_mem : Type} (E : Environment gpu_mem).

#[local] Abbreviation frame := (@frame gpu_mem).
#[local] Abbreviation step := (@step gpu_mem).

(** Parts of a frame that stages leave alone. *)
Definition selection (f : frame) :=
  (file_md f, index_col_name f, num_columns f, raw f, out f, map col_sig (columns f)).

Definition nulls (f : frame) := map gdf_column.null_count (columns f).

Definition accounts (f : frame) :=
  (parquet_state.total_pages (state f),
   page_index_allocs (trace f), decompressed_allocs (trace f)).

Definition everything (f : frame) := (selection f, nulls f, accounts f).

Definition but_page_count (f : frame) :=
  (selection f, nulls f, page_index_allocs (trace f), decompressed_allocs (trace f)).
Definition but_page_allocs (f : frame) :=
  (selection f, nulls f, parquet_state.total_pages (state f), decompressed_allocs (trace f)).
Definition but_decompressed_allocs (f : frame) :=
  (selection f, nulls f, parquet_state.total_pages (state f), page_index_allocs (trace f)).
Definition but_nulls (f : frame) := (selection f, accounts f).
Definition but_selection (f : frame) := (accounts f, out f).

Definition keeps_through {C} (P : frame -> C) (s : frame -> step) : Prop :=
  forall f, P (after (s f)) = P f.

Definition column_type (md : FileMetaData.t) (c : ColumnChunk.t) : gdf_dtype * gdf_time_unit :=
  let schema := schema_at E md (ColumnChunk.schema_idx c) in
  to_dtype (SchemaElement.type schema) (SchemaElement.converted_type schema).

(** The page records of each chunk as the host holds them: those of chunk
    [i] start where those of chunk [i-1] end. *)
Fixpoint chunk_page_records (pages : list PageInfo.t)
    (chunks : list (ColumnChunkDesc.t * (ColumnChunk.t * nat))) (page_cnt : Z)
  : list (Compression * Z * list PageInfo.t) :=
  match chunks with
  | [] => []
  | c :: r =>
      let n := ColumnChunkDesc.max_num_pages (fst c) in
      (chunk_codec c, n,
       map (fun k => page_at E pages (to_size_t (page_cnt + Z.of_nat k)))
           (seq 0 (Z.to_nat n)))
      :: chunk_page_records pages r (to_size_t (page_cnt + n))
  end.

Definition compressed_chunks (f : frame) : list (Compression * Z * list PageInfo.t) :=
  filter (fun x => supported (fst (fst x)))
         (chunk_page_records (parquet_state.page_index (state f)) (mapped_chunks f) 0).

Definition compressed_pages (f : frame) : list PageInfo.t :=
  flat_map snd (compressed_chunks f).

(** Per chunk, the number of index entries it is given: the value count
    of its first page among [pages] when the reader takes it for a string
    chunk with a dictionary, none otherwise. *)
Fixpoint dictionary_sizes (md : FileMetaData.t) (pages : list PageInfo.t)
    (chunks : list (ColumnChunkDesc.t * (ColumnChunk.t * nat))) (page_cnt : Z)
  : list Z :=
  match chunks with
  | [] => []
  | c :: r =>
      (if has_string_dictionary E md c
       then PageInfo.num_values (page_at E pages page_cnt) else 0)
      :: dictionary_sizes md pages r (page_cnt + ColumnChunkDesc.max_num_pages (fst c))
  end.

(** The page records the null-count loop of a frame looks at. *)
Definition scanned_pages (f : frame) : list PageInfo.t :=
  if parquet_state.total_pages (state f) >? 0 then
    firstn (Z.to_nat (to_int32 (parquet_state.total_pages (state f))))
           (parquet_state.page_index (state f))
  else [].

Definition counted_pages (f : frame) (k : nat) : list PageInfo.t :=
  filter (counts_for (parquet_state.num_chunks (state f)) (chunk_map f) k)
         (scanned_pages f).

(** *** Three sentences of the specification, word for word

    Each is compared with what the reader does further down. *)

(** In every read that gets through header pass 1 the page-record array
    is allocated exactly once, with the total page count as its length. *)
Definition page_index_allocated_once (args : pq_read_arg) : Prop :=
  forall f, reaches E args 6 f ->
    page_index_allocs (trace (snd (read_parquet E args)))
    = [parquet_state.total_pages (state f)].

(** For every output column, the null count is the row count less the valid
    counts of that column's pages. *)
Definition null_count_is_rows_less_valid (args : pq_read_arg) : Prop :=
  forall f o k c,
    read_parquet E args = (Returned GDF_SUCCESS, f) -> out f = Some o ->
    nth_error (data_out o) k = Some c ->
    gdf_column.null_count c
    = gdf_column.size c
      - sumZ (map PageInfo.valid_count
                (filter (page_of_column (parquet_state.num_chunks (state f)) (chunk_map f) k)
                        (parquet_state.page_index (state f)))).

(** A chunk of a string-typed column that has a dictionary page. *)
Definition string_typed_with_dictionary (cols : list gdf_column.t)
    (c : ColumnChunkDesc.t * (ColumnChunk.t * nat)) : bool :=
  gdf_dtype_eqb (gdf_column.dtype (nth (snd (snd c)) cols zeroed_column)) GDF_STRING
  && (ColumnChunkDesc.num_dict_pages (fst c) >? 0).

Fixpoint first_page_values (cols : list gdf_column.t) (pages : list PageInfo.t)
    (chunks : list (ColumnChunkDesc.t * (ColumnChunk.t * nat))) (page_cnt : Z)
  : list Z :=
  match chunks with
  | [] => []
  | c :: r =>
      (if string_typed_with_dictionary cols c
       then PageInfo.num_values (page_at E pages page_cnt) else 0)
      :: first_page_values cols pages r (page_cnt + ColumnChunkDesc.max_num_pages (fst c))
  end.

(** The dictionary index has as many entries as the first pages of the
    dictionary-bearing string-typed chunks have values; the pages are
    those the header decode has left on the accelerator ([f7] is the
    read when the header decode is done). *)
Definition dictionary_index_covers_string_chunks (args : pq_read_arg) : Prop :=
  forall f7 f f',
    reaches E args 7 f7 -> reaches E args 9 f -> build_dictionaries E f = Next f' ->
    parquet_state.total_str_indices (state f')
    = sumZ (first_page_values (columns f) (parquet_state.page_index_dev (state f7))
                              (mapped_chunks f) 0).

(** The host's page records are the accelerator's.  The reader takes
    this for granted from line 577 on; nothing before line 729 copies
    the records to the host. *)
Definition host_pages_current (f : frame) : Prop :=
  parquet_state.page_index (state f) = parquet_state.page_index_dev (state f).

(** An environment in which no call of the allocator or of the runtime
    fails, and in which a function that ends without [return] is read as
    successful. *)
Definition benign : Prop :=
  (forall tr c, runtime_ok E tr c = true)
  /\ (forall tr, no_return_value E tr = GDF_SUCCESS).

(** The chunks of the file whose column is among the output columns. *)
Definition matching_chunks (md : FileMetaData.t) (cols : list gdf_column.t)
  : list ColumnChunk.t :=
  flat_map
    (fun rg =>
       filter (fun col => match find_column (column_name col) cols 0 with
                          | Some _ => true
                          | None => false
                          end)
              (RowGroup.columns rg))
    (FileMetaData.row_groups md).

End Properties.

(** ** A bench: a concrete environment and files to run the reader on *)

Module Bench.

(** What the bench's parser and kernels answer. *)
Record setup := {
  files : list (string * list Byte.byte);
  parse_verdict : bool;
  parsed : FileMetaData.t;
  (** per chunk, the page records the header kernel finds *)
  found_pages : list (list PageInfo.t);
  (** per page, row count and valid count after value decoding *)
  decoded : list (Z * Z);
  inflate_status : Z;
  (** what the page-locked block of the host's page array holds when it
      is handed out *)
  pinned : list PageInfo.t }.

Definition magic : Z := 0x31524150. (* "PAR1" *)

Definition byte_of (n : Z) : Byte.byte :=
  match Byte.of_N (Z.to_N n) with Some b => b | None => Byte.x00 end.

Definition le32 (n : Z) : list Byte.byte :=
  [byte_of (n mod 256); byte_of (n / 256 mod 256);
   byte_of (n / 65536 mod 256); byte_of (n / 16777216 mod 256)].

(** A file with the given two magics and footer length around [body]. *)
Definition file_image (head : Z) (body : list Byte.byte) (footer_len tail : Z)
  : list Byte.byte :=
  le32 head ++ body ++ le32 footer_len ++ le32 tail.

Definition zero_page : PageInfo.t :=
  {| PageInfo.compressed_page_data := nullptr;
     PageInfo.uncompressed_page_size := 0; PageInfo.compressed_page_size := 0;
     PageInfo.num_values := 0; PageInfo.chunk_row := 0; PageInfo.num_rows := 0;
     PageInfo.chunk_idx := 0; PageInfo.flags := 0; PageInfo.encoding := 0;
     PageInfo.valid_count := 0 |}.

Definition page (chunk size values : Z) : PageInfo.t :=
  {| PageInfo.compressed_page_data := nullptr;
     PageInfo.uncompressed_page_size := size; PageInfo.compressed_page_size := size;
     PageInfo.num_values := values; PageInfo.chunk_row := 0; PageInfo.num_rows := 0;
     PageInfo.chunk_idx := chunk; PageInfo.flags := 0; PageInfo.encoding := 0;
     PageInfo.valid_count := 0 |}.

Definition zero_schema : SchemaElement.t :=
  {| SchemaElement.type := INT32; SchemaElement.converted_type := UNKNOWN;
     SchemaElement.type_length := 0; SchemaElement.name := EmptyString;
     SchemaElement.max_definition_level := 0;
     SchemaElement.max_repetition_level := 0 |}.

Definition zero_chunk : ColumnChunk.t :=
  {| ColumnChunk.meta_data :=
       {| ColumnChunkMetaData.path_in_schema := [];
          ColumnChunkMetaData.codec := UNCOMPRESSED;
          ColumnChunkMetaData.num_values := 0;
          ColumnChunkMetaData.total_compressed_size := 0;
          ColumnChunkMetaData.data_page_offset := 0;
          ColumnChunkMetaData.dictionary_page_offset := 0 |};
     ColumnChunk.schema_idx := 0 |}.

(** The header kernel: the numbers of pages of each chunk, and the page
    records into the page array once the descriptors point into it. *)
Fixpoint found_counts (chunks : list ColumnChunkDesc.t) (found : list (list PageInfo.t))
  : list ColumnChunkDesc.t :=
  match chunks, found with
  | c :: r, pages :: found' =>
      {| ColumnChunkDesc.compressed_data := ColumnChunkDesc.compressed_data c;
         ColumnChunkDesc.compressed_size := ColumnChunkDesc.compressed_size c;
         ColumnChunkDesc.num_values := ColumnChunkDesc.num_values c;
         ColumnChunkDesc.start_row := ColumnChunkDesc.start_row c;
         ColumnChunkDesc.num_rows := ColumnChunkDesc.num_rows c;
         ColumnChunkDesc.max_def_level := ColumnChunkDesc.max_def_level c;
         ColumnChunkDesc.max_rep_level := ColumnChunkDesc.max_rep_level c;
         ColumnChunkDesc.def_level_bits := ColumnChunkDesc.def_level_bits c;
         ColumnChunkDesc.rep_level_bits := ColumnChunkDesc.rep_level_bits c;
         ColumnChunkDesc.data_type := ColumnChunkDesc.data_type c;
         ColumnChunkDesc.num_data_pages :=
           Z.of_nat (List.length (filter (fun p => PageInfo.flags p =? 0) pages));
         ColumnChunkDesc.num_dict_pages :=
           Z.of_nat (List.length (filter (fun p => negb (PageInfo.flags p =? 0)) pages));
         ColumnChunkDesc.max_num_pages := ColumnChunkDesc.max_num_pages c;
         ColumnChunkDesc.page_info := ColumnChunkDesc.page_info c;
         ColumnChunkDesc.str_dict_index := ColumnChunkDesc.str_dict_index c;
         ColumnChunkDesc.valid_map_base := ColumnChunkDesc.valid_map_base c;
         ColumnChunkDesc.column_data_base := ColumnChunkDesc.column_data_base c |}
      :: found_counts r found'
  | _, _ => chunks
  end.

Definition decode_page (p : PageInfo.t) (rv : Z * Z) : PageInfo.t :=
  {| PageInfo.compressed_page_data := PageInfo.compressed_page_data p;
     PageInfo.uncompressed_page_size := PageInfo.uncompressed_page_size p;
     PageInfo.compressed_page_size := PageInfo.compressed_page_size p;
     PageInfo.num_values := PageInfo.num_values p;
     PageInfo.chunk_row := PageInfo.chunk_row p;
     PageInfo.num_rows := fst rv; PageInfo.chunk_idx := PageInfo.chunk_idx p;
     PageInfo.flags := PageInfo.flags p; PageInfo.encoding := PageInfo.encoding p;
     PageInfo.valid_count := snd rv |}.

Definition env (s : setup) : Environment unit :=
  {| PARQUET_MAGIC := magic;
     Type_value := fun t =>
       match t with
       | BOOLEAN => 0 | INT32 => 1 | INT64 => 2 | INT96 => 3 | FLOAT => 4
       | DOUBLE => 5 | BYTE_ARRAY => 6 | FIXED_LEN_BYTE_ARRAY => 7
       end;
     sizeof_nvstrdesc_s := 16;
     file_content := fun name =>
       match List.find (fun e => String.eqb (fst e) name) (files s) with
       | Some e => Some (snd e)
       | None => None
       end;
     cp_read := fun _ => (parse_verdict s, parsed s);
     cp_InitSchema := fun md => (true, md);
     NumRequiredBits := fun n => Z.log2_up (n + 1);
     gdf_get_num_chars_bitmask := fun n => (n + 7) / 8;
     get_column_byte_width := fun c =>
       match gdf_column.dtype c with
       | GDF_INT8 => 1 | GDF_INT16 => 2 | GDF_INT32 | GDF_FLOAT32 | GDF_DATE32 => 4
       | GDF_INT64 | GDF_FLOAT64 | GDF_DATE64 => 8
       | _ => 0
       end;
     runtime_ok := fun _ _ => true;
     no_return_value := fun _ => GDF_SUCCESS;
     uninit_PageInfo := fun b i =>
       match b with
       | buf_page_index => if i <? 0 then zero_page else nth (Z.to_nat i) (pinned s) zero_page
       | _ => zero_page
       end;
     stray_SchemaElement := fun _ => zero_schema;
     stray_ColumnChunk := fun _ => zero_chunk;
     gpu_initial := tt;
     gpu_store := fun _ _ _ => tt;
     gpu_fill := fun _ _ _ => tt;
     DecodePageHeaders := fun _ chunks pages =>
       (found_counts chunks (found_pages s),
        match pages with [] => [] | _ => List.concat (found_pages s) end);
     gpuinflate := fun _ _ outs =>
       (tt, map (fun o => {| bytes_written := bytes_written o;
                             status := inflate_status s;
                             reserved := reserved o |}) outs);
     gpu_unsnap := fun _ _ outs =>
       (tt, map (fun o => {| bytes_written := bytes_written o;
                             status := inflate_status s;
                             reserved := reserved o |}) outs);
     BuildStringDictionaryIndex := fun _ _ _ => tt;
     DecodePageData := fun _ pages _ _ =>
       (tt, map (fun pr => decode_page (fst pr) (snd pr)) (combine pages (decoded s))) |}.

Definition column (name : string) (c : Compression) (idx : Z) : ColumnChunk.t :=
  {| ColumnChunk.meta_data :=
       {| ColumnChunkMetaData.path_in_schema := [name];
          ColumnChunkMetaData.codec := c;
          ColumnChunkMetaData.num_values := 0;
          ColumnChunkMetaData.total_compressed_size := 0;
          ColumnChunkMetaData.data_page_offset := 4;
          ColumnChunkMetaData.dictionary_page_offset := 0 |};
     ColumnChunk.schema_idx := idx |}.

Definition element (name : string) (t : parquet_Type) : SchemaElement.t :=
  {| SchemaElement.type := t; SchemaElement.converted_type := UNKNOWN;
     SchemaElement.type_length := 0; SchemaElement.name := name;
     SchemaElement.max_definition_level := 1;
     SchemaElement.max_repetition_level := 0 |}.

Definition dictionary_page (chunk size values : Z) : PageInfo.t :=
  {| PageInfo.compressed_page_data := nullptr;
     PageInfo.uncompressed_page_size := size; PageInfo.compressed_page_size := size;
     PageInfo.num_values := values; PageInfo.chunk_row := 0; PageInfo.num_rows := 0;
     PageInfo.chunk_idx := chunk; PageInfo.flags := 1; PageInfo.encoding := 0;
     PageInfo.valid_count := 0 |}.

Definition good_file : list Byte.byte :=
  file_image magic (le32 0 ++ le32 0) 4 magic.

Definition bad_header_file : list Byte.byte :=
  file_image 0 (le32 0 ++ le32 0) 4 magic.

Definition row_group (rows : Z) (cols : list ColumnChunk.t) : RowGroup.t :=
  {| RowGroup.columns := cols; RowGroup.total_byte_size := 0; RowGroup.num_rows := rows |}.

Definition the_schema : list SchemaElement.t :=
  [ element "schema" INT32; element "a" INT32; element "b" BYTE_ARRAY;
    element "idx" INT64; element "f" FIXED_LEN_BYTE_ARRAY ].

Definition metadata (kv : list KeyValue.t) (rows : Z) (groups : list RowGroup.t)
  : FileMetaData.t :=
  {| FileMetaData.schema := the_schema; FileMetaData.num_rows := rows;
     FileMetaData.row_groups := groups; FileMetaData.key_value_metadata := kv |}.

Definition pandas_hint : list KeyValue.t :=
  [ {| KeyValue.key := "pandas";
       KeyValue.value := "{'index_columns': ['idx'], 'columns': []}" |} ].

Definition read_all : pq_read_arg := {| source := Some "f"%string; use_cols := None |}.
Definition read_only (cols : list string) : pq_read_arg :=
  {| source := Some "f"%string; use_cols := Some cols |}.

Definition files_of (image : list Byte.byte) : list (string * list Byte.byte) :=
  [("f"%string, image)].

(** Scenario A: columns "a" (INT32) and "b" (BYTE_ARRAY), one row group of
    10 rows, no compression; three values of "a" are null. *)
Definition scenario_A : setup :=
  {| files := files_of good_file; parse_verdict := true;
     parsed := metadata [] 10
                 [row_group 10 [column "a" UNCOMPRESSED 1; column "b" UNCOMPRESSED 2]];
     found_pages := [[page 0 40 10]; [page 1 100 10]];
     decoded := [(10, 7); (10, 10)]; inflate_status := 0; pinned := [] |}.

(** Scenario B: one GZIP chunk of two pages of 2048 bytes each; the host's
    page array comes with these records in it. *)
Definition scenario_B : setup :=
  {| files := files_of good_file; parse_verdict := true;
     parsed := metadata [] 10 [row_group 10 [column "a" GZIP 1]];
     found_pages := [[page 0 2048 5; page 0 2048 5]];
     decoded := [(5, 5); (5, 5)]; inflate_status := 0;
     pinned := [page 0 2048 5; page 0 2048 5] |}.

(** Scenario C: columns "a", "b", "idx", the index hint "idx"; read with
    the allow-list ["a"]. *)
Definition scenario_C : setup :=
  {| files := files_of good_file; parse_verdict := true;
     parsed := metadata pandas_hint 10
                 [row_group 10 [column "a" UNCOMPRESSED 1; column "b" UNCOMPRESSED 2;
                                column "idx" UNCOMPRESSED 3]];
     found_pages := [[page 0 40 10]; [page 1 80 10]];
     decoded := [(10, 10); (10, 10)]; inflate_status := 0; pinned := [] |}.

(** A file whose header magic is wrong. *)
Definition bad_header : setup :=
  {| files := files_of bad_header_file; parse_verdict := true;
     parsed := FileMetaData.empty; found_pages := []; decoded := [];
     inflate_status := 0; pinned := [] |}.

(** Scenario E: a row group without columns. *)
Definition scenario_E : setup :=
  {| files := files_of good_file; parse_verdict := true;
     parsed := metadata [] 0 [row_group 0 []];
     found_pages := []; decoded := []; inflate_status := 0; pinned := [] |}.

(** Scenario A with a parser that fills [file_md] and then rejects the
    footer. *)
Definition rejected_footer : setup :=
  {| files := files_of good_file; parse_verdict := false;
     parsed := parsed scenario_A; found_pages := found_pages scenario_A;
     decoded := decoded scenario_A; inflate_status := 0; pinned := [] |}.

(** One GZIP chunk of one page whose decompression reports status 1. *)
Definition failed_inflate : setup :=
  {| files := files_of good_file; parse_verdict := true;
     parsed := metadata [] 10 [row_group 10 [column "a" GZIP 1]];
     found_pages := [[page 0 2048 10]];
     decoded := [(10, 10)]; inflate_status := 1; pinned := [page 0 2048 10] |}.

(** Two row groups; the second has two chunks named "a". *)
Definition surplus_chunk : setup :=
  {| files := files_of good_file; parse_verdict := true;
     parsed := metadata [] 10
                 [row_group 5 [column "a" UNCOMPRESSED 1];
                  row_group 5 [column "a" UNCOMPRESSED 1; column "a" UNCOMPRESSED 1]];
     found_pages := [[]; []; []]; decoded := []; inflate_status := 0; pinned := [] |}.

(** One GZIP chunk without bytes: the header kernel finds no page. *)
Definition no_pages : setup :=
  {| files := files_of good_file; parse_verdict := true;
     parsed := metadata [] 0 [row_group 0 [column "a" GZIP 1]];
     found_pages := [[]]; decoded := []; inflate_status := 0; pinned := [] |}.

(** The footer says 10 rows; the only row group and its page have 4. *)
Definition short_row_group : setup :=
  {| files := files_of good_file; parse_verdict := true;
     parsed := metadata [] 10 [row_group 4 [column "a" UNCOMPRESSED 1]];
     found_pages := [[page 0 16 4]];
     decoded := [(4, 4)]; inflate_status := 0; pinned := [] |}.

(** A chunk with a dictionary page of 3 values and a data page; the
    host's page array comes with these records in it. *)
Definition with_dictionary (name : string) (idx : Z) : setup :=
  {| files := files_of good_file; parse_verdict := true;
     parsed := metadata [] 10 [row_group 10 [column name UNCOMPRESSED idx]];
     found_pages := [[dictionary_page 0 24 3; page 0 40 10]];
     decoded := [(0, 0); (10, 10)]; inflate_status := 0;
     pinned := [dictionary_page 0 24 3; page 0 40 10] |}.

Definition at_stage (s : setup) (args : pq_read_arg) (n : nat) : @frame unit :=
  after (run (firstn n (pipeline (env s) args)) (entry (env s))).

Definition at_return (s : setup) (args : pq_read_arg) : @frame unit :=
  snd (read_parquet (env s) args).

Definition output_of (f : @frame unit) : pq_read_out :=
  match out f with
  | Some o => o
  | None => {| data_out := []; num_cols_out := 0; num_rows_out := 0;
               index_col_out := None |}
  end.

End Bench.

(** ** Vocabulary of the further properties *)

Unset Implicit Arguments.

(** The converted types that decide the column type by themselves. *)
Definition deciding_converted_types : list ConvertedType :=
  [UINT_8; INT_8; UINT_16; INT_16; DATE; TIMESTAMP_MILLIS; TIMESTAMP_MICROS].

(** The characters of a string. *)
Definition chars (s : string) : list ascii := list_ascii_of_string s.

(** The columns of the first row group that a read selects: those named
    in the allow-list or as the index column, or all of them when there
    is no allow-list. *)
Definition selected_columns (md : FileMetaData.t) (use_cols : option (list string))
    (index_col_name : string) : list ColumnChunk.t :=
  match use_cols with
  | Some cols => filter (wanted (map c_str cols ++ [index_col_name])) (row_group0 md)
  | None => row_group0 md
  end.

(** The column chunks among [chunks] that carry the name of an output
    column, each with the position of the first output column of that
    name. *)
Definition matches_of (cols : list gdf_column.t) (chunks : list ColumnChunk.t)
  : list (ColumnChunk.t * nat) :=
  flat_map (fun col => match find_column (column_name col) cols 0 with
                       | Some k => [(col, k)]
                       | None => []
                       end) chunks.

(** Those of all row groups in file order, each with the rows counted
    before its row group and the rows of its row group. *)
Fixpoint matching_slots (cols : list gdf_column.t) (rgs : list RowGroup.t) (num_rows : Z)
  : list (ColumnChunk.t * nat * Z * Z) :=
  match rgs with
  | [] => []
  | rg :: r =>
      map (fun ck => (ck, num_rows, RowGroup.num_rows rg))
          (matches_of cols (RowGroup.columns rg))
      ++ matching_slots cols r (to_int32 (num_rows + RowGroup.num_rows rg))
  end.

(** The device buffers for compressed chunk data that a trace asks for:
    chunk number and byte count. *)
Definition staged (tr : list call) : list (nat * Z) :=
  flat_map (fun c => match c with
                     | RMM_ALLOC (buf_compressed_data i) n => [(i, n)]
                     | _ => []
                     end) tr.

Definition slot_size (s : ColumnChunk.t * nat * Z * Z) : Z :=
  ColumnChunkMetaData.total_compressed_size (ColumnChunk.meta_data (fst (fst (fst s)))).

(** The buffers that the chunks [slots], numbered from [i], are to get:
    one for each chunk that has bytes. *)
Fixpoint staging_of (i : nat) (slots : list (ColumnChunk.t * nat * Z * Z))
  : list (nat * Z) :=
  match slots with
  | [] => []
  | s :: r => (if slot_size s >? 0 then [(i, slot_size s)] else []) ++ staging_of (S i) r
  end.

(** The calls that give column [i] its buffers, and the column with
    them. *)
Definition column_allocs {G} (E : Environment G) (i : nat) (c : gdf_column.t) : list call :=
  let num_rows := Z.max (gdf_column.size c) 1 in
  let num_masks := gdf_get_num_chars_bitmask E num_rows in
  [ RMM_ALLOC (buf_column_data i) (to_size_t (to_int32 (num_rows * column_byte_width E c)));
    RMM_ALLOC (buf_column_valid i) num_masks;
    cudaMemset (buffer_start (buf_column_valid i)) num_masks ].

Definition with_buffers (i : nat) (c : gdf_column.t) : gdf_column.t :=
  gdf_column.set_valid (buffer_start (buf_column_valid i))
    (gdf_column.set_data (buffer_start (buf_column_data i)) c).

(** The value count of page record [i] as the host has it. *)
Definition host_values {G} (E : Environment G) (f : @frame G) (i : Z) : Z :=
  PageInfo.num_values (page_at E (parquet_state.page_index (state f)) i).

(** The last call of the trace failed, and [e] is the error of its kind:
    the allocator's for [RMM_ALLOC], the runtime's for the others. *)
Definition failed_call {G} (E : Environment G) (e : gdf_error) (tr : list call) : Prop :=
  exists tr' c,
    tr = tr' ++ [c] /\ runtime_ok E tr' c = false
    /\ e = match c with
           | RMM_ALLOC _ _ => GDF_MEMORYMANAGER_ERROR
           | _ => GDF_CUDA_ERROR
           end.

(** Lines 631-649: the page records the fill loop visits for a codec,
    by their index. *)
Fixpoint codec_page_indices (codec : Compression)
    (chunks : list (ColumnChunkDesc.t * (ColumnChunk.t * nat))) (page_cnt : Z) : list Z :=
  match chunks with
  | [] => []
  | c :: r =>
      let n := ColumnChunkDesc.max_num_pages (fst c) in
      (if Compression_eqb (chunk_codec c) codec
       then map (fun k => page_cnt + Z.of_nat k) (seq 0 (Z.to_nat n))
       else [])
      ++ codec_page_indices codec r (page_cnt + n)
  end.

(** Lines 623-666: those of all the codecs that have pages, GZIP first. *)
Definition inflated_page_indices {G} (f : @frame G) : list Z :=
  flat_map (fun cc => if snd cc >? 0
                      then codec_page_indices (fst cc) (mapped_chunks f) 0
                      else [])
           (combine g_supportedCodecs (compressed_page_cnt f)).

(** Every destination starts where the one before it ends, the first at
    [dp]; the offsets are in [size_t]. *)
Definition laid_out (dp : ptr) (ins : list gpu_inflate_input_s) : Prop :=
  forall i r, nth_error ins i = Some r ->
    dstDevice r = ptr_add dp (to_size_t (sumZ (map dstSize (firstn i ins)))).

Definition page_sizes (p : PageInfo.t) : Z * Z :=
  (PageInfo.compressed_page_size p, PageInfo.uncompressed_page_size p).

(** What holds of the reader while it fills the inflate records for the
    buffer [dp], from the page records [P0] and the chunks [chunks0],
    once it has visited the page records [idxs]; [snd s] is the running
    offset of line 626. *)
Definition filling {G} (E : Environment G) (dp : ptr) (P0 : list PageInfo.t)
    (chunks0 : list (ColumnChunkDesc.t * (ColumnChunk.t * nat)))
    (s : @frame G * Z) (idxs : list Z) : Prop :=
  map (fun r => (srcSize r, dstSize r)) (inflate_in (fst s))
  = map (fun i => page_sizes (page_at E P0 i)) idxs
  /\ laid_out dp (inflate_in (fst s))
  /\ snd s = to_size_t (sumZ (map dstSize (inflate_in (fst s))))
  /\ parquet_state.decompressed_pages (state (fst s)) = dp
  /\ (forall i, page_sizes (page_at E (parquet_state.page_index (state (fst s))) i)
                = page_sizes (page_at E P0 i))
  /\ mapped_chunks (fst s) = chunks0
  /\ List.length (inflate_out (fst s)) = List.length (inflate_in (fst s)).

(** An environment with another verdict on the calls of the allocator and
    of the runtime. *)
Definition with_runtime_ok {G} (ok : list call -> call -> bool) (E : Environment G)
  : Environment G :=
  {| PARQUET_MAGIC := PARQUET_MAGIC E;
     Type_value := Type_value E;
     sizeof_nvstrdesc_s := sizeof_nvstrdesc_s E;
     file_content := file_content E;
     cp_read := cp_read E;
     cp_InitSchema := cp_InitSchema E;
     NumRequiredBits := NumRequiredBits E;
     gdf_get_num_chars_bitmask := gdf_get_num_chars_bitmask E;
     get_column_byte_width := get_column_byte_width E;
     runtime_ok := ok;
     no_return_value := no_return_value E;
     uninit_PageInfo := uninit_PageInfo E;
     stray_SchemaElement := stray_SchemaElement E;
     stray_ColumnChunk := stray_ColumnChunk E;
     gpu_initial := gpu_initial E;
     gpu_store := gpu_store E;
     gpu_fill := gpu_fill E;
     DecodePageHeaders := DecodePageHeaders E;
     gpuinflate := gpuinflate E;
     gpu_unsnap := gpu_unsnap E;
     BuildStringDictionaryIndex := BuildStringDictionaryIndex E;
     DecodePageData := DecodePageData E |}.

(** More of the bench. *)
Module MoreBench.
Import Bench.

(** A read without a source. *)
Definition no_source : pq_read_arg := {| source := None; use_cols := None |}.

(** One LZO chunk of one page. *)
Definition lzo_chunk : setup :=
  {| files := files_of good_file; parse_verdict := true;
     parsed := metadata [] 10 [row_group 10 [column "a" LZO 1]];
     found_pages := [[page 0 2048 10]];
     decoded := [(10, 10)]; inflate_status := 0; pinned := [page 0 2048 10] |}.

(** Scenario A on a device that has no memory for the values of the first
    column. *)
Definition out_of_memory : Environment unit :=
  with_runtime_ok
    (fun _ c => match c with RMM_ALLOC (buf_column_data 0) _ => false | _ => true end)
    (env scenario_A).

(** One GZIP chunk of two pages and one SNAPPY chunk of one page, read
    with the page records in place. *)
Definition two_codecs : setup :=
  {| files := files_of good_file; parse_verdict := true;
     parsed := metadata [] 10 [row_group 10 [column "a" SNAPPY 1; column "b" GZIP 2]];
     found_pages := [[page 0 100 10]; [page 1 2048 5; page 1 1024 5]];
     decoded := [(10, 10); (5, 5); (5, 5)]; inflate_status := 0;
     pinned := [page 0 100 10; page 1 2048 5; page 1 1024 5] |}.

(** Scenario B on a host whose page array is handed out holding zeros. *)
Definition fresh_host_pages : setup :=
  {| files := files scenario_B; parse_verdict := true;
     parsed := parsed scenario_B; found_pages := found_pages scenario_B;
     decoded := decoded scenario_B; inflate_status := 0; pinned := [] |}.

(** Columns "", "a" and "b", no index hint; read with the allow-list
    ["a"]. *)
Definition unnamed_column : setup :=
  {| files := files_of good_file; parse_verdict := true;
     parsed := metadata [] 10
                 [row_group 10 [column "" UNCOMPRESSED 1; column "a" UNCOMPRESSED 1;
                                column "b" UNCOMPRESSED 2]];
     found_pages := [[page 0 40 10]; [page 1 40 10]];
     decoded := [(10, 10); (10, 10)]; inflate_status := 0; pinned := [] |}.

End MoreBench.

(** ** Proofs *)

Unset Implicit Arguments.

Ltac keep :=
  unfold everything, but_page_count, but_page_allocs, but_decompressed_allocs,
    but_nulls, but_selection, selection, nulls, accounts,
    page_index_allocs, decompressed_allocs;
  cbn; rewrite ?flat_map_app; cbn; rewrite ?app_nil_r; try reflexivity.

Ltac from_keeps L :=
  let f0 := fresh "f" in
  let HK := fresh "HK" in
  intro f0;
  first
    [ reflexivity
    | pose proof (L f0) as HK;
      unfold everything, but_page_count, but_page_allocs, but_decompressed_allocs,
        but_nulls, but_selection, selection, accounts in HK;
      injection HK; intros; first [assumption | congruence] ].

Ltac proj_from H :=
  first
    [ reflexivity
    | let H' := fresh in
      pose proof H as H';
      unfold everything, but_page_count, but_page_allocs, but_decompressed_allocs,
        but_nulls, but_selection, selection, accounts in H' |- *;
      injection H'; intros; first [assumption | congruence] ].

Ltac each_stage := repeat apply Forall_cons; [.. | apply Forall_nil].

Section Facts.
Context {gpu_mem : Type} (E : Environment gpu_mem).
#[local] Abbreviation frame := (@frame gpu_mem).
#[local] Abbreviation step := (@step gpu_mem).

Lemma run_app (a b : list (frame -> step)) f :
  run (a ++ b) f = match run a f with Next f' => run b f' | stop => stop end.
Proof.
  revert f; induction a as [|s a IH]; intro f; simpl.
  - destruct (run b f); reflexivity.
  - destruct (s f); [apply IH | reflexivity].
Qed.

Lemma reaches_resume args n f :
  reaches E args n f ->
  run (pipeline E args) (entry E) = run (skipn n (pipeline E args)) f.
Proof.
  unfold reaches; intro H.
  rewrite <- (firstn_skipn n (pipeline E args)) at 1.
  rewrite run_app, H. reflexivity.
Qed.

Lemma to_size_t_le z : 0 <= z -> to_size_t z <= z.
Proof. intro H. unfold to_size_t, unsigned. apply Z.mod_le; lia. Qed.

(** C5.  A file whose header magic or trailing magic is not the Parquet
    magic, or whose footer length is not within 0 < footerLen <= fileSize - 8,
    makes the read return [GDF_FILE_ERROR] with an empty trace: the
    metadata parser has not been called and nothing has been allocated. *)
Theorem bad_envelope_is_a_file_error (args : pq_read_arg) (bytes : list Byte.byte) :
  LoadFile E (source args) = Some bytes ->
  header_magic bytes <> PARQUET_MAGIC E
  \/ ender_magic bytes <> PARQUET_MAGIC E
  \/ ~ (0 < ender_footer_len bytes <= Z.of_nat (List.length bytes) - 8) ->
  fst (read_parquet E args) = Returned GDF_FILE_ERROR
  /\ trace (snd (read_parquet E args)) = [].
Proof.
  intros Hload Hbad.
  unfold read_parquet. cbn [pipeline run]. unfold check_file. rewrite Hload.
  destruct (Z.ltb_spec (Z.of_nat (List.length bytes))
                       (sizeof_file_header_s + sizeof_file_ender_s)) as [Hs|Hs];
    [split; reflexivity|].
  destruct (Z.eqb_spec (header_magic bytes) (PARQUET_MAGIC E)) as [Hh|Hh];
    [|split; reflexivity].
  destruct (Z.eqb_spec (ender_magic bytes) (PARQUET_MAGIC E)) as [He|He];
    [|split; reflexivity].
  cbn [negb orb].
  assert (Hlen : (ender_footer_len bytes
                  >? to_size_t (Z.of_nat (List.length bytes)
                                - sizeof_file_header_s - sizeof_file_ender_s))
                 || (ender_footer_len bytes <=? 0) = true).
  { destruct Hbad as [Hb|[Hb|Hb]]; [contradiction | contradiction |].
    apply orb_true_iff.
    destruct (Z.leb_spec (ender_footer_len bytes) 0) as [Hz|Hz]; [now right|left].
    unfold sizeof_file_header_s, sizeof_file_ender_s in *.
    pose proof (to_size_t_le (Z.of_nat (List.length bytes) - 4 - 8)) as Hle.
    apply Z.gtb_lt. lia. }
  rewrite Hlen. split; reflexivity.
Qed.

Lemma page_index_allocs_log c (f : frame) :
  page_index_allocs (trace (log c f)) = page_index_allocs (trace f) ++ page_index_allocs [c].
Proof. unfold page_index_allocs. cbn [log trace set_trace]. apply flat_map_app. Qed.

Lemma decompressed_allocs_log c (f : frame) :
  decompressed_allocs (trace (log c f)) = decompressed_allocs (trace f) ++ decompressed_allocs [c].
Proof. unfold decompressed_allocs. cbn [log trace set_trace]. apply flat_map_app. Qed.

Lemma fold_left_keeps {A B C} (P : A -> C) (g : A -> B -> A) l a :
  (forall a x, P (g a x) = P a) -> P (fold_left g l a) = P a.
Proof.
  intro H. revert a. induction l as [|x l IH]; intro a; simpl; [reflexivity|].
  rewrite IH. apply H.
Qed.

Lemma GDF_TRY_keeps {C} (P : frame -> C) r k f :
  P (snd r) = P f -> (forall g, P (after (k g)) = P g) ->
  P (after (GDF_TRY r k)) = P f.
Proof.
  intros H1 H2. unfold GDF_TRY. destruct (fst r); cbn; try assumption;
  rewrite H2; assumption.
Qed.

Lemma try_call_keeps {C} (P : frame -> C) err c k f :
  (forall g, P (log c g) = P g) -> (forall g, P (snd (k g)) = P g) ->
  P (snd (try_call E err c f k)) = P f.
Proof.
  intros H1 H2. unfold try_call. destruct (runtime_ok E (trace f) c); cbn.
  - rewrite H2. apply H1.
  - apply H1.
Qed.

Lemma map_store_same {A B} (g : A -> B) i x l :
  (forall y, nth_error l i = Some y -> g x = g y) ->
  map g (store i x l) = map g l.
Proof.
  revert i; induction l as [|y l IH]; intros i H; [destruct i; reflexivity|].
  destruct i; cbn.
  - f_equal. apply H. reflexivity.
  - f_equal. apply IH. intros z Hz. apply H. exact Hz.
Qed.

Lemma nth_error_store {A} i j (x : A) l :
  nth_error (store i x l) j =
  if Nat.eqb i j then match nth_error l i with Some _ => Some x | None => None end
  else nth_error l j.
Proof.
  revert i j; induction l as [|y l IH]; intros i j.
  - destruct i, j; cbn; try reflexivity. destruct (Nat.eqb i j); reflexivity.
  - destruct i, j; cbn; try reflexivity. apply IH.
Qed.

Lemma nth_error_nth' {A} (l : list A) i d y : nth_error l i = Some y -> nth i l d = y.
Proof. intro H. apply nth_error_nth. exact H. Qed.

(** stage 5 *)

Lemma add_chunk_keeps rg col k f : everything (add_chunk E rg col k f) = everything f.
Proof.
  unfold add_chunk, stage_chunk_data, RMM_ALLOC_unchecked.
  destruct (_ >? 0); keep.
Qed.

Lemma add_column_chunk_keeps rg f col :
  everything (add_column_chunk E rg f col) = everything f.
Proof.
  unfold add_column_chunk. destruct (find_column _ _ _); [|reflexivity].
  destruct (_ <? _); [apply add_chunk_keeps | reflexivity].
Qed.

Lemma add_rowgroup_keeps f rg : everything (add_rowgroup E f rg) = everything f.
Proof.
  unfold add_rowgroup.
  transitivity (everything (fold_left (add_column_chunk E rg) (RowGroup.columns rg) f)).
  - keep.
  - apply fold_left_keeps. apply add_column_chunk_keeps.
Qed.

Lemma alloc_chunks_keeps a b f : everything (snd (alloc_chunks E a b f)) = everything f.
Proof.
  unfold alloc_chunks, RMM_TRY, CUDA_TRY.
  rewrite try_call_keeps; [keep | intro; keep |].
  intro g. rewrite try_call_keeps; [reflexivity | intro; keep | intro; keep].
Qed.

Lemma build_chunks_keeps f : everything (after (build_chunks E f)) = everything f.
Proof.
  unfold build_chunks. apply GDF_TRY_keeps; [apply alloc_chunks_keeps|].
  intro g. destruct (_ <? 0); cbn [after]; [reflexivity|].
  apply fold_left_keeps. apply add_rowgroup_keeps.
Qed.

(** dispatch_chunk_op with the header kernel *)

Lemma launch_page_headers_keeps f : everything (launch_page_headers E f) = everything f.
Proof. unfold launch_page_headers. keep. Qed.

Lemma dispatch_chunk_op_keeps f :
  everything (snd (dispatch_chunk_op E (launch_page_headers E) f)) = everything f.
Proof.
  unfold dispatch_chunk_op, CUDA_TRY.
  rewrite try_call_keeps; [reflexivity | intro; keep |].
  intro g. rewrite try_call_keeps.
  - rewrite launch_page_headers_keeps. keep.
  - intro; keep.
  - intro h. rewrite try_call_keeps; [keep | intro; keep | intro; keep].
Qed.

(** stage 6 *)

Lemma everything_inv (f g : frame) :
  everything f = everything g ->
  but_page_count f = but_page_count g /\ but_page_allocs f = but_page_allocs g
  /\ but_decompressed_allocs f = but_decompressed_allocs g /\ but_nulls f = but_nulls g
  /\ but_selection f = but_selection g.
Proof.
  unfold everything, but_page_count, but_page_allocs, but_decompressed_allocs,
    but_nulls, but_selection, accounts, selection.
  intro H. injection H as H1 H2 H3 H4 H5 H6 H7 H8 H9 H10.
  repeat split; congruence.
Qed.

Lemma count_pages_keeps f : but_page_count (after (count_pages E f)) = but_page_count f.
Proof.
  unfold count_pages. apply GDF_TRY_keeps.
  - apply everything_inv, dispatch_chunk_op_keeps.
  - intro g. reflexivity.
Qed.

(** stage 7 *)

Lemma alloc_pages_keeps f : but_page_allocs (snd (alloc_pages E f)) = but_page_allocs f.
Proof.
  unfold alloc_pages, RMM_TRY, CUDA_TRY.
  rewrite (try_call_keeps but_page_allocs); [reflexivity | intro; keep |].
  intro g. rewrite (try_call_keeps but_page_allocs); [keep | intro; keep | intro; keep].
Qed.

Lemma decode_page_headers_keeps f :
  but_page_allocs (after (decode_page_headers E f)) = but_page_allocs f.
Proof.
  unfold decode_page_headers. destruct (_ >? 0); [|reflexivity].
  apply GDF_TRY_keeps; [apply alloc_pages_keeps|].
  intro g. apply GDF_TRY_keeps; [|reflexivity].
  etransitivity; [apply everything_inv, dispatch_chunk_op_keeps|]. reflexivity.
Qed.

(** stage 8 *)

Lemma count_compressed_pages_keeps f :
  everything (count_compressed_pages E f) = everything f.
Proof.
  unfold count_compressed_pages.
  rewrite fold_left_keeps; [reflexivity|]. intros a x. reflexivity.
Qed.

Lemma fill_page_keeps s i : everything (fst (fill_page E s i)) = everything (fst s).
Proof. destruct s as [f ofs]. reflexivity. Qed.

Lemma fill_codec_keeps codec chunks page_cnt s :
  everything (fst (fill_codec E codec chunks page_cnt s)) = everything (fst s).
Proof.
  revert page_cnt s. induction chunks as [|c r IH]; intros page_cnt s; [reflexivity|].
  cbn [fill_codec]. rewrite IH. destruct (Compression_eqb _ _); [|reflexivity].
  apply (fold_left_keeps (fun s => everything (fst s))). intros a x. apply fill_page_keeps.
Qed.

Lemma launch_inflate_keeps codec start f :
  everything (launch_inflate E codec start f) = everything f.
Proof. unfold launch_inflate. destruct codec; keep. Qed.

Lemma inflate_codec_keeps s cc :
  everything (fst (inflate_codec E s cc)) = everything (fst s).
Proof.
  unfold inflate_codec. destruct cc as [codec cnt]. destruct (cnt >? 0); [|reflexivity].
  pose proof (fill_codec_keeps codec (mapped_chunks (fst s)) 0 s) as H.
  destruct (fill_codec E codec (mapped_chunks (fst s)) 0 s) as [f ofs].
  cbn [fst] in *. rewrite <- H.
  transitivity (everything (launch_inflate E codec (List.length (inflate_in (fst s)))
     (log (cudaMemcpyAsync
        (ptr_add (buffer_start buf_inflate_out_dev) (Z.of_nat (List.length (inflate_in (fst s)))))
        (ptr_add (buffer_start buf_inflate_out) (Z.of_nat (List.length (inflate_in (fst s)))))
        (Z.of_nat (List.length (inflate_in f)) - Z.of_nat (List.length (inflate_in (fst s)))))
     (log (cudaMemcpyAsync
        (ptr_add (buffer_start buf_inflate_in_dev) (Z.of_nat (List.length (inflate_in (fst s)))))
        (ptr_add (buffer_start buf_inflate_in) (Z.of_nat (List.length (inflate_in (fst s)))))
        (Z.of_nat (List.length (inflate_in f)) - Z.of_nat (List.length (inflate_in (fst s))))) f)))).
  - keep.
  - rewrite launch_inflate_keeps. keep.
Qed.

Lemma inflate_pages_keeps f :
  but_decompressed_allocs (inflate_pages E f) = but_decompressed_allocs f.
Proof.
  unfold inflate_pages, RMM_ALLOC_unchecked.
  match goal with
  | |- context [fold_left (inflate_codec E) ?l ?s0] =>
      pose proof (fold_left_keeps (fun p => everything (fst p)) (inflate_codec E) l s0
                    inflate_codec_keeps) as H;
      destruct (fold_left (inflate_codec E) l s0) as [g ofs]
  end.
  apply everything_inv in H. destruct H as (_ & _ & H & _).
  cbn [fst] in *.
  transitivity (but_decompressed_allocs g); [keep|].
  rewrite H. keep.
Qed.

Lemma decompress_pages_keeps f :
  but_decompressed_allocs (after (decompress_pages E f)) = but_decompressed_allocs f.
Proof.
  unfold decompress_pages. destruct (_ >? 0); [|reflexivity].
  destruct (_ >? 0); cbn [after].
  - rewrite inflate_pages_keeps. apply everything_inv, count_compressed_pages_keeps.
  - apply everything_inv, count_compressed_pages_keeps.
Qed.

(** stage 9 *)

Lemma store_column_keeps i c (f : frame) :
  (forall y, nth_error (columns f) i = Some y ->
             col_sig c = col_sig y /\ gdf_column.null_count c = gdf_column.null_count y) ->
  everything (set_columns (store i c (columns f)) f) = everything f.
Proof.
  intro H. unfold everything, selection, nulls, accounts. cbn.
  rewrite !map_store_same; [reflexivity | |]; intros y Hy; apply H; exact Hy.
Qed.

Lemma alloc_columns_keeps todo f :
  everything (snd (alloc_columns E todo f)) = everything f.
Proof.
  revert f. induction todo as [|i rest IH]; intro f; [reflexivity|].
  cbn [alloc_columns]. unfold RMM_TRY, CUDA_TRY, try_call.
  destruct (runtime_ok E (trace f) _); [|keep].
  match goal with |- context [runtime_ok E (trace ?g) (RMM_ALLOC (buf_column_valid i) ?n)] =>
    assert (H1 : everything g = everything f) end.
  { rewrite store_column_keeps; [keep|].
    intros y Hy. cbn in Hy. rewrite (nth_error_nth' _ _ zeroed_column _ Hy). split; reflexivity. }
  destruct (runtime_ok E _ (RMM_ALLOC (buf_column_valid i) _)); [|cbn [snd]; rewrite <- H1; keep].
  match goal with |- context [runtime_ok E (trace ?g) (cudaMemset ?p ?n)] =>
    assert (H2 : everything g = everything f) end.
  { rewrite store_column_keeps.
    - rewrite <- H1. keep.
    - intros y Hy. cbn in Hy.
      rewrite nth_error_store, Nat.eqb_refl in Hy.
      destruct (nth_error (columns f) i) as [z|] eqn:Hz; [|discriminate].
      injection Hy as <-. rewrite (nth_error_nth' _ _ zeroed_column _ Hz).
      split; reflexivity. }
  destruct (runtime_ok E _ (cudaMemset _ _)); [|cbn [snd]; rewrite <- H2; keep].
  rewrite IH. rewrite <- H2. keep.
Qed.

Lemma alloc_column_data_keeps f : everything (after (alloc_column_data E f)) = everything f.
Proof.
  unfold alloc_column_data. apply GDF_TRY_keeps; [apply alloc_columns_keeps | reflexivity].
Qed.

(** stage 10 *)

Lemma alloc_dictionaries_keeps f : everything (snd (alloc_dictionaries E f)) = everything f.
Proof.
  unfold alloc_dictionaries, RMM_TRY.
  rewrite (try_call_keeps everything); [reflexivity | intro; keep | intro; keep].
Qed.

Lemma build_dictionaries_keeps f : everything (after (build_dictionaries E f)) = everything f.
Proof.
  unfold build_dictionaries.
  match goal with |- context [if ?b then snd (alloc_dictionaries E ?g) else _] =>
    assert (H : everything (if b then snd (alloc_dictionaries E g) else g) = everything f);
    [destruct b; [rewrite alloc_dictionaries_keeps|]; keep|];
    destruct b; revert H
  end.
  - generalize (snd (alloc_dictionaries E
       (with_state (parquet_state.set_total_str_indices
          (count_str_indices E (file_md f) (parquet_state.page_index (state f))
             (mapped_chunks f) 0 0)) f))).
    intros g H. cbn [after]. rewrite <- H. keep.
  - intro H. cbn [after]. rewrite <- H. keep.
Qed.

(** stage 11 *)

Lemma add_nulls_sig n m cols page :
  map col_sig (add_nulls n m cols page) = map col_sig cols.
Proof.
  unfold add_nulls. destruct (negb _); [|reflexivity].
  destruct (_ && _); [|reflexivity].
  destruct (nth_error m _) as [[c k]|]; [|reflexivity].
  destruct (nth_error cols k) as [y|] eqn:Hy; [|reflexivity].
  apply map_store_same. intros z Hz. rewrite Hy in Hz. injection Hz as <-. reflexivity.
Qed.

Lemma decode_page_data_keeps f : but_nulls (after (decode_page_data E f)) = but_nulls f.
Proof.
  unfold decode_page_data. destruct (_ >? 0); [|reflexivity].
  cbn [after]. unfold but_nulls, selection, accounts. cbn.
  rewrite (fold_left_keeps (map col_sig)); [|intros; apply add_nulls_sig].
  unfold page_index_allocs, decompressed_allocs.
  rewrite !flat_map_app. cbn. rewrite !app_nil_r. reflexivity.
Qed.

(** stages 1 to 4 *)

Lemma check_file_keeps args f : but_selection (after (check_file E args f)) = but_selection f.
Proof.
  unfold check_file. destruct (LoadFile E _); [|reflexivity].
  repeat match goal with |- context [if ?b then _ else _] => destruct b end; reflexivity.
Qed.

Lemma read_metadata_keeps f : but_selection (after (read_metadata E f)) = but_selection f.
Proof.
  unfold read_metadata, print_metadata.
  destruct (FileMetaData.row_groups _); keep.
Qed.

Lemma select_columns_keeps args f :
  but_selection (after (select_columns E args f)) = but_selection f.
Proof.
  unfold select_columns. destruct (_ <=? 0); [reflexivity|].
  destruct (get_index_col _); [|reflexivity].
  destruct (vector.empty _); reflexivity.
Qed.

Lemma init_columns_keeps f : but_selection (after (init_columns E f)) = but_selection f.
Proof. reflexivity. Qed.

Lemma transfer_ownership_keeps (f : frame) :
  (nulls (after (transfer_ownership f)), accounts (after (transfer_ownership f)))
  = (nulls f, accounts f).
Proof. reflexivity. Qed.

(** *** Invariants along the pipeline *)

Lemma keeps_weaken {C D} (P : frame -> C) (h : C -> D) s :
  keeps_through P s -> keeps_through (fun f => h (P f)) s.
Proof. intros H f. cbv beta. rewrite H. reflexivity. Qed.

Lemma run_keeps {C} (P : frame -> C) stages :
  Forall (keeps_through P) stages -> keeps_through P (run stages).
Proof.
  induction 1 as [|s stages Hs _ IH]; intro f; cbn [run]; [reflexivity|].
  specialize (Hs f). destruct (s f) as [f'|o f']; cbn [after] in *.
  - rewrite IH. exact Hs.
  - exact Hs.
Qed.

Lemma reaches_keeps {C} (P : frame -> C) args n f :
  Forall (keeps_through P) (firstn n (pipeline E args)) ->
  reaches E args n f -> P f = P (entry E).
Proof.
  intros H Hr. rewrite <- (run_keeps P _ H (entry E)).
  unfold reaches in Hr. rewrite Hr. reflexivity.
Qed.

Lemma read_parquet_after args : snd (read_parquet E args) = after (run (pipeline E args) (entry E)).
Proof. unfold read_parquet. destruct (run _ _); reflexivity. Qed.

Lemma reaches_succ args n s f' :
  nth_error (pipeline E args) n = Some s ->
  reaches E args (S n) f' ->
  exists f, reaches E args n f /\ s f = Next f'.
Proof.
  unfold reaches. intros Hs H.
  assert (Hf : firstn (S n) (pipeline E args) = firstn n (pipeline E args) ++ [s]).
  { clear - Hs. revert n Hs. induction (pipeline E args) as [|a l IH]; intros n Hs.
    - destruct n; discriminate.
    - destruct n; cbn in *; [injection Hs as <-; reflexivity|].
      f_equal. apply IH. exact Hs. }
  rewrite Hf, run_app in H.
  destruct (run (firstn n (pipeline E args)) (entry E)) as [f|o f] eqn:Hr; [|discriminate].
  exists f. split; [reflexivity|]. cbn [run] in H. destruct (s f); [exact H | discriminate].
Qed.

Lemma keeps_total_pages_1_5 args :
  Forall (keeps_through (fun f => parquet_state.total_pages (state f)))
         (firstn 5 (pipeline E args)).
Proof.
  cbn [firstn pipeline]. each_stage.
  - from_keeps (check_file_keeps args).
  - from_keeps read_metadata_keeps.
  - from_keeps (select_columns_keeps args).
  - from_keeps init_columns_keeps.
  - from_keeps build_chunks_keeps.
Qed.

Lemma keeps_page_index_allocs_1_6 args :
  Forall (keeps_through (fun f => page_index_allocs (trace f)))
         (firstn 6 (pipeline E args)).
Proof.
  cbn [firstn pipeline]. each_stage.
  - from_keeps (check_file_keeps args).
  - from_keeps read_metadata_keeps.
  - from_keeps (select_columns_keeps args).
  - from_keeps init_columns_keeps.
  - from_keeps build_chunks_keeps.
  - from_keeps count_pages_keeps.
Qed.

Lemma keeps_page_index_allocs_8_12 args :
  Forall (keeps_through (fun f => page_index_allocs (trace f)))
         (skipn 7 (pipeline E args)).
Proof.
  cbn [skipn pipeline]. each_stage.
  - from_keeps decompress_pages_keeps.
  - from_keeps alloc_column_data_keeps.
  - from_keeps build_dictionaries_keeps.
  - from_keeps decode_page_data_keeps.
  - from_keeps transfer_ownership_keeps.
Qed.

(** *** The page count and the page records *)

Lemma gtb_true a b : b < a -> (a >? b) = true.
Proof. intro H. apply Z.gtb_lt. exact H. Qed.

Lemma gtb_false a b : a <= b -> (a >? b) = false.
Proof. intro H. rewrite Z.gtb_ltb. apply Z.ltb_ge. exact H. Qed.

Lemma to_size_t_idem z : to_size_t (to_size_t z) = to_size_t z.
Proof. unfold to_size_t, unsigned. apply Z.mod_mod. lia. Qed.

Lemma to_size_t_add_l a b : to_size_t (to_size_t a + b) = to_size_t (a + b).
Proof. unfold to_size_t, unsigned. apply Zplus_mod_idemp_l. Qed.

Lemma to_size_t_add_r a b : to_size_t (a + to_size_t b) = to_size_t (a + b).
Proof. unfold to_size_t, unsigned. apply Zplus_mod_idemp_r. Qed.

Lemma to_size_t_congr a a' b b' :
  to_size_t a = to_size_t a' -> to_size_t b = to_size_t b' ->
  to_size_t (a + b) = to_size_t (a' + b').
Proof.
  intros Ha Hb.
  rewrite <- (to_size_t_add_l a), <- (to_size_t_add_r _ b), Ha, Hb.
  rewrite to_size_t_add_l, to_size_t_add_r. reflexivity.
Qed.

Lemma to_size_t_small z : 0 <= z < 2 ^ 64 -> to_size_t z = z.
Proof. intro H. unfold to_size_t, unsigned. apply Z.mod_small. exact H. Qed.

Lemma to_size_t_range z : 0 <= to_size_t z < 2 ^ 64.
Proof. unfold to_size_t, unsigned. apply Z.mod_pos_bound. lia. Qed.

Lemma sum_pages_spec chunks t :
  to_size_t (sum_pages chunks t) = to_size_t (t + sumZ (map chunk_pages chunks)).
Proof.
  unfold sum_pages, sumZ. revert t.
  induction chunks as [|c r IH]; intro t; cbn [fold_left map fold_right].
  - rewrite Z.add_0_r. reflexivity.
  - rewrite IH. rewrite to_size_t_add_l. f_equal. lia.
Qed.

Lemma sum_pages_wrapped chunks t :
  t = to_size_t t -> sum_pages chunks t = to_size_t (sum_pages chunks t).
Proof.
  unfold sum_pages. revert t.
  induction chunks as [|c r IH]; intros t Ht; cbn [fold_left].
  - exact Ht.
  - apply IH. symmetry. apply to_size_t_idem.
Qed.

Lemma assign_page_info_length chunks start :
  List.length (assign_page_info chunks start) = List.length chunks.
Proof.
  revert start; induction chunks as [|c r IH]; intro start; cbn; [reflexivity|].
  f_equal. apply IH.
Qed.

Lemma assign_page_info_nth chunks start i c d :
  nth_error chunks i = Some c ->
  nth_error (assign_page_info chunks start) i = Some d ->
  d = ColumnChunkDesc.set_pages (chunk_pages c)
        (ptr_add (buffer_start buf_page_index_dev)
                 (start + sumZ (map chunk_pages (firstn i chunks)))) c.
Proof.
  unfold sumZ. revert start i. induction chunks as [|a r IH]; intros start i Hc Hd.
  - destruct i; discriminate.
  - destruct i; cbn [nth_error assign_page_info firstn map fold_right] in *.
    + injection Hc as <-. injection Hd as <-. do 2 f_equal. lia.
    + rewrite (IH _ _ Hc Hd). do 2 f_equal. lia.
Qed.

Lemma GDF_TRY_Next (r : gdf_error * frame) (k : frame -> step) f' :
  GDF_TRY r k = Next f' -> fst r = GDF_SUCCESS /\ k (snd r) = Next f'.
Proof. unfold GDF_TRY. destruct (fst r); try discriminate. auto. Qed.

Lemma try_call_success err c f k g :
  err <> GDF_SUCCESS ->
  try_call E err c f k = (GDF_SUCCESS, g) ->
  runtime_ok E (trace f) c = true /\ k (log c f) = (GDF_SUCCESS, g).
Proof.
  unfold try_call. intros Herr H. destruct (runtime_ok E (trace f) c); [auto|].
  injection H as H _. congruence.
Qed.

Lemma copy_n_length {A} n (src dst : list A) : List.length (copy_n n src dst) = List.length dst.
Proof.
  revert src dst; induction n as [|n IH]; intros src dst; [destruct src, dst; reflexivity|].
  destruct src, dst; cbn; try reflexivity. f_equal. apply IH.
Qed.

Lemma overlay_length {A} (src dst : list A) : List.length (overlay src dst) = List.length dst.
Proof. apply copy_n_length. Qed.

Lemma fresh_pages_length b n : List.length (fresh_pages E b n) = Z.to_nat n.
Proof. unfold fresh_pages. rewrite length_map, length_seq. reflexivity. Qed.

Lemma dispatch_page_headers_success f g :
  dispatch_chunk_op E (launch_page_headers E) f = (GDF_SUCCESS, g) ->
  let n := parquet_state.num_chunks (state f) in
  let host := buffer_start buf_chunk_desc in
  let dev := buffer_start buf_chunk_desc_dev in
  trace g = trace f ++ [cudaMemcpyAsync dev host n;
                        launch_DecodePageHeaders (parquet_state.chunk_desc (state f));
                        cudaMemcpyAsync host dev n; cudaStreamSynchronize]
  /\ List.length (parquet_state.chunk_desc (state g))
     = List.length (parquet_state.chunk_desc (state f))
  /\ parquet_state.page_index (state g) = parquet_state.page_index (state f)
  /\ List.length (parquet_state.page_index_dev (state g))
     = List.length (parquet_state.page_index_dev (state f)).
Proof.
  unfold dispatch_chunk_op, CUDA_TRY. intro H.
  apply try_call_success in H; [|discriminate]. destruct H as [_ H].
  apply try_call_success in H; [|discriminate]. destruct H as [_ H].
  apply try_call_success in H; [|discriminate]. destruct H as [_ H].
  unfold falls_off_the_end in H. injection H as _ <-.
  cbn. rewrite <- !app_assoc. cbn. repeat split.
  - unfold overlay. rewrite !copy_n_length. reflexivity.
  - unfold overlay. rewrite !copy_n_length. reflexivity.
Qed.

(** C6 (amended).  After header pass 1 the total page count is the sum
    over the chunk descriptors of num_data_pages + num_dict_pages, taken
    in [size_t].  When it is zero the page stage does nothing and the
    read never allocates the page-record array.  When it is positive the
    read requests the array exactly once, with the total as its length, and
    a page stage that goes through has issued that request and launched
    pass 2 on descriptors whose page pointer is the start of the chunk's
    range: the ranges follow each other in chunk order without gaps. *)
Theorem page_index_sized_and_partitioned (args : pq_read_arg) (f : frame) :
  reaches E args 6 f ->
  let chunks := parquet_state.chunk_desc (state f) in
  let T := parquet_state.total_pages (state f) in
  let n := parquet_state.num_chunks (state f) in
  let host := buffer_start buf_chunk_desc in
  let dev := buffer_start buf_chunk_desc_dev in
  T = to_size_t (sumZ (map chunk_pages chunks))
  /\ (0 <= sumZ (map chunk_pages chunks) < 2 ^ 64 -> T = sumZ (map chunk_pages chunks))
  /\ page_index_allocs (trace (snd (read_parquet E args))) = (if 0 <? T then [T] else [])
  /\ (T = 0 -> decode_page_headers E f = Next f)
  /\ (forall f', 0 < T -> decode_page_headers E f = Next f' ->
        exists D,
          trace f' = trace f ++
            [RMM_ALLOC buf_page_index_dev T; cudaMallocHost buf_page_index T;
             cudaMemcpyAsync dev host n; launch_DecodePageHeaders D;
             cudaMemcpyAsync host dev n; cudaStreamSynchronize]
          /\ List.length D = List.length chunks
          /\ (forall i c d,
                nth_error chunks i = Some c -> nth_error D i = Some d ->
                ColumnChunkDesc.page_info d
                = ptr_add (buffer_start buf_page_index_dev)
                          (sumZ (map chunk_pages (firstn i chunks)))
                /\ ColumnChunkDesc.max_num_pages d = chunk_pages c)
          /\ List.length (parquet_state.page_index_dev (state f')) = Z.to_nat T
          /\ List.length (parquet_state.page_index (state f')) = Z.to_nat T).
Proof.
  intros Hr chunks T n host dev.
  assert (HT : T = to_size_t (sumZ (map chunk_pages chunks))).
  { destruct (reaches_succ args 5 (count_pages E) f eq_refl Hr) as (f5 & Hr5 & Hs).
    pose proof (reaches_keeps _ args 5 f5 (keeps_total_pages_1_5 args) Hr5) as H0.
    change (parquet_state.total_pages (state f5) = 0) in H0. unfold count_pages in Hs.
    apply GDF_TRY_Next in Hs. destruct Hs as [_ Hs]. injection Hs as Hs.
    assert (Hk : parquet_state.total_pages
                   (state (snd (dispatch_chunk_op E (launch_page_headers E) f5)))
                 = parquet_state.total_pages (state f5))
      by (proj_from (dispatch_chunk_op_keeps f5)).
    rewrite H0 in Hk.
    subst T chunks. rewrite <- Hs. cbn. rewrite Hk.
    rewrite sum_pages_wrapped by reflexivity. rewrite sum_pages_spec. reflexivity. }
  split; [exact HT|].
  split; [intro Hs; rewrite HT; apply to_size_t_small; exact Hs|].
  assert (H6 : page_index_allocs (trace f) = []).
  { exact (reaches_keeps (fun f => page_index_allocs (trace f)) args 6 f
             (keeps_page_index_allocs_1_6 args) Hr). }
  assert (Hrange : 0 <= T) by (rewrite HT; apply to_size_t_range).
  split.
  { rewrite read_parquet_after, (reaches_resume args 6 f Hr).
    change (skipn 6 (pipeline E args))
      with (decode_page_headers E :: skipn 7 (pipeline E args)).
    cbn [run].
    assert (H7 : page_index_allocs (trace (after (decode_page_headers E f)))
                 = if 0 <? T then [T] else []).
    { unfold decode_page_headers. fold T.
      destruct (Z.ltb_spec 0 T) as [Hp|Hp].
      - rewrite (gtb_true T 0) by lia.
        unfold alloc_pages, RMM_TRY, try_call. fold T.
        destruct (runtime_ok E (trace f) (RMM_ALLOC buf_page_index_dev T)); cbv iota.
        + rewrite (GDF_TRY_keeps (fun h => page_index_allocs (trace h)) _ _
                     (log (RMM_ALLOC buf_page_index_dev T) f)).
          * rewrite page_index_allocs_log. cbn. rewrite H6. reflexivity.
          * unfold CUDA_TRY.
            rewrite (try_call_keeps (fun h => page_index_allocs (trace h)));
              [reflexivity | intro; keep | intro; keep].
          * intro g.
            apply (GDF_TRY_keeps (fun h => page_index_allocs (trace h))); [|reflexivity].
            match goal with |- context [dispatch_chunk_op E _ ?h] =>
              assert (Hk : page_index_allocs
                             (trace (snd (dispatch_chunk_op E (launch_page_headers E) h)))
                           = page_index_allocs (trace h))
                by (proj_from (dispatch_chunk_op_keeps h))
            end.
            rewrite Hk. reflexivity.
        + unfold GDF_TRY. cbn [fst snd after].
          rewrite page_index_allocs_log, H6. reflexivity.
      - rewrite (gtb_false T 0) by lia.
        exact H6. }
    destruct (decode_page_headers E f) as [f7|o f7]; cbn [after] in *; [|exact H7].
    rewrite (run_keeps _ _ (keeps_page_index_allocs_8_12 args) f7). exact H7. }
  split.
  { intro Hz. unfold decode_page_headers. fold T. rewrite Hz. reflexivity. }
  intros f' Hp Hs. unfold decode_page_headers in Hs. fold T in Hs.
  rewrite (gtb_true T 0) in Hs by lia.
  apply GDF_TRY_Next in Hs. destruct Hs as [Ha Hs].
  destruct (alloc_pages E f) as [e fa] eqn:Halloc. cbn [fst snd] in *. subst e.
  unfold alloc_pages, RMM_TRY, CUDA_TRY in Halloc. fold T in Halloc.
  apply try_call_success in Halloc; [|discriminate]. destruct Halloc as [_ Halloc].
  apply try_call_success in Halloc; [|discriminate]. destruct Halloc as [_ Halloc].
  unfold falls_off_the_end in Halloc. injection Halloc as _ <-.
  apply GDF_TRY_Next in Hs. destruct Hs as [Hd Hs]. injection Hs as Hs.
  match type of Hd with fst (dispatch_chunk_op E _ ?g) = _ =>
    destruct (dispatch_chunk_op E (launch_page_headers E) g) as [e fd] eqn:Hdis end.
  cbn [fst snd] in *. subst e fd.
  apply dispatch_page_headers_success in Hdis. cbn in Hdis.
  destruct Hdis as (Htr & Hlen & Hhost & Hdev).
  exists (assign_page_info chunks 0). repeat split.
  - rewrite Htr. rewrite <- !app_assoc. cbn.
    unfold parquet_state.num_chunks. cbn. rewrite assign_page_info_length. reflexivity.
  - apply assign_page_info_length.
  - rewrite (assign_page_info_nth chunks 0 i c d H H0). reflexivity.
  - rewrite (assign_page_info_nth chunks 0 i c d H H0). reflexivity.
  - rewrite Hdev. apply fresh_pages_length.
  - rewrite Hhost. apply fresh_pages_length.
Qed.

(** *** The decompressed-data buffer *)

Lemma add_uncompressed_spec pages pc m total :
  to_size_t (add_uncompressed E pages pc m total)
  = to_size_t (total + sumZ (map PageInfo.uncompressed_page_size
                 (map (fun k => page_at E pages (to_size_t (pc + Z.of_nat k)))
                      (seq 0 (Z.to_nat m))))).
Proof.
  unfold add_uncompressed, sumZ. generalize (seq 0 (Z.to_nat m)) as ks. intro ks.
  revert total. induction ks as [|k ks IH]; intro total; cbn [fold_left map fold_right].
  - rewrite Z.add_0_r. reflexivity.
  - rewrite IH, to_size_t_add_l. f_equal. lia.
Qed.

Lemma add_uncompressed_wrapped pages pc m total :
  total = to_size_t total ->
  add_uncompressed E pages pc m total = to_size_t (add_uncompressed E pages pc m total).
Proof.
  unfold add_uncompressed. generalize (seq 0 (Z.to_nat m)) as ks. intro ks.
  revert total. induction ks as [|k ks IH]; intros total Ht; cbn [fold_left].
  - exact Ht.
  - apply IH. symmetry. apply to_size_t_idem.
Qed.

Lemma sumZ_app a b : sumZ (a ++ b) = sumZ a + sumZ b.
Proof. unfold sumZ. induction a as [|x a IH]; cbn [app fold_right]; lia. Qed.

Lemma page_total_cons x l : page_total (x :: l) = snd (fst x) + page_total l.
Proof. reflexivity. Qed.

Lemma uncompressed_volume_cons x l :
  uncompressed_volume (x :: l)
  = sumZ (map PageInfo.uncompressed_page_size (snd x)) + uncompressed_volume l.
Proof. unfold uncompressed_volume. cbn [flat_map]. rewrite map_app, sumZ_app. reflexivity. Qed.

Lemma scan_codec_spec codec pages chunks pc cnt total :
  let r := scan_codec E codec pages chunks pc cnt total in
  let mine := filter (of_codec codec) (chunk_page_records E pages chunks pc) in
  to_size_t (fst r) = to_size_t (cnt + page_total mine)
  /\ to_size_t (snd r) = to_size_t (total + uncompressed_volume mine).
Proof.
  revert pc cnt total. induction chunks as [|c r IH]; intros pc cnt total.
  - cbn. rewrite !Z.add_0_r. split; reflexivity.
  - cbn [scan_codec chunk_page_records filter].
    set (n := ColumnChunkDesc.max_num_pages (fst c)).
    set (ps := map (fun k => page_at E pages (to_size_t (pc + Z.of_nat k)))
                   (seq 0 (Z.to_nat n))).
    change (of_codec codec (chunk_codec c, n, ps))
      with (Compression_eqb (chunk_codec c) codec).
    destruct (Compression_eqb (chunk_codec c) codec).
    + destruct (IH (to_size_t (pc + n)) (to_size_t (cnt + n))
                   (add_uncompressed E pages pc n total)) as [H1 H2].
      cbv zeta in H1, H2. cbv zeta. split.
      * rewrite H1, to_size_t_add_l, page_total_cons. cbn [fst snd]. f_equal. lia.
      * rewrite H2, <- to_size_t_add_l, add_uncompressed_spec, to_size_t_add_l.
        rewrite uncompressed_volume_cons. cbn [snd]. fold ps. f_equal. lia.
    + apply IH.
Qed.

Lemma scan_codec_wrapped codec pages chunks pc cnt total :
  cnt = to_size_t cnt -> total = to_size_t total ->
  let r := scan_codec E codec pages chunks pc cnt total in
  fst r = to_size_t (fst r) /\ snd r = to_size_t (snd r).
Proof.
  revert pc cnt total. induction chunks as [|c r IH]; intros pc cnt total Hc Ht.
  - cbn. split; assumption.
  - cbn [scan_codec]. destruct (Compression_eqb (chunk_codec c) codec).
    + apply IH; [symmetry; apply to_size_t_idem|].
      apply add_uncompressed_wrapped. exact Ht.
    + apply IH; assumption.
Qed.

Lemma supported_split (l : list (Compression * Z * list PageInfo.t)) :
  page_total (filter (of_codec GZIP) l) + page_total (filter (of_codec SNAPPY) l)
  = page_total (filter (fun x => supported (fst (fst x))) l)
  /\ uncompressed_volume (filter (of_codec GZIP) l)
     + uncompressed_volume (filter (of_codec SNAPPY) l)
     = uncompressed_volume (filter (fun x => supported (fst (fst x))) l).
Proof.
  induction l as [|[[codec n] ps] l [IH1 IH2]]; [split; reflexivity|].
  cbn [filter].
  change (of_codec GZIP (codec, n, ps)) with (Compression_eqb codec GZIP).
  change (of_codec SNAPPY (codec, n, ps)) with (Compression_eqb codec SNAPPY).
  change (supported (fst (fst (codec, n, ps))))
    with (Compression_eqb codec GZIP || (Compression_eqb codec SNAPPY || false)).
  destruct codec; cbn [Compression_eqb orb];
    rewrite ?page_total_cons, ?uncompressed_volume_cons; cbn [fst snd];
    split; lia.
Qed.

Lemma count_compressed_pages_spec f :
  let g := count_compressed_pages E f in
  parquet_state.total_decompressed_size (state g)
  = to_size_t (uncompressed_volume (compressed_chunks E f))
  /\ parquet_state.num_compressed_pages (state g)
     = to_size_t (page_total (compressed_chunks E f))
  /\ (exists a b, compressed_page_cnt g = [a; b]).
Proof.
  unfold count_compressed_pages, g_supportedCodecs, compressed_chunks, mapped_chunks.
  cbn -[scan_codec to_size_t Z.add supported].
  set (pages := parquet_state.page_index (state f)).
  set (chunks := combine (parquet_state.chunk_desc (state f)) (chunk_map f)).
  destruct (scan_codec_spec GZIP pages chunks 0 0 0) as [G1 G2].
  destruct (scan_codec_wrapped GZIP pages chunks 0 0 0 eq_refl eq_refl) as [G3 G4].
  cbv zeta in G1, G2, G3, G4.
  set (rg := scan_codec E GZIP pages chunks 0 0 0) in *.
  destruct (scan_codec_spec SNAPPY pages chunks 0 0 (snd rg)) as [S1 S2].
  destruct (scan_codec_wrapped SNAPPY pages chunks 0 0 (snd rg) eq_refl G4) as [S3 S4].
  cbv zeta in S1, S2, S3, S4.
  set (rs := scan_codec E SNAPPY pages chunks 0 0 (snd rg)) in *.
  destruct (supported_split (chunk_page_records E pages chunks 0)) as [P1 P2].
  repeat split.
  - rewrite S4, S2, <- P2. apply to_size_t_congr; [|reflexivity].
    rewrite G2, Z.add_0_l. reflexivity.
  - rewrite <- P1. apply to_size_t_congr.
    + rewrite to_size_t_idem, Z.add_0_l, G1, Z.add_0_l. reflexivity.
    + rewrite S1, Z.add_0_l. reflexivity.
  - eexists _, _. reflexivity.
Qed.

Lemma inflate_pages_allocs g :
  decompressed_allocs (trace (inflate_pages E g))
  = decompressed_allocs (trace g) ++ [parquet_state.total_decompressed_size (state g)].
Proof.
  unfold inflate_pages, RMM_ALLOC_unchecked.
  match goal with
  | |- context [fold_left (inflate_codec E) ?l (?f0, ?z)] =>
      pose proof (fold_left_keeps (fun p => everything (fst p)) (inflate_codec E) l (f0, z)
                    inflate_codec_keeps) as H;
      assert (H0 : decompressed_allocs (trace f0)
                   = decompressed_allocs (trace g)
                     ++ [parquet_state.total_decompressed_size (state g)]);
      [ | destruct (fold_left (inflate_codec E) l (f0, z)) as [h ofs] ]
  end.
  { unfold decompressed_allocs. cbn. rewrite !flat_map_app. cbn.
    rewrite !app_nil_r. reflexivity. }
  cbn [fst] in H.
  assert (Hd : decompressed_allocs (trace h)
               = decompressed_allocs (trace g)
                 ++ [parquet_state.total_decompressed_size (state g)]).
  { rewrite <- H0. proj_from H. }
  cbn [fst]. unfold decompressed_allocs in *. cbn. rewrite !flat_map_app. cbn.
  rewrite !app_nil_r. exact Hd.
Qed.

Lemma keeps_decompressed_allocs_1_7 args :
  Forall (keeps_through (fun f => decompressed_allocs (trace f)))
         (firstn 7 (pipeline E args)).
Proof.
  cbn [firstn pipeline]. each_stage.
  - from_keeps (check_file_keeps args).
  - from_keeps read_metadata_keeps.
  - from_keeps (select_columns_keeps args).
  - from_keeps init_columns_keeps.
  - from_keeps build_chunks_keeps.
  - from_keeps count_pages_keeps.
  - from_keeps decode_page_headers_keeps.
Qed.

Lemma keeps_decompressed_allocs_9_12 args :
  Forall (keeps_through (fun f => decompressed_allocs (trace f)))
         (skipn 8 (pipeline E args)).
Proof.
  cbn [skipn pipeline]. each_stage.
  - from_keeps alloc_column_data_keeps.
  - from_keeps build_dictionaries_keeps.
  - from_keeps decode_page_data_keeps.
  - from_keeps transfer_ownership_keeps.
Qed.

(** X23.  The size computed for the decompressed-data buffer is the sum,
    taken in [size_t], of the uncompressed sizes that the host's page
    array holds for the pages of the chunks whose codec is GZIP or SNAPPY.
    The read allocates the buffer once, with that size, when the total
    page count and the number of such pages are positive, and never
    otherwise. *)
Theorem decompressed_buffer_sized (args : pq_read_arg) (f : frame) :
  reaches E args 7 f ->
  let T := parquet_state.total_pages (state f) in
  let g := count_compressed_pages E f in
  let size := parquet_state.total_decompressed_size (state g) in
  let count := parquet_state.num_compressed_pages (state g) in
  size = to_size_t (sumZ (map PageInfo.uncompressed_page_size (compressed_pages E f)))
  /\ (0 <= sumZ (map PageInfo.uncompressed_page_size (compressed_pages E f)) < 2 ^ 64 ->
      size = sumZ (map PageInfo.uncompressed_page_size (compressed_pages E f)))
  /\ count = to_size_t (page_total (compressed_chunks E f))
  /\ decompress_pages E f
     = Next (if 0 <? T then if 0 <? count then inflate_pages E g else g else f)
  /\ decompressed_allocs (trace (snd (read_parquet E args)))
     = (if (0 <? T) && (0 <? count) then [size] else []).
Proof.
  intros Hr T g size count.
  destruct (count_compressed_pages_spec f) as (Hsize & Hcount & _).
  split; [exact Hsize|].
  split; [intro Hs; etransitivity; [exact Hsize | apply to_size_t_small; exact Hs]|].
  split; [exact Hcount|].
  assert (Hstage : decompress_pages E f
            = Next (if 0 <? T then if 0 <? count then inflate_pages E g else g else f)).
  { unfold decompress_pages. fold T. rewrite Z.gtb_ltb.
    destruct (0 <? T); [|reflexivity]. fold g. fold count. rewrite Z.gtb_ltb.
    destruct (0 <? count); reflexivity. }
  split; [exact Hstage|].
  assert (H7 : decompressed_allocs (trace f) = []).
  { exact (reaches_keeps (fun f => decompressed_allocs (trace f)) args 7 f
             (keeps_decompressed_allocs_1_7 args) Hr). }
  rewrite read_parquet_after, (reaches_resume args 7 f Hr).
  change (skipn 7 (pipeline E args)) with (decompress_pages E :: skipn 8 (pipeline E args)).
  cbn [run]. rewrite Hstage.
  rewrite (run_keeps _ _ (keeps_decompressed_allocs_9_12 args)).
  destruct (0 <? T); cbn [andb]; [|exact H7].
  assert (Hg : decompressed_allocs (trace g) = []).
  { assert (Hg : decompressed_allocs (trace g) = decompressed_allocs (trace f))
      by (proj_from (count_compressed_pages_keeps f)).
    rewrite Hg. exact H7. }
  destruct (0 <? count); [|exact Hg].
  rewrite inflate_pages_allocs, Hg. reflexivity.
Qed.

(** *** The string dictionary index *)

Lemma count_str_indices_spec md pages chunks pc t :
  to_size_t (count_str_indices E md pages chunks pc t)
  = to_size_t (t + sumZ (dictionary_sizes E md pages chunks pc)).
Proof.
  revert pc t. induction chunks as [|c r IH]; intros pc t.
  - cbn. rewrite Z.add_0_r. reflexivity.
  - cbn [count_str_indices dictionary_sizes]. rewrite IH.
    change (sumZ (?x :: ?l)) with (x + sumZ l).
    destruct (has_string_dictionary E md c).
    + rewrite to_size_t_add_l. f_equal; lia.
    + f_equal; lia.
Qed.

Lemma count_str_indices_wrapped md pages chunks pc t :
  t = to_size_t t ->
  count_str_indices E md pages chunks pc t
  = to_size_t (count_str_indices E md pages chunks pc t).
Proof.
  revert pc t. induction chunks as [|c r IH]; intros pc t Ht; [exact Ht|].
  cbn [count_str_indices]. apply IH.
  destruct (has_string_dictionary E md c); [symmetry; apply to_size_t_idem | exact Ht].
Qed.

Lemma wire_chunks_length md pages cols p chunks pc ofs :
  List.length (wire_chunks E md pages cols p chunks pc ofs) = List.length chunks.
Proof.
  revert pc ofs. induction chunks as [|c r IH]; intros pc ofs; [reflexivity|].
  cbn [wire_chunks List.length]. f_equal. apply IH.
Qed.

Lemma wire_chunks_nth md pages cols p chunks pc ofs i c d :
  nth_error chunks i = Some c ->
  nth_error (wire_chunks E md pages cols p chunks pc ofs) i = Some d ->
  has_string_dictionary E md c = true ->
  ColumnChunkDesc.str_dict_index d
  = ptr_add p (ofs + sumZ (firstn i (dictionary_sizes E md pages chunks pc))).
Proof.
  revert pc ofs i. induction chunks as [|a r IH]; intros pc ofs i Hc Hd Hq.
  - destruct i; discriminate.
  - destruct i; cbn [nth_error wire_chunks dictionary_sizes firstn] in *.
    + injection Hc as <-. injection Hd as <-. rewrite Hq. cbn. rewrite Z.add_0_r. reflexivity.
    + rewrite (IH _ _ _ Hc Hd Hq). f_equal.
      change (sumZ (?x :: ?l)) with (x + sumZ l).
      destruct (has_string_dictionary E md a); lia.
Qed.

(** The dictionary step, with the value counts as the host's page
    records have them. *)
Lemma dictionary_index_from_host_records (args : pq_read_arg) (f f' : frame) :
  reaches E args 9 f ->
  build_dictionaries E f = Next f' ->
  let chunks := mapped_chunks f in
  let sizes := dictionary_sizes E (file_md f) (parquet_state.page_index (state f)) chunks 0 in
  let total := parquet_state.total_str_indices (state f') in
  total = to_size_t (sumZ sizes)
  /\ (0 <= sumZ sizes < 2 ^ 64 -> total = sumZ sizes)
  /\ str_dict_index_allocs (trace f')
     = str_dict_index_allocs (trace f) ++ (if 0 <? total then [total] else [])
  /\ List.length (parquet_state.chunk_desc (state f')) = List.length chunks
  /\ (forall i c d,
        nth_error chunks i = Some c ->
        nth_error (parquet_state.chunk_desc (state f')) i = Some d ->
        has_string_dictionary E (file_md f) c = true ->
        ColumnChunkDesc.str_dict_index d
        = ptr_add (parquet_state.str_dict_index (state f')) (sumZ (firstn i sizes))).
Proof.
  intros _ Hs chunks sizes total.
  unfold build_dictionaries in Hs.
  set (n := count_str_indices E (file_md f) (parquet_state.page_index (state f))
                              (mapped_chunks f) 0 0) in *.
  assert (Hn : n = to_size_t (sumZ sizes)).
  { unfold n. rewrite count_str_indices_wrapped by reflexivity.
    rewrite count_str_indices_spec. reflexivity. }
  set (f1 := with_state (parquet_state.set_total_str_indices n) f) in *.
  set (f2 := if n >? 0 then snd (alloc_dictionaries E f1) else f1) in *.
  assert (H2 : file_md f2 = file_md f /\ mapped_chunks f2 = mapped_chunks f
               /\ parquet_state.page_index (state f2) = parquet_state.page_index (state f)
               /\ parquet_state.total_str_indices (state f2) = n
               /\ str_dict_index_allocs (trace f2)
                  = str_dict_index_allocs (trace f) ++ (if 0 <? n then [n] else [])).
  { unfold f2. rewrite Z.gtb_ltb. destruct (0 <? n).
    - unfold alloc_dictionaries, RMM_TRY, try_call.
      destruct (runtime_ok E (trace f1) _); cbn; unfold str_dict_index_allocs;
        rewrite flat_map_app; repeat split; reflexivity.
    - cbn. rewrite app_nil_r. repeat split; reflexivity. }
  destruct H2 as (Hmd & Hmap & Hpages & Htot & Hallocs).
  assert (Hf' : parquet_state.total_str_indices (state f')
                = parquet_state.total_str_indices (state f2)
                /\ str_dict_index_allocs (trace f') = str_dict_index_allocs (trace f2)
                /\ parquet_state.str_dict_index (state f')
                   = parquet_state.str_dict_index (state f2)
                /\ parquet_state.chunk_desc (state f')
                   = wire_chunks E (file_md f) (parquet_state.page_index (state f2))
                       (columns f2) (parquet_state.str_dict_index (state f2))
                       (mapped_chunks f2) 0 0).
  { clear - Hs.
    destruct (n >? 0); injection Hs as <-; cbn;
      unfold str_dict_index_allocs; rewrite ?flat_map_app; cbn; rewrite ?app_nil_r;
      repeat split; reflexivity. }
  rewrite Hpages, Hmap, Htot in Hf'.
  destruct Hf' as (Ht' & Ha' & Hp' & Hc').
  subst total. rewrite Ht'. split; [exact Hn|].
  split; [intro Hs0; rewrite Hn; apply to_size_t_small; exact Hs0|].
  split; [rewrite Ha'; exact Hallocs|].
  split; [rewrite Hc'; apply wire_chunks_length|].
  intros i c d Hc Hd Hq. rewrite Hc' in Hd.
  rewrite (wire_chunks_nth _ _ _ _ _ _ _ _ _ _ Hc Hd Hq), Hp'. reflexivity.
Qed.

(** *** Null counts *)

Lemma add_nulls_nth n m cols p k :
  nth_error (add_nulls n m cols p) k
  = match nth_error cols k with
    | Some c =>
        Some (if counts_for n m k p
              then gdf_column.set_null_count
                     (gdf_column.null_count c + missing_values p) c
              else c)
    | None => None
    end.
Proof.
  unfold add_nulls, counts_for.
  destruct (negb (PageInfo.num_rows p =? 0)); cbn [andb];
    [|destruct (nth_error cols k); reflexivity].
  destruct ((PageInfo.chunk_idx p >=? 0) && (PageInfo.chunk_idx p <? n)); cbn [andb];
    [|destruct (nth_error cols k); reflexivity].
  destruct (nth_error m (Z.to_nat (PageInfo.chunk_idx p))) as [[col k']|];
    [|destruct (nth_error cols k); reflexivity].
  destruct (nth_error cols k') as [c'|] eqn:Hk'.
  - rewrite nth_error_store. destruct (Nat.eqb_spec k' k) as [->|Hne].
    + rewrite Hk'. reflexivity.
    + destruct (nth_error cols k); reflexivity.
  - destruct (Nat.eqb_spec k' k) as [->|Hne].
    + rewrite Hk'. reflexivity.
    + destruct (nth_error cols k); reflexivity.
Qed.

Lemma add_nulls_fold n m pages cols k c :
  nth_error (fold_left (add_nulls n m) pages cols) k = Some c ->
  exists c0,
    nth_error cols k = Some c0
    /\ gdf_column.null_count c
       = gdf_column.null_count c0
         + sumZ (map missing_values (filter (counts_for n m k) pages))
    /\ gdf_column.size c = gdf_column.size c0.
Proof.
  revert cols c. induction pages as [|p pages IH]; intros cols c H; cbn [fold_left] in H.
  - exists c. cbn. repeat split; [exact H | lia].
  - destruct (IH _ _ H) as (c1 & H1 & Hn & Hsz). rewrite add_nulls_nth in H1.
    destruct (nth_error cols k) as [c0|]; [|discriminate]. injection H1 as <-.
    exists c0. split; [reflexivity|]. cbn [filter].
    destruct (counts_for n m k p).
    + change (sumZ (map missing_values (p :: ?l)))
        with (missing_values p + sumZ (map missing_values l)).
      cbn in Hn, Hsz. split; [lia | exact Hsz].
    + split; assumption.
Qed.

Lemma firstn_plus {A} n m (l : list A) :
  firstn (n + m) l = firstn n l ++ firstn m (skipn n l).
Proof.
  revert l; induction n as [|n IH]; intro l; [reflexivity|].
  destruct l as [|x l]; cbn; [destruct m; reflexivity|]. f_equal. apply IH.
Qed.

Lemma reaches_split args n m f :
  reaches E args (n + m) f ->
  exists g, reaches E args n g
            /\ run (firstn m (skipn n (pipeline E args))) g = Next f.
Proof.
  unfold reaches. rewrite firstn_plus, run_app.
  destruct (run (firstn n (pipeline E args)) (entry E)) as [g|o g]; [|discriminate].
  intro H. exists g. split; [reflexivity | exact H].
Qed.

Lemma keeps_nulls_5_10 args :
  Forall (keeps_through nulls) (firstn 6 (skipn 4 (pipeline E args))).
Proof.
  cbn [firstn skipn pipeline]. each_stage.
  - from_keeps build_chunks_keeps.
  - from_keeps count_pages_keeps.
  - from_keeps decode_page_headers_keeps.
  - from_keeps decompress_pages_keeps.
  - from_keeps alloc_column_data_keeps.
  - from_keeps build_dictionaries_keeps.
Qed.

Lemma null_counts_start args f :
  reaches E args 10 f -> Forall (fun n => n = 0) (nulls f).
Proof.
  intro Hr. destruct (reaches_split args 4 6 f Hr) as (f4 & Hr4 & Hrun).
  pose proof (run_keeps nulls _ (keeps_nulls_5_10 args) f4) as Hk.
  rewrite Hrun in Hk. cbn [after] in Hk. rewrite Hk.
  destruct (reaches_succ args 3 (init_columns E) f4 eq_refl Hr4) as (f3 & _ & Hs).
  unfold init_columns in Hs. injection Hs as <-.
  unfold nulls. cbn [columns set_columns]. rewrite map_map. cbn [init_column gdf_column.null_count].
  apply Forall_forall. intros x Hx. apply in_map_iff in Hx. destruct Hx as (? & <- & _).
  reflexivity.
Qed.

Lemma missing_values_sum l :
  sumZ (map missing_values l)
  = sumZ (map PageInfo.num_rows l) - sumZ (map PageInfo.valid_count l).
Proof.
  unfold sumZ, missing_values.
  induction l as [|p l IH]; cbn [map fold_right]; lia.
Qed.

(** C7 (amended).  After page-data decoding, the null count of every
    output column is the sum of num_rows - valid_count over the page
    records that have rows, whose chunk index names a chunk, and whose
    chunk is mapped to the column; it is the column's row count less the
    valid counts of those pages whenever their row counts add up to the
    column's row count. *)
Theorem null_counts_accumulate (args : pq_read_arg) (f f' : frame) :
  reaches E args 10 f ->
  decode_page_data E f = Next f' ->
  forall k c, nth_error (columns f') k = Some c ->
    gdf_column.null_count c = sumZ (map missing_values (counted_pages f' k))
    /\ (sumZ (map PageInfo.num_rows (counted_pages f' k)) = gdf_column.size c ->
        gdf_column.null_count c
        = gdf_column.size c - sumZ (map PageInfo.valid_count (counted_pages f' k))).
Proof.
  intros Hr Hs k c Hc.
  assert (H : gdf_column.null_count c = sumZ (map missing_values (counted_pages f' k))).
  { pose proof (null_counts_start args f Hr) as H0.
    unfold decode_page_data in Hs.
    destruct (parquet_state.total_pages (state f) >? 0) eqn:HT.
    - injection Hs as Hs. subst f'.
      unfold counted_pages, scanned_pages in *.
      cbn -[to_int32 Z.gtb missing_values counts_for] in Hc |- *.
      rewrite HT.
      destruct (add_nulls_fold _ _ _ _ _ _ Hc) as (c0 & Hc0 & Hn & _).
      rewrite Hn.
      assert (Hz : gdf_column.null_count c0 = 0).
      { rewrite Forall_forall in H0. apply H0. unfold nulls.
        apply in_map, (nth_error_In _ _ Hc0). }
      rewrite Hz. reflexivity.
    - injection Hs as Hs. subst f'.
      unfold counted_pages, scanned_pages. rewrite HT. cbn.
      rewrite Forall_forall in H0. apply H0. unfold nulls.
      apply in_map, (nth_error_In _ _ Hc). }
  split; [exact H|]. intro Hrows. rewrite H, missing_values_sum. lia.
Qed.

(** *** The selected columns *)

Lemma keeps_out_1_11 args :
  Forall (keeps_through (fun f : frame => out f)) (firstn 11 (pipeline E args)).
Proof.
  cbn [firstn pipeline]. each_stage.
  - from_keeps (check_file_keeps args).
  - from_keeps read_metadata_keeps.
  - from_keeps (select_columns_keeps args).
  - from_keeps init_columns_keeps.
  - from_keeps build_chunks_keeps.
  - from_keeps count_pages_keeps.
  - from_keeps decode_page_headers_keeps.
  - from_keeps decompress_pages_keeps.
  - from_keeps alloc_column_data_keeps.
  - from_keeps build_dictionaries_keeps.
  - from_keeps decode_page_data_keeps.
Qed.

(** A read that hands columns to its caller went through every stage. *)
Lemma read_with_output args f o :
  snd (read_parquet E args) = f -> out f = Some o ->
  exists g, reaches E args 11 g /\ transfer_ownership g = Stop (Returned GDF_SUCCESS) f.
Proof.
  rewrite read_parquet_after. intros Hf Ho.
  change (pipeline E args) with (firstn 11 (pipeline E args) ++ [transfer_ownership]) in Hf.
  rewrite run_app in Hf.
  pose proof (run_keeps (fun f : frame => out f) _ (keeps_out_1_11 args) (entry E)) as Hk.
  cbv beta in Hk.
  destruct (run (firstn 11 (pipeline E args)) (entry E)) as [g|e g] eqn:Hr.
  - exists g. split; [exact Hr|]. cbn [run] in Hf.
    unfold transfer_ownership in *. cbn [after] in Hf. rewrite <- Hf. reflexivity.
  - cbn [after] in Hf, Hk. subst g. rewrite Hk in Ho. discriminate.
Qed.

Lemma keeps_selection_5_11 args :
  Forall (keeps_through selection) (firstn 7 (skipn 4 (pipeline E args))).
Proof.
  cbn [firstn skipn pipeline]. each_stage; intro f.
  - proj_from (build_chunks_keeps f).
  - proj_from (count_pages_keeps f).
  - proj_from (decode_page_headers_keeps f).
  - proj_from (decompress_pages_keeps f).
  - proj_from (alloc_column_data_keeps f).
  - proj_from (build_dictionaries_keeps f).
  - proj_from (decode_page_data_keeps f).
Qed.

Lemma push_back_contents x v :
  (vector.size v <= List.length (vector.storage v))%nat ->
  contents (vector.push_back x v) = contents v ++ [x]
  /\ (vector.size (vector.push_back x v)
      <= List.length (vector.storage (vector.push_back x v)))%nat.
Proof.
  intro H. unfold contents, vector.push_back.
  cbn [vector.size vector.storage].
  assert (Hl : List.length (firstn (vector.size v) (vector.storage v)) = vector.size v)
    by (apply firstn_length_le; exact H).
  split.
  - replace (S (vector.size v))
      with (List.length (firstn (vector.size v) (vector.storage v)) + 1)%nat by lia.
    rewrite firstn_app_2. reflexivity.
  - rewrite length_app, Hl. cbn [List.length]. lia.
Qed.

Lemma push_selected_contents (p : nat -> bool) l v :
  (vector.size v <= List.length (vector.storage v))%nat ->
  let v' := fold_left (fun v i => if p i then vector.push_back (Z.of_nat i) v else v) l v in
  contents v' = contents v ++ map Z.of_nat (filter p l)
  /\ (vector.size v' <= List.length (vector.storage v'))%nat.
Proof.
  revert v. induction l as [|i l IH]; intros v H; cbn [fold_left filter].
  - cbn [map]. rewrite app_nil_r. split; [reflexivity | exact H].
  - destruct (p i).
    + destruct (push_back_contents (Z.of_nat i) v H) as [Hc Hs].
      destruct (IH _ Hs) as [IH1 IH2]. cbv zeta in IH1, IH2.
      split; [|exact IH2]. rewrite IH1, Hc, <- app_assoc. reflexivity.
    + apply IH. exact H.
Qed.

Lemma contents_length v :
  (vector.size v <= List.length (vector.storage v))%nat ->
  List.length (contents v) = vector.size v.
Proof. intro H. unfold contents. apply firstn_length_le. exact H. Qed.

Lemma at_unchecked_clear v i :
  (i < vector.size v)%nat ->
  vector.at_unchecked (vector.clear v) i = nth i (contents v) 0.
Proof.
  intro H. unfold vector.at_unchecked, vector.clear, contents. cbn [vector.storage].
  revert i H. generalize (vector.size v) as n. generalize (vector.storage v) as st.
  induction st as [|x st IH]; intros n i H.
  - destruct n, i; reflexivity.
  - destruct n; [lia|]. destruct i; cbn; [reflexivity|]. apply IH. lia.
Qed.

Lemma to_int32_small z : 0 <= z < 2 ^ 31 -> to_int32 z = z.
Proof.
  intro H. unfold to_int32, signed.
  change (2 ^ (32 - 1)) with 2147483648. change (2 ^ 32) with 4294967296.
  change (2 ^ 31) with 2147483648 in H.
  rewrite Z.mod_small by lia. lia.
Qed.

Lemma column_at_seq md :
  map (fun i => column_at E md (Z.of_nat i)) (seq 0 (List.length (row_group0 md)))
  = row_group0 md.
Proof.
  unfold column_at. generalize (row_group0 md) as l. intro l.
  apply nth_ext with (d := stray_ColumnChunk E 0) (d' := stray_ColumnChunk E 0).
  - rewrite length_map, length_seq. reflexivity.
  - intros n Hn. rewrite length_map, length_seq in Hn.
    rewrite (nth_indep _ _ ((fun i => if Z.of_nat i <? 0 then stray_ColumnChunk E (Z.of_nat i)
                 else nth (Z.to_nat (Z.of_nat i)) l (stray_ColumnChunk E (Z.of_nat i))) 0%nat))
      by (rewrite length_map, length_seq; exact Hn).
    rewrite (map_nth (fun i => if Z.of_nat i <? 0 then stray_ColumnChunk E (Z.of_nat i)
                 else nth (Z.to_nat (Z.of_nat i)) l (stray_ColumnChunk E (Z.of_nat i)))).
    rewrite seq_nth by exact Hn. cbn [Nat.add].
    destruct (Z.ltb_spec (Z.of_nat n) 0); [lia|].
    rewrite Nat2Z.id. apply nth_indep. exact Hn.
Qed.

Lemma filter_map_comm {A B} (g : A -> B) (p : B -> bool) l :
  filter p (map g l) = map g (filter (fun x => p (g x)) l).
Proof.
  induction l as [|x l IH]; cbn; [reflexivity|].
  destruct (p (g x)); cbn; rewrite IH; reflexivity.
Qed.

Lemma filter_columns_contents md names v :
  let v' := filter_columns E md names v in
  contents v'
  = map Z.of_nat (filter (fun i => wanted names (column_at E md (Z.of_nat i)))
                         (seq 0 (Z.to_nat (max_num_columns md))))
  /\ (vector.size v' <= List.length (vector.storage v'))%nat.
Proof.
  unfold filter_columns.
  apply (push_selected_contents
           (fun i => existsb (String.eqb (column_name (column_at E md (Z.of_nat i)))) names)
           _ (vector.clear v)).
  cbn. lia.
Qed.

Lemma init_columns_spec (f3 f4 : frame) :
  init_columns E f3 = Next f4 ->
  (vector.size (col_indexes f3) <= List.length (vector.storage (col_indexes f3)))%nat ->
  Z.of_nat (vector.size (col_indexes f3)) < 2 ^ 31 ->
  file_md f4 = file_md f3 /\ index_col_name f4 = index_col_name f3
  /\ num_columns f4 = Z.of_nat (vector.size (col_indexes f3))
  /\ map (fun c => (gdf_column.col_name c, gdf_column.dtype c, gdf_column.dtype_info c))
         (columns f4)
     = map (fun i => let c := column_at E (file_md f3) i in
                     (c_str (column_name c), fst (column_type E (file_md f3) c),
                      snd (column_type E (file_md f3) c)))
           (contents (col_indexes f3)).
Proof.
  intros Hs Hwf Hsmall. unfold init_columns in Hs. injection Hs as <-.
  rewrite to_int32_small by lia. rewrite Nat2Z.id.
  cbn [file_md index_col_name num_columns columns set_columns set_index_col
       set_col_indexes set_num_columns].
  repeat split. rewrite map_map.
  unfold init_column.
  cbn [file_md col_indexes set_index_col set_col_indexes set_num_columns
       gdf_column.col_name gdf_column.dtype gdf_column.dtype_info].
  apply nth_ext with (d := (EmptyString, GDF_invalid, TIME_UNIT_NONE))
                     (d' := (EmptyString, GDF_invalid, TIME_UNIT_NONE)).
  - rewrite !length_map, length_seq, contents_length; [reflexivity | exact Hwf].
  - intros n Hn. rewrite length_map, length_seq in Hn.
    set (g := fun x : nat =>
      (c_str (column_name (column_at E (file_md f3)
                (vector.at_unchecked (vector.clear (col_indexes f3)) x))),
       fst (to_dtype
          (SchemaElement.type (schema_at E (file_md f3)
             (ColumnChunk.schema_idx (column_at E (file_md f3)
                (vector.at_unchecked (vector.clear (col_indexes f3)) x)))))
          (SchemaElement.converted_type (schema_at E (file_md f3)
             (ColumnChunk.schema_idx (column_at E (file_md f3)
                (vector.at_unchecked (vector.clear (col_indexes f3)) x)))))),
       snd (to_dtype
          (SchemaElement.type (schema_at E (file_md f3)
             (ColumnChunk.schema_idx (column_at E (file_md f3)
                (vector.at_unchecked (vector.clear (col_indexes f3)) x)))))
          (SchemaElement.converted_type (schema_at E (file_md f3)
             (ColumnChunk.schema_idx (column_at E (file_md f3)
                (vector.at_unchecked (vector.clear (col_indexes f3)) x)))))))).
    set (h := fun i : Z =>
      let c := column_at E (file_md f3) i in
      (c_str (column_name c), fst (column_type E (file_md f3) c),
       snd (column_type E (file_md f3) c))).
    rewrite (nth_indep (map g _) _ (g 0%nat)) by (rewrite length_map, length_seq; exact Hn).
    rewrite (map_nth g). rewrite seq_nth by exact Hn. cbn [Nat.add].
    rewrite (nth_indep (map h _) _ (h 0))
      by (rewrite length_map, contents_length; [exact Hn | exact Hwf]).
    rewrite (map_nth h). unfold g, h. cbv zeta. unfold column_type.
    rewrite at_unchecked_clear by exact Hn. reflexivity.
Qed.

(** X22.  A read with an allow-list that hands columns to its caller
    hands exactly the columns of the first row group whose dot-joined path
    is in the allow-list or is the string [get_index_col] returned (the
    empty string when there is no hint), in file order, each with that
    column's name and the type [to_dtype] maps it to; their number is the
    output count.  (The number of columns of the file fits [int].) *)
Theorem selected_columns_materialized
    (args : pq_read_arg) (cols : list string) (f : frame) (o : pq_read_out) :
  use_cols args = Some cols ->
  read_parquet E args = (Returned GDF_SUCCESS, f) ->
  out f = Some o ->
  Z.of_nat (List.length (row_group0 (file_md f))) < 2 ^ 31 ->
  let md := file_md f in
  let names := map c_str cols ++ [index_col_name f] in
  let selected := filter (wanted names) (row_group0 md) in
  get_index_col md = Some (index_col_name f)
  /\ map (fun c => (gdf_column.col_name c, gdf_column.dtype c, gdf_column.dtype_info c))
         (data_out o)
     = map (fun c => (c_str (column_name c), fst (column_type E md c), snd (column_type E md c)))
           selected
  /\ num_cols_out o = Z.of_nat (List.length selected).
Proof.
  intros Hcols Hread Ho Hsmall md names selected.
  change (file_md f) with md in Hsmall.
  assert (Hf : snd (read_parquet E args) = f) by (rewrite Hread; reflexivity).
  destruct (read_with_output args f o Hf Ho) as (g & Hg & Ht).
  unfold transfer_ownership in Ht. injection Ht as Ht.
  destruct (reaches_split args 4 7 g Hg) as (f4 & Hr4 & Hrun).
  pose proof (run_keeps selection _ (keeps_selection_5_11 args) f4) as Hk.
  rewrite Hrun in Hk. cbn [after] in Hk. unfold selection in Hk.
  injection Hk as Hmd Hicn Hnum _ _ Hsig.
  destruct (reaches_succ args 3 (init_columns E) f4 eq_refl Hr4) as (f3 & Hr3 & Hs4).
  destruct (reaches_succ args 2 (select_columns E args) f3 eq_refl Hr3) as (f2 & _ & Hs3).
  unfold select_columns in Hs3. rewrite Hcols in Hs3.
  destruct (max_num_columns (file_md f2) <=? 0) eqn:Hmax; [discriminate|].
  destruct (get_index_col (file_md f2)) as [icn|] eqn:Hidx; [|discriminate].
  destruct (vector.empty _) eqn:Hempty; [discriminate|].
  injection Hs3 as Hs3.
  assert (H3 : file_md f3 = file_md f2 /\ index_col_name f3 = icn
               /\ col_indexes f3
                  = filter_columns E (file_md f2) (map c_str cols ++ [icn])
                      (vector.iota (Z.to_nat (max_num_columns (file_md f2))))).
  { rewrite <- Hs3. repeat split. }
  destruct H3 as (Hmd3 & Hicn3 & Hv).
  destruct (filter_columns_contents (file_md f2) (map c_str cols ++ [icn])
              (vector.iota (Z.to_nat (max_num_columns (file_md f2))))) as [Hc Hwf].
  cbv zeta in Hc, Hwf. rewrite <- Hv in Hc, Hwf.
  assert (Hmdf : md = file_md f2).
  { unfold md. rewrite <- Ht. cbn [file_md set_out]. rewrite Hmd.
    destruct (init_columns_keeps f3) as []. unfold init_columns in Hs4.
    injection Hs4 as <-. cbn. exact Hmd3. }
  assert (HN : Z.to_nat (max_num_columns (file_md f2)) = List.length (row_group0 md)).
  { rewrite <- Hmdf. unfold max_num_columns, row_group0 in *.
    destruct (FileMetaData.row_groups md) as [|rg rest]; [reflexivity|].
    rewrite to_int32_small by lia. apply Nat2Z.id. }
  assert (Hsize : Z.of_nat (vector.size (col_indexes f3)) < 2 ^ 31).
  { rewrite <- (contents_length _ Hwf), Hc, length_map.
    pose proof (filter_length_le
                  (fun i => wanted (map c_str cols ++ [icn])
                              (column_at E (file_md f2) (Z.of_nat i)))
                  (seq 0 (Z.to_nat (max_num_columns (file_md f2))))) as Hle.
    rewrite length_seq, HN in Hle. rewrite HN. lia. }
  destruct (init_columns_spec f3 f4 Hs4 Hwf Hsize) as (Hmd4 & Hicn4 & Hnum4 & Hcols4).
  assert (Hicnf : index_col_name f = icn).
  { rewrite <- Ht. cbn [index_col_name set_out]. congruence. }
  assert (Hsel : map (fun i => column_at E md i) (contents (col_indexes f3)) = selected).
  { rewrite Hc, map_map. unfold selected, names. rewrite Hicnf.
    rewrite <- (column_at_seq md) at 1. rewrite filter_map_comm.
    rewrite HN, <- Hmdf. reflexivity. }
  split; [rewrite Hicnf, Hmdf; exact Hidx|].
  assert (Hdata : data_out o = columns g /\ num_cols_out o = num_columns g).
  { rewrite <- Ht in Ho. cbn [out set_out] in Ho. injection Ho as <-. split; reflexivity. }
  destruct Hdata as [Hdata Hnco].
  split.
  - rewrite Hdata.
    transitivity (map (fun s : string * gdf_dtype * gdf_time_unit * Z => fst s)
                      (map col_sig (columns g))).
    { rewrite map_map. reflexivity. }
    rewrite Hsig, map_map.
    change (map (fun x => fst (col_sig x)) (columns f4))
      with (map (fun c => (gdf_column.col_name c, gdf_column.dtype c,
                           gdf_column.dtype_info c)) (columns f4)).
    rewrite Hcols4, <- Hsel, map_map. rewrite Hmd3, <- Hmdf. reflexivity.
  - rewrite Hnco, Hnum, Hnum4, <- Hsel, length_map, contents_length by exact Hwf.
    reflexivity.
Qed.

(** *** The two empty outcomes *)

Lemma to_int32_le z : 0 <= z -> to_int32 z <= z.
Proof.
  intro H. unfold to_int32, signed.
  change (2 ^ (32 - 1)) with 2147483648. change (2 ^ 32) with 4294967296.
  pose proof (Z.mod_le (z + 2147483648) 4294967296). lia.
Qed.

Lemma filter_nil_forall {A} (p : A -> bool) l :
  Forall (fun x => p x = false) l -> filter p l = [].
Proof.
  induction 1 as [|x l Hx _ IH]; cbn; [reflexivity|]. rewrite Hx. exact IH.
Qed.

(** C10.  When the first row group of the parsed metadata has no column
    the read returns [GDF_DATASET_EMPTY]; when no column is in the
    allow-list (nor is the index column) it returns [GDF_SUCCESS], hands
    nothing to the caller and makes no further call. *)
Theorem empty_dataset_and_empty_selection (args : pq_read_arg) (f : frame) :
  reaches E args 2 f ->
  ((exists rg rest,
      FileMetaData.row_groups (file_md f) = rg :: rest /\ RowGroup.columns rg = []) ->
   read_parquet E args = (Returned GDF_DATASET_EMPTY, f))
  /\ (forall cols icn,
        0 < max_num_columns (file_md f) ->
        get_index_col (file_md f) = Some icn ->
        use_cols args = Some cols ->
        Forall (fun c => wanted (map c_str cols ++ [icn]) c = false)
               (row_group0 (file_md f)) ->
        exists f',
          read_parquet E args = (Returned GDF_SUCCESS, f')
          /\ out f' = None /\ trace f' = trace f).
Proof.
  intro Hr. split.
  - intros (rg & rest & Hrg & Hcols).
    unfold read_parquet. rewrite (reaches_resume args 2 f Hr).
    cbn [skipn pipeline run]. unfold select_columns, max_num_columns.
    rewrite Hrg, Hcols. reflexivity.
  - intros cols icn Hmax Hidx Hcols Hnone.
    assert (Hout : out f = None).
    { assert (Hk : Forall (keeps_through (fun f : frame => out f))
                          (firstn 2 (pipeline E args))).
      { cbn [firstn pipeline]. each_stage.
        - from_keeps (check_file_keeps args).
        - from_keeps read_metadata_keeps. }
      exact (reaches_keeps _ args 2 f Hk Hr). }
    unfold read_parquet. rewrite (reaches_resume args 2 f Hr).
    cbn [skipn pipeline run]. unfold select_columns.
    rewrite (proj2 (Z.leb_gt _ _) Hmax), Hidx, Hcols.
    destruct (filter_columns_contents (file_md f) (map c_str cols ++ [icn])
                (vector.iota (Z.to_nat (max_num_columns (file_md f))))) as [Hc Hwf].
    cbv zeta in Hc, Hwf.
    assert (Hempty : vector.empty
                       (filter_columns E (file_md f) (map c_str cols ++ [icn])
                          (vector.iota (Z.to_nat (max_num_columns (file_md f))))) = true).
    { unfold vector.empty. apply Nat.eqb_eq.
      rewrite <- (contents_length _ Hwf), Hc, length_map.
      rewrite filter_nil_forall; [reflexivity|].
      apply Forall_forall. intros i Hi. apply in_seq in Hi.
      rewrite Forall_forall in Hnone. apply Hnone.
      unfold column_at. destruct (Z.ltb_spec (Z.of_nat i) 0); [lia|].
      rewrite Nat2Z.id. apply nth_In.
      unfold max_num_columns, row_group0 in *.
      destruct (FileMetaData.row_groups (file_md f)) as [|rg rest]; [cbn in Hi; lia|].
      pose proof (to_int32_le (Z.of_nat (List.length (RowGroup.columns rg)))) as Hle.
      lia. }
    rewrite Hempty. eexists. split; [reflexivity|]. split; [exact Hout | reflexivity].
Qed.

(** *** Reads that go through

    Once the columns are chosen, nothing but a failing allocation or
    runtime call, or a descriptor count that does not fit [int], keeps the
    read from handing its columns to the caller. *)

Lemma try_call_benign err c f k : benign E -> try_call E err c f k = k (log c f).
Proof. intros [H _]. unfold try_call. rewrite H. reflexivity. Qed.

Lemma falls_off_benign f : benign E -> falls_off_the_end E f = (GDF_SUCCESS, f).
Proof. intros [_ H]. unfold falls_off_the_end. rewrite H. reflexivity. Qed.

Lemma dispatch_chunk_op_benign op f :
  benign E -> exists g, dispatch_chunk_op E op f = (GDF_SUCCESS, g).
Proof.
  intro B. unfold dispatch_chunk_op, CUDA_TRY.
  rewrite !try_call_benign by exact B. rewrite falls_off_benign by exact B.
  eexists. reflexivity.
Qed.

Lemma alloc_columns_benign todo f :
  benign E -> exists g, alloc_columns E todo f = (GDF_SUCCESS, g).
Proof.
  intro B. revert f. induction todo as [|i rest IH]; intro f; cbn [alloc_columns].
  - eexists. reflexivity.
  - unfold RMM_TRY, CUDA_TRY. rewrite !try_call_benign by exact B. apply IH.
Qed.

Lemma decode_page_headers_benign f :
  benign E -> exists g, decode_page_headers E f = Next g.
Proof.
  intro B. unfold decode_page_headers. destruct (_ >? 0); [|eexists; reflexivity].
  unfold alloc_pages, RMM_TRY, CUDA_TRY.
  rewrite !try_call_benign by exact B. rewrite falls_off_benign by exact B.
  unfold GDF_TRY at 1. cbn [fst snd].
  match goal with |- context [dispatch_chunk_op E ?op ?g] =>
    destruct (dispatch_chunk_op_benign op g B) as (g7 & ->) end.
  eexists. reflexivity.
Qed.

Lemma decompress_pages_goes_on f : exists g, decompress_pages E f = Next g.
Proof. unfold decompress_pages. repeat destruct (_ >? 0); eexists; reflexivity. Qed.

Lemma build_dictionaries_goes_on f : exists g, build_dictionaries E f = Next g.
Proof. unfold build_dictionaries. destruct (_ >? 0); eexists; reflexivity. Qed.

Lemma decode_page_data_goes_on f : exists g, decode_page_data E f = Next g.
Proof. unfold decode_page_data. destruct (_ >? 0); eexists; reflexivity. Qed.

(** X1.  A read that has set up its output columns returns [GDF_SUCCESS]
    and hands its columns to the caller, provided that no call of the
    allocator or of the runtime fails, that the functions which end
    without a [return] statement ([alloc_chunks], [alloc_pages],
    [dispatch_chunk_op]) are read as returning [GDF_SUCCESS], and that
    the descriptor count is one [chunk_map.resize] accepts. *)
Lemma benign_read_goes_through (args : pq_read_arg) (f4 : frame) :
  benign E ->
  reaches E args 4 f4 ->
  0 <= to_int32 (to_size_t (Z.of_nat (List.length (FileMetaData.row_groups (file_md f4)))
                           * to_size_t (num_columns f4))) ->
  exists f o, read_parquet E args = (Returned GDF_SUCCESS, f) /\ out f = Some o.
Proof.
  intros B Hr Hroom.
  unfold read_parquet. rewrite (reaches_resume args 4 f4 Hr).
  cbn [skipn pipeline run].
  unfold build_chunks, alloc_chunks, RMM_TRY, CUDA_TRY.
  rewrite !try_call_benign by exact B. rewrite falls_off_benign by exact B.
  unfold GDF_TRY at 1. cbn [fst snd].
  match goal with |- context [if ?b then Stop Thrown _ else _] =>
    replace b with false
      by (symmetry; apply Z.ltb_ge; cbn -[to_int32 to_size_t Z.mul]; exact Hroom)
  end.
  match goal with |- context [fold_left (add_rowgroup E) ?l ?g] =>
    generalize (fold_left (add_rowgroup E) l g) end.
  intro f5. unfold count_pages.
  destruct (dispatch_chunk_op_benign (launch_page_headers E) f5 B) as (g6 & ->).
  unfold GDF_TRY at 1. cbn [fst snd].
  match goal with |- context [decode_page_headers E ?g] => generalize g end.
  intro f6.
  destruct (decode_page_headers_benign f6 B) as (f7 & ->).
  destruct (decompress_pages_goes_on f7) as (f8 & ->).
  unfold alloc_column_data.
  destruct (alloc_columns_benign (seq 0 (Z.to_nat (num_columns f8))) f8 B) as (f9 & ->).
  unfold GDF_TRY at 1. cbn [fst snd].
  destruct (build_dictionaries_goes_on f9) as (f10 & ->).
  destruct (decode_page_data_goes_on f10) as (f11 & ->).
  unfold transfer_ownership. eexists _, _. split; reflexivity.
Qed.

End Facts.

(** ** Further properties of the reader *)

Section MoreFacts.
Context {gpu_mem : Type} (E : Environment gpu_mem).
#[local] Abbreviation frame := (@frame gpu_mem).
#[local] Abbreviation step := (@step gpu_mem).

(** *** Files that cannot be read *)

(** X2.  A read whose source is null, cannot be opened, is empty or has
    fewer than 12 bytes returns [GDF_FILE_ERROR]; up to that return it has
    made no call of the parser, no allocation, copy or launch, and it
    hands nothing to the caller.  (What the destructors free on the way
    out is not part of the trace.) *)
Theorem unreadable_file_is_a_file_error (args : pq_read_arg) :
  source args = None
  \/ (exists name, source args = Some name /\ file_content E name = None)
  \/ (exists name bytes, source args = Some name /\ file_content E name = Some bytes
                         /\ (List.length bytes < 12)%nat) ->
  fst (read_parquet E args) = Returned GDF_FILE_ERROR
  /\ trace (snd (read_parquet E args)) = []
  /\ out (snd (read_parquet E args)) = None.
Proof.
  intro H. unfold read_parquet. cbn [pipeline run]. unfold check_file, LoadFile.
  destruct H as [H | [(name & Hs & Hc) | (name & bytes & Hs & Hc & Hl)]].
  - rewrite H. repeat split.
  - rewrite Hs, Hc. repeat split.
  - rewrite Hs, Hc. destruct (Nat.eqb_spec (List.length bytes) 0); [repeat split|].
    unfold sizeof_file_header_s, sizeof_file_ender_s.
    destruct (Z.ltb_spec (Z.of_nat (List.length bytes)) (4 + 8)); [repeat split | lia].
Qed.

(** *** The footer handed to the parser *)

Lemma little_endian_bound l : 0 <= little_endian l < 2 ^ (8 * Z.of_nat (List.length l)).
Proof.
  induction l as [|b l IH]; cbn [little_endian List.length]; [cbn; lia|].
  assert (Hbyte : 0 <= Z.of_N (Byte.to_N b) < 256).
  { pose proof (Byte.to_N_bounded b). lia. }
  replace (8 * Z.of_nat (S (List.length l))) with (8 + 8 * Z.of_nat (List.length l)) by lia.
  rewrite Z.pow_add_r by lia. change (2 ^ 8) with 256. nia.
Qed.

Lemma footer_len_bound bytes : 0 <= ender_footer_len bytes < 2 ^ 32.
Proof.
  unfold ender_footer_len.
  match goal with |- _ <= little_endian ?l < _ => pose proof (little_endian_bound l) as H;
    assert (Hl : (List.length l <= 4)%nat) by (rewrite length_firstn; lia) end.
  split; [lia|]. eapply Z.lt_le_trans; [apply H|]. apply Z.pow_le_mono_r; lia.
Qed.

Lemma check_file_passes args f f' :
  check_file E args f = Next f' ->
  LoadFile E (source args) = Some (raw f')
  /\ trace f' = trace f
  /\ 12 <= Z.of_nat (List.length (raw f'))
  /\ header_magic (raw f') = PARQUET_MAGIC E
  /\ ender_magic (raw f') = PARQUET_MAGIC E
  /\ 0 < ender_footer_len (raw f') <= Z.of_nat (List.length (raw f')) - 12.
Proof.
  unfold check_file. destruct (LoadFile E (source args)) as [bytes|]; [|discriminate].
  unfold sizeof_file_header_s, sizeof_file_ender_s.
  destruct (Z.ltb_spec (Z.of_nat (List.length bytes)) (4 + 8)) as [|Hlen]; [discriminate|].
  destruct (Z.eqb_spec (header_magic bytes) (PARQUET_MAGIC E)) as [Hh|]; [|discriminate].
  destruct (Z.eqb_spec (ender_magic bytes) (PARQUET_MAGIC E)) as [He|]; [|discriminate].
  cbn [negb orb].
  destruct (Z.leb_spec (ender_footer_len bytes) 0) as [|Hpos];
    [rewrite orb_true_r; discriminate|].
  rewrite orb_false_r.
  destruct (ender_footer_len bytes >? _) eqn:Hgt; [discriminate|].
  intro H. injection H as <-. cbn [raw set_raw trace].
  repeat split; try assumption; try lia.
  rewrite Z.gtb_ltb in Hgt. apply Z.ltb_ge in Hgt.
  destruct (Z.lt_ge_cases (Z.of_nat (List.length bytes) - 4 - 8) (2 ^ 64)).
  - unfold to_size_t, unsigned in Hgt. rewrite Z.mod_small in Hgt; lia.
  - (* the footer length is a 32-bit field *)
    pose proof (footer_len_bound bytes). lia.
Qed.

(** X3.  Which files get past the envelope check: those of at least 12
    bytes whose two magics are the Parquet magic and whose footer length
    is within 0 < footerLen <= fileSize - 12.  Such a file is handed to
    the parser as it was loaded; every other file that can be loaded makes
    the read return [GDF_FILE_ERROR]. *)
Theorem envelope_is_accepted_exactly (args : pq_read_arg) (bytes : list Byte.byte) :
  let size := Z.of_nat (List.length bytes) in
  let well_formed :=
    12 <= size
    /\ header_magic bytes = PARQUET_MAGIC E
    /\ ender_magic bytes = PARQUET_MAGIC E
    /\ 0 < ender_footer_len bytes <= size - 12 in
  LoadFile E (source args) = Some bytes ->
  size < 2 ^ 64 ->
  (well_formed -> reaches E args 1 (set_raw bytes (entry E)))
  /\ (~ well_formed ->
      read_parquet E args = (Returned GDF_FILE_ERROR, set_raw bytes (entry E))).
Proof.
  intros size well_formed Hload Hsize.
  unfold reaches, read_parquet. cbn [pipeline firstn run].
  unfold check_file. rewrite Hload. fold size.
  unfold sizeof_file_header_s, sizeof_file_ender_s.
  assert (Hw : 12 <= size -> to_size_t (size - 4 - 8) = size - 12).
  { intro H. unfold to_size_t, unsigned. rewrite Z.mod_small; lia. }
  destruct (Z.ltb_spec size (4 + 8)) as [Hs|Hs].
  { split; [intros (H & _); lia | reflexivity]. }
  destruct (Z.eqb_spec (header_magic bytes) (PARQUET_MAGIC E)) as [Hh|Hh]; cbn [negb orb];
    [|split; [intros (_ & H & _); contradiction | reflexivity]].
  destruct (Z.eqb_spec (ender_magic bytes) (PARQUET_MAGIC E)) as [He|He]; cbn [negb orb];
    [|split; [intros (_ & _ & H & _); contradiction | reflexivity]].
  rewrite Hw by lia. rewrite Z.gtb_ltb.
  destruct (Z.ltb_spec (size - 12) (ender_footer_len bytes)) as [Hg|Hg]; cbn [orb].
  { split; [intros (_ & _ & _ & H); lia | reflexivity]. }
  destruct (Z.leb_spec (ender_footer_len bytes) 0) as [Hp|Hp].
  { split; [intros (_ & _ & _ & H); lia | reflexivity]. }
  split; [reflexivity|]. intro H. exfalso. apply H. unfold well_formed. repeat split; lia || assumption.
Qed.


(** *** [to_dot_string] *)

Lemma string_app_assoc (a b c : string) : ((a ++ b) ++ c = a ++ (b ++ c))%string.
Proof. induction a as [|x a IH]; cbn; [reflexivity|]. rewrite IH. reflexivity. Qed.

Lemma string_app_length (a b : string) :
  String.length (a ++ b) = (String.length a + String.length b)%nat.
Proof. induction a as [|x a IH]; cbn; [reflexivity|]. rewrite IH. reflexivity. Qed.

Lemma string_app_nil_r (a : string) : (a ++ "")%string = a.
Proof. induction a as [|x a IH]; cbn; [reflexivity|]. rewrite IH. reflexivity. Qed.

Lemma dot_fold_concat rest s :
  fold_left (fun s p => (s ++ "." ++ p)%string) rest s = String.concat "." (s :: rest).
Proof.
  revert s. induction rest as [|p r IH]; intro s; [reflexivity|].
  cbn [fold_left]. rewrite IH.
  destruct r as [|q r']; [reflexivity|].
  change (String.concat "." ((s ++ "." ++ p)%string :: q :: r'))
    with ((s ++ "." ++ p) ++ "." ++ String.concat "." (q :: r'))%string.
  change (String.concat "." (s :: p :: q :: r'))
    with (s ++ "." ++ (p ++ "." ++ String.concat "." (q :: r')))%string.
  rewrite !string_app_assoc. reflexivity.
Qed.

(** X5.  [to_dot_string] joins the components of a schema path with dots:
    nothing for the empty path, the component itself for a path of one,
    no dot in front or behind. *)
Theorem to_dot_string_joins_with_dots (path : list string) :
  to_dot_string path = String.concat "." path
  /\ (path <> [] ->
      Z.of_nat (String.length (to_dot_string path))
      = sumZ (map (fun p => Z.of_nat (String.length p)) path)
        + Z.of_nat (List.length path) - 1).
Proof.
  assert (H : to_dot_string path = String.concat "." path).
  { destruct path as [|p0 rest]; [reflexivity|]. apply dot_fold_concat. }
  split; [exact H|]. intro Hne. rewrite H. clear H.
  induction path as [|p r IH]; [congruence|].
  destruct r as [|q r'].
  - cbn. lia.
  - change (String.concat "." (p :: q :: r'))
      with (p ++ "." ++ String.concat "." (q :: r'))%string.
    rewrite !string_app_length.
    specialize (IH ltac:(discriminate)).
    cbn [String.length map sumZ fold_right List.length] in *.
    unfold sumZ in IH. cbn [map fold_right List.length] in IH. lia.
Qed.

(** *** [to_dtype] *)

(** X6.  A column is typed [GDF_invalid] exactly when its physical type
    is INT96 and its converted type is none of the seven that decide the
    type by themselves. *)
Theorem to_dtype_invalid_iff (physical : parquet_Type) (logical : ConvertedType) :
  fst (to_dtype physical logical) = GDF_invalid
  <-> physical = INT96 /\ ~ In logical deciding_converted_types.
Proof.
  unfold deciding_converted_types. split.
  - intro H. destruct logical; destruct physical; try discriminate H;
      (split; [reflexivity|]); cbn; intuition discriminate.
  - intros [-> Hn]. destruct logical; try reflexivity; exfalso; apply Hn; cbn; tauto.
Qed.

(** X7.  One of the seven deciding converted types fixes the column type
    whatever the physical type; every other converted type is ignored, the
    physical type alone deciding; and only the two timestamp types give a
    time unit, with [GDF_DATE64]. *)
Theorem to_dtype_precedence (logical : ConvertedType) :
  (In logical deciding_converted_types ->
   forall p p', to_dtype p logical = to_dtype p' logical)
  /\ (~ In logical deciding_converted_types ->
      forall p, to_dtype p logical = to_dtype p UNKNOWN)
  /\ (forall p, snd (to_dtype p logical) <> TIME_UNIT_NONE ->
        (logical = TIMESTAMP_MILLIS \/ logical = TIMESTAMP_MICROS)
        /\ fst (to_dtype p logical) = GDF_DATE64).
Proof.
  unfold deciding_converted_types. repeat split.
  - intros H p p'. destruct logical; try reflexivity; exfalso; cbn in H; intuition discriminate.
  - intros H p. destruct logical; try reflexivity; exfalso; apply H; cbn; tauto.
  - destruct logical; destruct p; cbn in *; try congruence; tauto.
  - destruct logical; destruct p; cbn in *; try congruence; tauto.
Qed.

(** *** [get_index_col] *)

Lemma find_none_forall {A} (p : A -> bool) l :
  (forall x, In x l -> p x = false) -> List.find p l = None.
Proof.
  induction l as [|x l IH]; intro H; cbn; [reflexivity|].
  rewrite (H x (or_introl eq_refl)). apply IH. intros y Hy. apply H. right. exact Hy.
Qed.

(** X8.  Metadata without a "pandas" entry names no index column:
    [get_index_col] returns the empty string. *)
Theorem get_index_col_without_pandas (md : FileMetaData.t) :
  (forall item, In item (FileMetaData.key_value_metadata md) ->
                KeyValue.key item <> "pandas"%string) ->
  get_index_col md = Some EmptyString.
Proof.
  intro H. unfold get_index_col. rewrite find_none_forall; [reflexivity|].
  intros item Hi. apply String.eqb_neq. apply H. exact Hi.
Qed.

Lemma chars_app a b : chars (a ++ b) = chars a ++ chars b.
Proof. unfold chars. induction a as [|x a IH]; cbn; [reflexivity|]. rewrite IH. reflexivity. Qed.

Lemma prefix_app s r : String.prefix s (s ++ r) = true.
Proof.
  induction s as [|a s IH]; cbn; [destruct r; reflexivity|].
  destruct (ascii_dec a a); [exact IH | congruence].
Qed.

Lemma index_skip pre pat rest :
  String.index (String.length pre) pat (pre ++ rest)
  = option_map (Nat.add (String.length pre)) (String.index 0 pat rest).
Proof.
  induction pre as [|a pre IH]; cbn [String.length append String.index].
  - destruct (String.index 0 pat rest); reflexivity.
  - rewrite IH. destruct (String.index 0 pat rest); reflexivity.
Qed.

Lemma index_first c pat pre rest :
  ~ In c (chars pre) ->
  String.index 0 (String c pat) (pre ++ String c (pat ++ rest)) = Some (String.length pre).
Proof.
  induction pre as [|a pre IH]; intro H.
  - cbn [append String.index String.length].
    change (String c (pat ++ rest)) with (String c pat ++ rest)%string.
    rewrite prefix_app. reflexivity.
  - cbn [append String.index String.length String.prefix].
    destruct (ascii_dec c a) as [->|_]; [exfalso; apply H; left; reflexivity|].
    rewrite IH; [reflexivity|]. intro Hi. apply H. right. exact Hi.
Qed.

Lemma substring_skip pre n rest :
  String.substring (String.length pre) n (pre ++ rest) = String.substring 0 n rest.
Proof. induction pre as [|a pre IH]; cbn; [reflexivity | exact IH]. Qed.

Lemma substring_prefix a b :
  String.substring 0 (String.length a) (a ++ b) = a.
Proof. induction a as [|x a IH]; cbn; [destruct b; reflexivity|]. rewrite IH. reflexivity. Qed.

Lemma find_at (pat : string) (pre rest : string) (k : nat) :
  String.index 0 pat rest = Some k ->
  Cxx.find pat (Z.of_nat (String.length pre)) (pre ++ rest)
  = Z.of_nat (String.length pre + k).
Proof.
  intro H. unfold Cxx.find. rewrite string_app_length.
  destruct (Z.ltb_spec (Z.of_nat (String.length pre)) 0); [lia|].
  destruct (Z.ltb_spec (Z.of_nat (String.length pre + String.length rest))
                       (Z.of_nat (String.length pre))); [lia|].
  cbn [orb]. rewrite Nat2Z.id, index_skip, H. reflexivity.
Qed.

Lemma substring_skip_from pre k n rest :
  String.substring (String.length pre + k) n (pre ++ rest) = String.substring k n rest.
Proof. induction pre as [|a pre IH]; cbn; [reflexivity | exact IH]. Qed.

Lemma substring_app_l a b : forall k n,
  (k + n <= String.length a)%nat ->
  String.substring k n (a ++ b) = String.substring k n a.
Proof.
  induction a as [|x a IH]; intros k n H; cbn [String.length] in H.
  - assert (k = 0%nat) by lia. assert (n = 0%nat) by lia. subst. destruct b; reflexivity.
  - destruct k as [|k]; cbn [append String.substring].
    + destruct n as [|n]; [reflexivity|]. rewrite (IH 0%nat n) by lia. reflexivity.
    + apply IH. lia.
Qed.

Lemma index_first_occurrence pat pre rest :
  pat <> EmptyString ->
  (forall k, (k < String.length pre)%nat ->
             String.substring k (String.length pat) (pre ++ pat ++ rest) <> pat) ->
  String.index 0 pat (pre ++ pat ++ rest) = Some (String.length pre).
Proof.
  intros Hne Hbefore.
  assert (Hat : String.substring (String.length pre) (String.length pat) (pre ++ pat ++ rest)
                = pat).
  { rewrite substring_skip. apply substring_prefix. }
  destruct (String.index 0 pat (pre ++ pat ++ rest)) as [m|] eqn:Hi.
  - f_equal. destruct (Nat.lt_trichotomy m (String.length pre)) as [Hlt|[Heq|Hgt]].
    + exfalso. apply (Hbefore m Hlt). exact (String.index_correct1 _ _ _ _ Hi).
    + exact Heq.
    + exfalso.
      exact (String.index_correct2 _ _ _ _ Hi (String.length pre) (Nat.le_0_l _) Hgt Hat).
  - exfalso.
    exact (String.index_correct3 0 (String.length pre) _ _ Hi Hne (Nat.le_0_l _) Hat).
Qed.

(** X9.  When the value of the first "pandas" entry holds index_columns,
    a '[' behind its first occurrence and a ']' behind that '[',
    [get_index_col] returns what stands between the two brackets less one
    character at each end (the quotes) if that is at least four characters
    long, and the empty string if it is shorter.  (The value is shorter
    than 2^63 characters.) *)
Theorem get_index_col_reads_the_hint
    (md : FileMetaData.t) (it : KeyValue.t) (pre mid inner post : string) :
  List.find (fun item => String.eqb (KeyValue.key item) "pandas")
            (FileMetaData.key_value_metadata md) = Some it ->
  KeyValue.value it = (pre ++ "index_columns" ++ mid ++ "[" ++ inner ++ "]" ++ post)%string ->
  (forall k, (k < String.length pre)%nat ->
             String.substring k 13 (KeyValue.value it) <> "index_columns"%string) ->
  ~ In "["%char (chars mid) ->
  ~ In "]"%char (chars inner) ->
  Z.of_nat (String.length (KeyValue.value it)) < 2 ^ 63 ->
  get_index_col md
  = Some (if (4 <=? String.length inner)%nat
          then String.substring 1 (String.length inner - 2) inner
          else EmptyString).
Proof.
  intros Hfind Hv Hpre Hmid Hinner Hlen.
  unfold get_index_col. rewrite Hfind.
  set (v := KeyValue.value it) in *.
  set (R1 := (mid ++ "[" ++ inner ++ "]" ++ post)%string) in *.
  set (R2 := (inner ++ "]" ++ post)%string) in *.
  (* the position of "index_columns" *)
  assert (Hpos : Cxx.find "index_columns" 0 v = Z.of_nat (String.length pre)).
  { unfold Cxx.find. cbn [Z.ltb Z.compare orb].
    destruct (Z.ltb_spec (Z.of_nat (String.length v)) 0); [lia|].
    cbn [Z.to_nat]. rewrite Hv.
    rewrite (index_first_occurrence "index_columns" pre R1); [reflexivity | discriminate |].
    intros k Hk. rewrite <- Hv. exact (Hpre k Hk). }
  assert (Hlv : String.length v
                = (String.length pre + 13 + String.length mid + 1
                   + String.length inner + 1 + String.length post)%nat).
  { rewrite Hv. unfold R1, R2.
    repeat first [rewrite string_app_length | progress cbn [String.length append]]. lia. }
  rewrite Hpos.
  assert (Hnp : (Z.of_nat (String.length pre) =? npos) = false).
  { apply Z.eqb_neq. unfold npos. lia. }
  rewrite Hnp. cbn [negb].
  (* the opening bracket *)
  assert (Hbegin : Cxx.find "[" (Z.of_nat (String.length pre)) v
                   = Z.of_nat (String.length pre + (13 + String.length mid))).
  { rewrite Hv. apply find_at.
    change ("index_columns" ++ R1)%string
      with ("index_columns" ++ mid ++ String "[" ("" ++ R2))%string.
    rewrite <- string_app_assoc.
    rewrite index_first.
    - rewrite string_app_length. reflexivity.
    - rewrite chars_app. intro Hi. apply in_app_or in Hi. destruct Hi as [Hi|Hi].
      + cbn in Hi. repeat (destruct Hi as [Hi|Hi]; [discriminate Hi|]). exact Hi.
      + exact (Hmid Hi). }
  rewrite Hbegin.
  set (b := (String.length pre + (13 + String.length mid))%nat) in *.
  (* the closing bracket *)
  assert (Hend : Cxx.find "]" (Z.of_nat b) v = Z.of_nat (b + (String.length inner + 1))).
  { rewrite Hv.
    change ("index_columns" ++ R1)%string with ("index_columns" ++ mid ++ "[" ++ R2)%string.
    rewrite <- (string_app_assoc "index_columns"), <- (string_app_assoc pre).
    replace b with (String.length (pre ++ "index_columns" ++ mid)%string)
      by (rewrite !string_app_length; reflexivity).
    apply find_at.
    change ("[" ++ R2)%string
      with (String "[" inner ++ String "]" ("" ++ post))%string.
    rewrite index_first.
    - cbn [String.length]. f_equal. lia.
    - change (chars (String "[" inner)) with ("["%char :: chars inner).
      intros [Hi|Hi]; [discriminate Hi | exact (Hinner Hi)]. }
  rewrite Hend.
  assert (Hdiff : to_size_t (Z.of_nat (b + (String.length inner + 1)) - Z.of_nat b)
                  = Z.of_nat (String.length inner) + 1).
  { unfold to_size_t, unsigned. rewrite Z.mod_small; lia. }
  rewrite Hdiff.
  destruct (Nat.leb_spec 4 (String.length inner)) as [H4|H4].
  - rewrite (proj2 (Z.gtb_lt _ _)) by lia.
    unfold substr.
    assert (Hp : to_size_t (Z.of_nat b + 2) = Z.of_nat (b + 2)).
    { unfold to_size_t, unsigned. rewrite Z.mod_small; lia. }
    assert (Hn : to_size_t (Z.of_nat (b + (String.length inner + 1)) - Z.of_nat b - 3)
                 = Z.of_nat (String.length inner - 2)).
    { unfold to_size_t, unsigned. rewrite Z.mod_small; lia. }
    rewrite Hp, Hn.
    destruct (Z.ltb_spec (Z.of_nat (String.length v)) (Z.of_nat (b + 2))); [lia|].
    rewrite Z.min_l by lia. rewrite !Nat2Z.id. f_equal.
    rewrite Hv.
    change ("index_columns" ++ R1)%string
      with ("index_columns" ++ mid ++ "[" ++ inner ++ "]" ++ post)%string.
    rewrite <- (string_app_assoc mid), <- (string_app_assoc "index_columns"),
      <- (string_app_assoc pre).
    replace (b + 2)%nat
      with (String.length (pre ++ "index_columns" ++ mid ++ "[")%string + 1)%nat
      by (rewrite !string_app_length; cbn [String.length]; unfold b; lia).
    rewrite substring_skip_from. apply substring_app_l. lia.
  - rewrite gtb_false by lia. reflexivity.
Qed.

(** *** What the steps leave alone

    A quantity that does not depend on the fields a step writes is the
    same after the step. *)

Section Untouched.
Context {C : Type} (P : frame -> C).
Hypothesis P_trace : forall x f, P (set_trace x f) = P f.
Hypothesis P_state : forall x f, P (set_state x f) = P f.
Hypothesis P_gpu : forall x f, P (set_gpu x f) = P f.
Hypothesis P_compressed_page_cnt : forall x f, P (set_compressed_page_cnt x f) = P f.
Hypothesis P_inflate_in : forall x f, P (set_inflate_in x f) = P f.
Hypothesis P_inflate_out : forall x f, P (set_inflate_out x f) = P f.
Hypothesis P_columns : forall x f, P (set_columns x f) = P f.
Hypothesis P_chunk_map : forall x f, P (set_chunk_map x f) = P f.
Hypothesis P_num_rows : forall x f, P (set_num_rows x f) = P f.

Ltac untouch :=
  cbv zeta; unfold log, with_state;
  repeat first
    [ rewrite P_trace | rewrite P_state | rewrite P_gpu
    | rewrite P_compressed_page_cnt | rewrite P_inflate_in | rewrite P_inflate_out
    | rewrite P_columns | rewrite P_chunk_map | rewrite P_num_rows ];
  try reflexivity.

Lemma untouched_log c f : P (log c f) = P f.
Proof. untouch. Qed.

Lemma untouched_try_call err c k f :
  (forall g, P (snd (k g)) = P g) -> P (snd (try_call E err c f k)) = P f.
Proof. intro H. apply try_call_keeps; [intro; apply P_trace | exact H]. Qed.

Lemma untouched_dispatch_chunk_op op f :
  (forall g, P (op g) = P g) -> P (snd (dispatch_chunk_op E op f)) = P f.
Proof.
  intro Hop. unfold dispatch_chunk_op, CUDA_TRY.
  apply untouched_try_call. intro g.
  rewrite untouched_try_call; [rewrite Hop; untouch|].
  intro h. rewrite untouched_try_call; [untouch | intro; reflexivity].
Qed.

Lemma untouched_launch_page_headers f : P (launch_page_headers E f) = P f.
Proof. unfold launch_page_headers. untouch. Qed.

Lemma untouched_alloc_chunks a b f : P (snd (alloc_chunks E a b f)) = P f.
Proof.
  unfold alloc_chunks, RMM_TRY, CUDA_TRY.
  rewrite untouched_try_call; [untouch|].
  intro g. apply untouched_try_call. intro; reflexivity.
Qed.

Lemma untouched_add_chunk rg col k f : P (add_chunk E rg col k f) = P f.
Proof.
  unfold add_chunk, stage_chunk_data, RMM_ALLOC_unchecked.
  destruct (_ >? 0); untouch.
Qed.

Lemma untouched_add_column_chunk rg f col : P (add_column_chunk E rg f col) = P f.
Proof.
  unfold add_column_chunk. destruct (find_column _ _ _); [|reflexivity].
  destruct (_ <? _); [apply untouched_add_chunk | reflexivity].
Qed.

Lemma untouched_add_rowgroup f rg : P (add_rowgroup E f rg) = P f.
Proof.
  unfold add_rowgroup. rewrite P_num_rows.
  apply fold_left_keeps. intros a col. apply untouched_add_column_chunk.
Qed.

Lemma untouched_build_chunks : keeps_through P (build_chunks E).
Proof.
  intro f. unfold build_chunks. apply GDF_TRY_keeps; [apply untouched_alloc_chunks|].
  intro g. destruct (_ <? 0); cbn [after]; [reflexivity|].
  apply fold_left_keeps. apply untouched_add_rowgroup.
Qed.

Lemma untouched_count_pages : keeps_through P (count_pages E).
Proof.
  intro f. unfold count_pages. apply GDF_TRY_keeps.
  - apply untouched_dispatch_chunk_op, untouched_launch_page_headers.
  - intro g. cbn [after]. untouch.
Qed.

Lemma untouched_alloc_pages f : P (snd (alloc_pages E f)) = P f.
Proof.
  unfold alloc_pages, RMM_TRY, CUDA_TRY.
  apply untouched_try_call. intro g.
  rewrite untouched_try_call; [untouch|]. intro h. cbn [snd falls_off_the_end]. untouch.
Qed.

Lemma untouched_decode_page_headers : keeps_through P (decode_page_headers E).
Proof.
  intro f. unfold decode_page_headers. destruct (_ >? 0); [|reflexivity].
  apply GDF_TRY_keeps; [apply untouched_alloc_pages|].
  intro g. apply GDF_TRY_keeps; [|reflexivity].
  rewrite untouched_dispatch_chunk_op; [untouch | apply untouched_launch_page_headers].
Qed.

Lemma untouched_count_compressed_pages f : P (count_compressed_pages E f) = P f.
Proof.
  unfold count_compressed_pages.
  rewrite fold_left_keeps; [untouch|]. intros a x. untouch.
Qed.

Lemma untouched_fill_page s i : P (fst (fill_page E s i)) = P (fst s).
Proof. destruct s as [f ofs]. cbn [fill_page fst]. untouch. Qed.

Lemma untouched_fill_codec codec chunks page_cnt s :
  P (fst (fill_codec E codec chunks page_cnt s)) = P (fst s).
Proof.
  revert page_cnt s. induction chunks as [|c r IH]; intros page_cnt s; [reflexivity|].
  cbn [fill_codec]. rewrite IH. destruct (Compression_eqb _ _); [|reflexivity].
  apply (fold_left_keeps (fun s => P (fst s))). intros a x. apply untouched_fill_page.
Qed.

Lemma untouched_launch_inflate codec start f : P (launch_inflate E codec start f) = P f.
Proof. unfold launch_inflate. destruct codec; untouch. Qed.

Lemma untouched_inflate_codec s cc : P (fst (inflate_codec E s cc)) = P (fst s).
Proof.
  unfold inflate_codec. destruct cc as [codec cnt]. destruct (cnt >? 0); [|reflexivity].
  pose proof (untouched_fill_codec codec (mapped_chunks (fst s)) 0 s) as H.
  destruct (fill_codec E codec (mapped_chunks (fst s)) 0 s) as [f ofs].
  cbn [fst] in *. rewrite <- H.
  rewrite untouched_log, untouched_launch_inflate, !untouched_log. reflexivity.
Qed.

Lemma untouched_inflate_pages f : P (inflate_pages E f) = P f.
Proof.
  unfold inflate_pages, RMM_ALLOC_unchecked.
  match goal with
  | |- context [fold_left (inflate_codec E) ?l ?s0] =>
      pose proof (fold_left_keeps (fun p => P (fst p)) (inflate_codec E) l s0
                    untouched_inflate_codec) as H;
      destruct (fold_left (inflate_codec E) l s0) as [g ofs]
  end.
  cbn [fst] in *.
  transitivity (P g); [untouch|].
  rewrite H. untouch.
Qed.

Lemma untouched_decompress_pages : keeps_through P (decompress_pages E).
Proof.
  intro f. unfold decompress_pages. destruct (_ >? 0); [|reflexivity].
  destruct (_ >? 0); cbn [after].
  - rewrite untouched_inflate_pages. apply untouched_count_compressed_pages.
  - apply untouched_count_compressed_pages.
Qed.

Lemma untouched_alloc_columns todo f : P (snd (alloc_columns E todo f)) = P f.
Proof.
  revert f. induction todo as [|i rest IH]; intro f; [reflexivity|].
  cbn [alloc_columns]. unfold RMM_TRY, CUDA_TRY.
  apply untouched_try_call. intro g.
  rewrite untouched_try_call; [untouch|]. intro h.
  rewrite untouched_try_call; [untouch|]. intro k.
  rewrite IH. untouch.
Qed.

Lemma untouched_alloc_column_data : keeps_through P (alloc_column_data E).
Proof.
  intro f. unfold alloc_column_data.
  apply GDF_TRY_keeps; [apply untouched_alloc_columns | reflexivity].
Qed.

Lemma untouched_alloc_dictionaries f : P (snd (alloc_dictionaries E f)) = P f.
Proof.
  unfold alloc_dictionaries, RMM_TRY. apply untouched_try_call.
  intro g. cbn [snd falls_off_the_end]. untouch.
Qed.

Lemma untouched_build_dictionaries : keeps_through P (build_dictionaries E).
Proof.
  intro f. unfold build_dictionaries.
  match goal with |- context [if ?b then snd (alloc_dictionaries E ?g) else _] =>
    assert (H : P (if b then snd (alloc_dictionaries E g) else g) = P f);
    [destruct b; [rewrite untouched_alloc_dictionaries|]; untouch|];
    destruct b; revert H
  end.
  - match goal with |- context [snd (alloc_dictionaries E ?g)] =>
      generalize (snd (alloc_dictionaries E g)) end.
    intros g H. cbn [after]. rewrite <- H. untouch.
  - intro H. cbn [after]. rewrite <- H. untouch.
Qed.

Lemma untouched_decode_page_data : keeps_through P (decode_page_data E).
Proof.
  intro f. unfold decode_page_data. destruct (_ >? 0); [|reflexivity].
  cbn [after]. untouch.
Qed.

(** The steps that follow the set-up of the chunk descriptors. *)
Lemma untouched_6_11 args :
  Forall (keeps_through P) (firstn 6 (skipn 5 (pipeline E args))).
Proof.
  cbn [firstn skipn pipeline]. each_stage.
  - apply untouched_count_pages.
  - apply untouched_decode_page_headers.
  - apply untouched_decompress_pages.
  - apply untouched_alloc_column_data.
  - apply untouched_build_dictionaries.
  - apply untouched_decode_page_data.
Qed.

End Untouched.

(** *** The read as a whole *)

(** A read that hands columns to its caller, step by step. *)
Lemma successful_read_steps args f o :
  snd (read_parquet E args) = f -> out f = Some o ->
  exists f2 f3 f4 f5 g,
    reaches E args 2 f2
    /\ select_columns E args f2 = Next f3
    /\ init_columns E f3 = Next f4
    /\ reaches E args 4 f4
    /\ build_chunks E f4 = Next f5
    /\ run (firstn 6 (skipn 5 (pipeline E args))) f5 = Next g
    /\ transfer_ownership g = Stop (Returned GDF_SUCCESS) f.
Proof.
  intros Hf Ho.
  destruct (read_with_output E args f o Hf Ho) as (g & Hg & Ht).
  destruct (reaches_split E args 5 6 g Hg) as (f5 & Hr5 & Hrun).
  destruct (reaches_succ E args 4 (build_chunks E) f5 eq_refl Hr5) as (f4 & Hr4 & Hs5).
  destruct (reaches_succ E args 3 (init_columns E) f4 eq_refl Hr4) as (f3 & Hr3 & Hs4).
  destruct (reaches_succ E args 2 (select_columns E args) f3 eq_refl Hr3) as (f2 & Hr2 & Hs3).
  exists f2, f3, f4, f5, g. repeat split; assumption.
Qed.

Lemma contents_iota n : contents (vector.iota n) = map Z.of_nat (seq 0 n).
Proof.
  unfold contents, vector.iota. cbn [vector.size vector.storage].
  apply firstn_all2. rewrite length_map, length_seq. lia.
Qed.

Lemma init_columns_sizes (f3 f4 : frame) :
  init_columns E f3 = Next f4 ->
  Forall (fun c => gdf_column.size c = to_int32 (FileMetaData.num_rows (file_md f3))
                   /\ gdf_column.null_count c = 0)
         (columns f4).
Proof.
  unfold init_columns. intro H. injection H as <-. cbn [columns set_columns].
  apply Forall_forall. intros c Hc. apply in_map_iff in Hc. destruct Hc as (i & <- & _).
  split; reflexivity.
Qed.

Lemma max_num_columns_small md :
  Z.of_nat (List.length (row_group0 md)) < 2 ^ 31 ->
  Z.to_nat (max_num_columns md) = List.length (row_group0 md).
Proof.
  intro H. unfold max_num_columns, row_group0 in *.
  destruct (FileMetaData.row_groups md) as [|rg rest]; [reflexivity|].
  rewrite to_int32_small by lia. apply Nat2Z.id.
Qed.

(** X10.  A read without an allow-list that hands columns to its caller
    hands every column of the first row group, in file order, each with
    its dot-joined name, the type [to_dtype] gives it and the footer's row
    count as its size.  (The number of columns of the file fits [int].) *)
Theorem every_column_without_allow_list
    (args : pq_read_arg) (f : frame) (o : pq_read_out) :
  use_cols args = None ->
  read_parquet E args = (Returned GDF_SUCCESS, f) ->
  out f = Some o ->
  Z.of_nat (List.length (row_group0 (file_md f))) < 2 ^ 31 ->
  let md := file_md f in
  map col_sig (data_out o)
  = map (fun c => (c_str (column_name c), fst (column_type E md c),
                   snd (column_type E md c), to_int32 (FileMetaData.num_rows md)))
        (row_group0 md)
  /\ num_cols_out o = Z.of_nat (List.length (row_group0 md)).
Proof.
  intros Hcols Hread Ho Hsmall md.
  assert (Hf : snd (read_parquet E args) = f) by (rewrite Hread; reflexivity).
  destruct (successful_read_steps args f o Hf Ho)
    as (f2 & f3 & f4 & f5 & g & _ & Hs3 & Hs4 & Hr4 & Hs5 & Hrun & Ht).
  unfold transfer_ownership in Ht. injection Ht as Ht.
  assert (Hk : selection g = selection f4).
  { pose proof (run_keeps selection _ (keeps_selection_5_11 E args) f4) as Hk.
    change (firstn 7 (skipn 4 (pipeline E args)))
      with (build_chunks E :: firstn 6 (skipn 5 (pipeline E args))) in Hk.
    cbn [run] in Hk. rewrite Hs5, Hrun in Hk. exact Hk. }
  unfold selection in Hk. injection Hk as Hmd _ Hnum _ _ Hsig.
  unfold select_columns in Hs3. rewrite Hcols in Hs3.
  destruct (max_num_columns (file_md f2) <=? 0); [discriminate|].
  destruct (get_index_col (file_md f2)) as [icn|]; [|discriminate].
  destruct (vector.empty _); [discriminate|]. injection Hs3 as Hs3.
  assert (H3 : file_md f3 = file_md f2
               /\ col_indexes f3 = vector.iota (Z.to_nat (max_num_columns (file_md f2))))
    by (rewrite <- Hs3; split; reflexivity).
  destruct H3 as [Hmd3 Hv].
  pose proof (init_columns_sizes f3 f4 Hs4) as Hsz.
  assert (Hmdf : md = file_md f2).
  { unfold md. rewrite <- Ht. cbn [file_md set_out]. rewrite Hmd.
    unfold init_columns in Hs4. injection Hs4 as <-. cbn. exact Hmd3. }
  assert (HN : Z.to_nat (max_num_columns (file_md f2)) = List.length (row_group0 md))
    by (rewrite <- Hmdf; apply max_num_columns_small; exact Hsmall).
  assert (Hwf : (vector.size (col_indexes f3)
                 <= List.length (vector.storage (col_indexes f3)))%nat).
  { rewrite Hv. cbn. rewrite length_map, length_seq. lia. }
  assert (Hsize : Z.of_nat (vector.size (col_indexes f3)) < 2 ^ 31).
  { rewrite Hv. cbn [vector.size vector.iota]. rewrite HN. exact Hsmall. }
  destruct (init_columns_spec E f3 f4 Hs4 Hwf Hsize) as (_ & _ & Hnum4 & Hcols4).
  assert (Hdata : data_out o = columns g /\ num_cols_out o = num_columns g).
  { rewrite <- Ht in Ho. cbn [out set_out] in Ho. injection Ho as <-. split; reflexivity. }
  destruct Hdata as [Hdata Hnco].
  split.
  - rewrite Hdata, Hsig.
    rewrite Hv, contents_iota, HN, map_map in Hcols4.
    rewrite <- (column_at_seq E md) at 1. rewrite map_map.
    rewrite Hmd3, <- Hmdf in Hcols4, Hsz.
    clear - Hcols4 Hsz.
    revert Hcols4 Hsz. generalize (seq 0 (List.length (row_group0 md))) as l.
    generalize (columns f4) as cs.
    induction cs as [|c cs IH]; intros [|i l] Hc Hs; try discriminate; [reflexivity|].
    cbn [map] in *. injection Hc as Hn Hd Hi Hrest.
    inversion Hs as [|? ? [Hsc _] Hs']; subst.
    f_equal; [|apply IH; assumption].
    unfold col_sig. rewrite Hsc, Hn, Hd, Hi. reflexivity.
  - rewrite Hnco, Hnum, Hnum4, Hv. cbn [vector.size vector.iota]. rewrite HN. reflexivity.
Qed.

(** X11.  The caller's output arguments are written only by a read that
    returns [GDF_SUCCESS]: a read that returns an error or throws leaves
    them alone. *)
Theorem output_only_on_success (args : pq_read_arg) (o : pq_read_out) :
  out (snd (read_parquet E args)) = Some o ->
  fst (read_parquet E args) = Returned GDF_SUCCESS
  /\ data_out o = columns (snd (read_parquet E args))
  /\ num_cols_out o = num_columns (snd (read_parquet E args))
  /\ num_rows_out o = num_rows (snd (read_parquet E args)).
Proof.
  intro Ho.
  destruct (read_with_output E args _ o eq_refl Ho) as (g & Hg & Ht).
  assert (Hrun : run (pipeline E args) (entry E)
                 = Stop (Returned GDF_SUCCESS) (snd (read_parquet E args))).
  { rewrite (reaches_resume E args 11 g Hg). cbn [skipn pipeline run].
    rewrite Ht. reflexivity. }
  split.
  - unfold read_parquet at 1. rewrite Hrun. reflexivity.
  - unfold transfer_ownership in Ht. injection Ht as Ht. rewrite <- Ht in Ho |- *.
    cbn [out set_out] in Ho. injection Ho as <-. repeat split.
Qed.

(** **** The selection *)

Lemma select_columns_spec args (f2 f3 : frame) :
  select_columns E args f2 = Next f3 ->
  Z.of_nat (List.length (row_group0 (file_md f2))) < 2 ^ 31 ->
  let md := file_md f2 in
  file_md f3 = md
  /\ index_col f3 = index_col f2
  /\ num_rows f3 = num_rows f2
  /\ get_index_col md = Some (index_col_name f3)
  /\ (vector.size (col_indexes f3) <= List.length (vector.storage (col_indexes f3)))%nat
  /\ Z.of_nat (vector.size (col_indexes f3)) < 2 ^ 31
  /\ map (column_at E md) (contents (col_indexes f3))
     = selected_columns md (use_cols args) (index_col_name f3).
Proof.
  intros Hs Hsmall md. unfold select_columns in Hs. fold md in Hs, Hsmall.
  destruct (max_num_columns md <=? 0); [discriminate|].
  destruct (get_index_col md) as [icn|] eqn:Hidx; [|discriminate].
  destruct (vector.empty _); [discriminate|]. injection Hs as <-.
  cbn [file_md index_col num_rows index_col_name col_indexes set_col_indexes
       set_index_col_name].
  pose proof (max_num_columns_small md Hsmall) as HN.
  split; [reflexivity|]. split; [reflexivity|]. split; [reflexivity|].
  split; [reflexivity|].
  unfold selected_columns. destruct (use_cols args) as [cols|].
  - destruct (filter_columns_contents E md (map c_str cols ++ [icn])
                (vector.iota (Z.to_nat (max_num_columns md)))) as [Hc Hwf].
    cbv zeta in Hc, Hwf.
    split; [exact Hwf|]. split.
    + rewrite <- (contents_length _ Hwf), Hc, length_map.
      pose proof (filter_length_le
                    (fun i => wanted (map c_str cols ++ [icn]) (column_at E md (Z.of_nat i)))
                    (seq 0 (Z.to_nat (max_num_columns md)))) as Hle.
      rewrite length_seq, HN in Hle. rewrite HN. lia.
    + rewrite Hc, map_map. rewrite <- (column_at_seq E md) at 1.
      rewrite filter_map_comm, HN. reflexivity.
  - split; [cbn; rewrite length_map, length_seq; lia|]. split.
    + cbn [vector.size vector.iota]. rewrite HN. exact Hsmall.
    + rewrite contents_iota, map_map, HN. apply column_at_seq.
Qed.

Lemma index_col_before_selection args (f2 : frame) :
  reaches E args 2 f2 -> index_col f2 = -1 /\ num_rows f2 = 0.
Proof.
  intro Hr.
  assert (Hk : Forall (keeps_through (fun f : frame => (index_col f, num_rows f)))
                      (firstn 2 (pipeline E args))).
  { cbn [firstn pipeline]. each_stage; intro f.
    - unfold check_file. destruct (LoadFile E _); [|reflexivity].
      repeat match goal with |- context [if ?b then _ else _] => destruct b end; reflexivity.
    - unfold read_metadata, print_metadata.
      destruct (FileMetaData.row_groups _); reflexivity. }
  pose proof (reaches_keeps E _ args 2 f2 Hk Hr) as H. cbn in H.
  injection H as H1 H2. split; assumption.
Qed.

(** The loop over the selected columns that looks for the index column. *)
Lemma find_last_spec (p : nat -> bool) n (start : Z) :
  let r := fold_left (fun acc i => if p i then Z.of_nat i else acc) (seq 0 n) start in
  ((forall i, (i < n)%nat -> p i = false) /\ r = start)
  \/ (exists i, (i < n)%nat /\ p i = true /\ r = Z.of_nat i
                /\ forall j, (i < j < n)%nat -> p j = false).
Proof.
  induction n as [|n IH]; cbv zeta.
  - left. split; [lia | reflexivity].
  - rewrite seq_S, fold_left_app. cbn [fold_left Nat.add].
    destruct (p n) eqn:Hp.
    + right. exists n. repeat split; try lia; assumption.
    + cbv zeta in IH. destruct IH as [[Hnone Hr] | (i & Hi & Hpi & Hr & Hlast)].
      * left. split; [|exact Hr]. intros i Hi.
        destruct (Nat.eq_dec i n) as [->|]; [exact Hp | apply Hnone; lia].
      * right. exists i. repeat split; try assumption; [lia|].
        intros j Hj. destruct (Nat.eq_dec j n) as [->|]; [exact Hp | apply Hlast; lia].
Qed.

Lemma selected_has_the_index_column md use icn c :
  In c (row_group0 md) -> column_name c = icn -> In c (selected_columns md use icn).
Proof.
  intros Hin Hname. unfold selected_columns. destruct use as [cols|]; [|exact Hin].
  apply filter_In. split; [exact Hin|]. unfold wanted.
  apply existsb_exists. exists icn. split.
  - apply in_or_app. right. left. reflexivity.
  - apply String.eqb_eq. exact Hname.
Qed.

Lemma selected_incl md use icn c :
  In c (selected_columns md use icn) -> In c (row_group0 md).
Proof.
  unfold selected_columns. destruct use as [cols|]; [|tauto].
  intro H. apply filter_In in H. tauto.
Qed.

(** X12.  A read that hands columns to its caller reports an index column
    exactly when a column of the first row group carries the name
    [get_index_col] found; the position it reports is that of an output
    column of this name, the last one if there are several. *)
Theorem index_column_is_reported
    (args : pq_read_arg) (f : frame) (o : pq_read_out) :
  read_parquet E args = (Returned GDF_SUCCESS, f) ->
  out f = Some o ->
  Z.of_nat (List.length (row_group0 (file_md f))) < 2 ^ 31 ->
  let md := file_md f in
  let icn := index_col_name f in
  let selected := selected_columns md (use_cols args) icn in
  get_index_col md = Some icn
  /\ (index_col_out o = None <-> Forall (fun c => column_name c <> icn) (row_group0 md))
  /\ (forall i, index_col_out o = Some i ->
        0 <= i < Z.of_nat (List.length selected)
        /\ (exists c, nth_error selected (Z.to_nat i) = Some c /\ column_name c = icn)
        /\ (exists c, nth_error (data_out o) (Z.to_nat i) = Some c
                      /\ gdf_column.col_name c = c_str icn)
        /\ (forall j c, Z.to_nat i < j -> nth_error selected j = Some c ->
                        column_name c <> icn)%nat).
Proof.
  intros Hread Ho Hsmall md icn selected.
  assert (Hf : snd (read_parquet E args) = f) by (rewrite Hread; reflexivity).
  destruct (successful_read_steps args f o Hf Ho)
    as (f2 & f3 & f4 & f5 & g & Hr2 & Hs3 & Hs4 & Hr4 & Hs5 & Hrun & Ht).
  unfold transfer_ownership in Ht. injection Ht as Ht.
  (* what the later steps keep *)
  assert (Hk : selection g = selection f4).
  { pose proof (run_keeps selection _ (keeps_selection_5_11 E args) f4) as Hk.
    change (firstn 7 (skipn 4 (pipeline E args)))
      with (build_chunks E :: firstn 6 (skipn 5 (pipeline E args))) in Hk.
    cbn [run] in Hk. rewrite Hs5, Hrun in Hk. exact Hk. }
  unfold selection in Hk. injection Hk as Hmd Hicn _ _ _ Hsig.
  assert (Hic : index_col g = index_col f4).
  { transitivity (index_col f5).
    - pose proof (run_keeps (fun f : frame => index_col f) _
                    (untouched_6_11 (fun f : frame => index_col f)
                       ltac:(reflexivity) ltac:(reflexivity) ltac:(reflexivity)
                       ltac:(reflexivity) ltac:(reflexivity) ltac:(reflexivity)
                       ltac:(reflexivity) args) f5) as H.
      rewrite Hrun in H. exact H.
    - pose proof (untouched_build_chunks (fun f : frame => index_col f)
                    ltac:(reflexivity) ltac:(reflexivity) ltac:(reflexivity)
                    ltac:(reflexivity) ltac:(reflexivity) f4) as H.
      rewrite Hs5 in H. exact H. }
  assert (Hmd4 : file_md f4 = file_md f3 /\ index_col_name f4 = index_col_name f3)
    by (unfold init_columns in Hs4; injection Hs4 as <-; split; reflexivity).
  destruct Hmd4 as [Hmd4 Hicn4].
  assert (Hmd32 : file_md f3 = file_md f2).
  { unfold select_columns in Hs3.
    destruct (_ <=? 0); [discriminate|]. destruct (get_index_col _); [|discriminate].
    destruct (vector.empty _); [discriminate|]. injection Hs3 as <-. reflexivity. }
  assert (Hmdf : md = file_md f2).
  { unfold md. rewrite <- Ht. cbn [file_md set_out]. congruence. }
  assert (Hicnf : icn = index_col_name f3).
  { unfold icn. rewrite <- Ht. cbn [index_col_name set_out]. congruence. }
  fold md in Hsmall. rewrite Hmdf in Hsmall.
  destruct (select_columns_spec args f2 f3 Hs3 Hsmall)
    as (_ & Hic3 & _ & Hidx & Hwf & Hsize & Hsel).
  cbv zeta in Hidx, Hsel. rewrite <- Hmdf, <- Hicnf in Hidx, Hsel. fold selected in Hsel.
  destruct (index_col_before_selection args f2 Hr2) as [Hic2 _].
  (* the loop of lines 461-467 *)
  set (n := vector.size (col_indexes f3)) in *.
  assert (Hlen : List.length selected = n).
  { rewrite <- Hsel, length_map. apply contents_length. exact Hwf. }
  set (p := fun i : nat =>
              String.eqb (column_name (column_at E md
                            (vector.at_unchecked (vector.clear (col_indexes f3)) i))) icn).
  assert (Hp : forall i, (i < n)%nat ->
                 exists c, nth_error selected i = Some c
                           /\ p i = String.eqb (column_name c) icn).
  { intros i Hi. unfold p. rewrite at_unchecked_clear by exact Hi.
    destruct (nth_error selected i) as [c|] eqn:Hc;
      [|apply nth_error_None in Hc; lia].
    exists c. split; [reflexivity|].
    rewrite <- Hsel in Hc. rewrite nth_error_map in Hc.
    destruct (nth_error (contents (col_indexes f3)) i) as [z|] eqn:Hz; [|discriminate].
    injection Hc as <-. rewrite (nth_error_nth' _ _ 0 _ Hz). reflexivity. }
  assert (Hloop : index_col f4
                  = fold_left (fun acc i => if p i then Z.of_nat i else acc) (seq 0 n) (-1)).
  { unfold init_columns in Hs4. injection Hs4 as <-.
    cbn [index_col set_columns set_index_col]. unfold find_index_col.
    cbn [file_md col_indexes index_col_name index_col set_col_indexes set_num_columns].
    rewrite to_int32_small by (fold n; lia). fold n. rewrite Nat2Z.id.
    rewrite Hic3, Hic2. unfold p. rewrite Hicnf, Hmdf, Hmd32. reflexivity. }
  assert (Hout : index_col_out o
                 = if negb (index_col f4 =? -1) then Some (index_col f4) else None).
  { rewrite <- Ht in Ho. cbn [out set_out] in Ho. injection Ho as <-.
    cbn [index_col_out]. rewrite Hic. reflexivity. }
  assert (Hcols : forall i, (i < n)%nat ->
            exists c, nth_error (data_out o) i = Some c
                      /\ gdf_column.col_name c
                         = c_str (column_name (column_at E md
                              (vector.at_unchecked (vector.clear (col_indexes f3)) i)))).
  { intros i Hi.
    assert (Hd : map col_sig (data_out o) = map col_sig (columns f4)).
    { rewrite <- Ht in Ho. cbn [out set_out] in Ho. injection Ho as <-. exact Hsig. }
    unfold init_columns in Hs4. injection Hs4 as Hs4. rewrite <- Hs4 in Hd.
    cbn [columns set_columns] in Hd.
    rewrite to_int32_small in Hd by (fold n; lia). fold n in Hd. rewrite Nat2Z.id in Hd.
    assert (Hnth : nth_error (map col_sig (data_out o)) i
                   = nth_error (map col_sig (map (init_column E
                        (set_index_col (find_index_col E
                           (set_col_indexes (vector.clear (col_indexes f3))
                              (set_num_columns (Z.of_nat n) f3)) n)
                           (set_col_indexes (vector.clear (col_indexes f3))
                              (set_num_columns (Z.of_nat n) f3)))) (seq 0 n))) i)
      by (rewrite Hd; reflexivity).
    rewrite !nth_error_map in Hnth.
    assert (Hseq : nth_error (seq 0 n) i = Some i).
    { rewrite (List.nth_error_nth' (seq 0 n) 0%nat) by (rewrite length_seq; exact Hi).
      rewrite seq_nth by exact Hi. reflexivity. }
    rewrite Hseq in Hnth.
    destruct (nth_error (data_out o) i) as [c|]; [|discriminate].
    exists c. split; [reflexivity|]. cbn [option_map] in Hnth. injection Hnth as Hn _ _ _.
    rewrite Hn. cbn [init_column gdf_column.col_name file_md col_indexes
                     set_index_col set_col_indexes set_num_columns].
    rewrite Hmdf, Hmd32. reflexivity. }
  pose proof (find_last_spec p n (-1)) as Hspec. cbv zeta in Hspec. rewrite <- Hloop in Hspec.
  split; [exact Hidx|]. split.
  - rewrite Hout. split.
    + intro Hnone.
      destruct Hspec as [[Hall _] | (i & Hi & Hpi & Hr & _)].
      * apply Forall_forall. intros c Hc Hname.
        pose proof (selected_has_the_index_column md (use_cols args) icn c Hc Hname) as Hs.
        fold selected in Hs. apply In_nth_error in Hs. destruct Hs as (i & Hi).
        assert (Hlt : (i < n)%nat)
          by (rewrite <- Hlen; apply nth_error_Some; congruence).
        destruct (Hp i Hlt) as (c' & Hc' & Hpc). rewrite Hi in Hc'. injection Hc' as <-.
        rewrite Hall in Hpc by exact Hlt. symmetry in Hpc.
        apply String.eqb_neq in Hpc. contradiction.
      * rewrite Hr in Hnone. destruct (Z.eqb_spec (Z.of_nat i) (-1)); [lia | discriminate].
    + intro Hnone.
      destruct Hspec as [[_ Hr] | (i & Hi & Hpi & _)].
      * rewrite Hr. reflexivity.
      * exfalso. destruct (Hp i Hi) as (c & Hc & Hpc). rewrite Hpi in Hpc.
        symmetry in Hpc. apply String.eqb_eq in Hpc.
        rewrite Forall_forall in Hnone.
        apply (Hnone c); [|exact Hpc].
        apply (selected_incl md (use_cols args) icn). exact (nth_error_In _ _ Hc).
  - intros i Hi. rewrite Hout in Hi.
    destruct Hspec as [[_ Hr] | (k & Hk & Hpk & Hr & Hlast)].
    + rewrite Hr in Hi. discriminate.
    + rewrite Hr in Hi.
      destruct (Z.eqb_spec (Z.of_nat k) (-1)); [lia|]. cbn [negb] in Hi.
      injection Hi as <-. rewrite Nat2Z.id.
      destruct (Hp k Hk) as (c & Hc & Hpc). rewrite Hpk in Hpc. symmetry in Hpc.
      apply String.eqb_eq in Hpc.
      split; [rewrite Hlen; lia|]. split; [exists c; split; assumption|]. split.
      * destruct (Hcols k Hk) as (c' & Hc' & Hn). exists c'. split; [exact Hc'|].
        rewrite Hn. unfold p in Hpk. apply String.eqb_eq in Hpk. rewrite Hpk. reflexivity.
      * intros j c' Hj Hc' Hname.
        assert (Hjn : (j < n)%nat)
          by (rewrite <- Hlen; apply nth_error_Some; congruence).
        destruct (Hp j Hjn) as (c'' & Hc'' & Hpj). rewrite Hc' in Hc''. injection Hc'' as <-.
        rewrite (Hlast j) in Hpj by lia. symmetry in Hpj.
        apply String.eqb_neq in Hpj. contradiction.
Qed.

(** **** The row count *)

Lemma to_int32_add_l a b : to_int32 (to_int32 a + b) = to_int32 (a + b).
Proof.
  unfold to_int32, signed. f_equal.
  replace ((a + 2 ^ (32 - 1)) mod 2 ^ 32 - 2 ^ (32 - 1) + b + 2 ^ (32 - 1))
    with ((a + 2 ^ (32 - 1)) mod 2 ^ 32 + b) by lia.
  rewrite Zplus_mod_idemp_l. f_equal. lia.
Qed.

Lemma num_rows_add_rowgroup (f : frame) rg :
  num_rows (add_rowgroup E f rg) = to_int32 (num_rows f + RowGroup.num_rows rg).
Proof.
  unfold add_rowgroup. cbn [num_rows set_num_rows]. f_equal. f_equal.
  apply (fold_left_keeps (fun f : frame => num_rows f)). intros a col.
  apply (untouched_add_column_chunk (fun f : frame => num_rows f));
    intros; reflexivity.
Qed.

Lemma num_rows_add_rowgroups rgs (f : frame) z :
  num_rows f = to_int32 z ->
  num_rows (fold_left (add_rowgroup E) rgs f)
  = to_int32 (z + sumZ (map RowGroup.num_rows rgs)).
Proof.
  revert f z. induction rgs as [|rg rgs IH]; intros f z Hf; cbn [fold_left map].
  - unfold sumZ. cbn. rewrite Z.add_0_r. exact Hf.
  - rewrite (IH _ (z + RowGroup.num_rows rg)).
    + f_equal. unfold sumZ. cbn [fold_right]. lia.
    + rewrite num_rows_add_rowgroup, Hf. apply to_int32_add_l.
Qed.

Lemma build_chunks_next (f4 f5 : frame) :
  build_chunks E f4 = Next f5 ->
  exists f',
    alloc_chunks E (Z.of_nat (List.length (FileMetaData.row_groups (file_md f4))))
                 (to_size_t (num_columns f4)) f4 = (GDF_SUCCESS, f')
    /\ 0 <= parquet_state.max_num_chunks (state f')
    /\ f5 = fold_left (add_rowgroup E) (FileMetaData.row_groups (file_md f')) f'.
Proof.
  unfold build_chunks. intro H. apply GDF_TRY_Next in H. destruct H as [H1 H2].
  destruct (alloc_chunks E _ _ f4) as [e f'] eqn:Ha. cbn [fst snd] in *. subst e.
  exists f'. split; [reflexivity|].
  destruct (Z.ltb_spec (parquet_state.max_num_chunks (state f')) 0); [discriminate|].
  injection H2 as <-. split; [assumption | reflexivity].
Qed.

Lemma map_col_sig_sizes (a b : list gdf_column.t) (x : Z) :
  map col_sig a = map col_sig b ->
  Forall (fun c => gdf_column.size c = x) b -> Forall (fun c => gdf_column.size c = x) a.
Proof.
  revert b. induction a as [|c a IH]; intros [|d b] H Hb; try discriminate; [constructor|].
  cbn [map] in H.
  pose proof (f_equal (fun l => match l with s :: _ => snd s | [] => 0 end) H) as Hs.
  pose proof (f_equal (@tl _) H) as Hrest. cbn in Hs, Hrest.
  inversion Hb; subst.
  constructor; [congruence | eapply IH; eassumption].
Qed.

(** X13.  The row count a read hands to its caller is the sum of the row
    counts of all row groups, taken in [int]; the size of every column it
    hands over is the footer's [num_rows].  Nothing makes the two agree. *)
Theorem rows_out_add_up_the_row_groups
    (args : pq_read_arg) (f : frame) (o : pq_read_out) :
  read_parquet E args = (Returned GDF_SUCCESS, f) ->
  out f = Some o ->
  let md := file_md f in
  num_rows_out o = to_int32 (sumZ (map RowGroup.num_rows (FileMetaData.row_groups md)))
  /\ Forall (fun c => gdf_column.size c = to_int32 (FileMetaData.num_rows md)) (data_out o).
Proof.
  intros Hread Ho md.
  assert (Hf : snd (read_parquet E args) = f) by (rewrite Hread; reflexivity).
  destruct (successful_read_steps args f o Hf Ho)
    as (f2 & f3 & f4 & f5 & g & Hr2 & Hs3 & Hs4 & Hr4 & Hs5 & Hrun & Ht).
  unfold transfer_ownership in Ht. injection Ht as Ht.
  assert (Hk : selection g = selection f4).
  { pose proof (run_keeps selection _ (keeps_selection_5_11 E args) f4) as Hk.
    change (firstn 7 (skipn 4 (pipeline E args)))
      with (build_chunks E :: firstn 6 (skipn 5 (pipeline E args))) in Hk.
    cbn [run] in Hk. rewrite Hs5, Hrun in Hk. exact Hk. }
  unfold selection in Hk. injection Hk as Hmd _ _ _ _ Hsig.
  assert (Hmdf : md = file_md f4).
  { unfold md. rewrite <- Ht. cbn [file_md set_out]. exact Hmd. }
  assert (Hout : data_out o = columns g /\ num_rows_out o = num_rows g).
  { rewrite <- Ht in Ho. cbn [out set_out] in Ho. injection Ho as <-. split; reflexivity. }
  destruct Hout as [Hdata Hrows]. split.
  - rewrite Hrows.
    assert (H65 : num_rows g = num_rows f5).
    { pose proof (run_keeps (fun f : frame => num_rows f) _
                    (untouched_6_11 (fun f : frame => num_rows f)
                       ltac:(reflexivity) ltac:(reflexivity) ltac:(reflexivity)
                       ltac:(reflexivity) ltac:(reflexivity) ltac:(reflexivity)
                       ltac:(reflexivity) args) f5) as H.
      rewrite Hrun in H. exact H. }
    rewrite H65.
    destruct (build_chunks_next f4 f5 Hs5) as (f' & Ha & _ & ->).
    assert (Ha' : snd (alloc_chunks E
                    (Z.of_nat (List.length (FileMetaData.row_groups (file_md f4))))
                    (to_size_t (num_columns f4)) f4) = f') by (rewrite Ha; reflexivity).
    assert (Hmd' : file_md f' = file_md f4).
    { rewrite <- Ha'.
      apply (untouched_alloc_chunks (fun f : frame => file_md f)); intros; reflexivity. }
    assert (Hn' : num_rows f' = 0).
    { rewrite <- Ha'.
      rewrite (untouched_alloc_chunks (fun f : frame => num_rows f))
        by (intros; reflexivity).
      unfold init_columns in Hs4. injection Hs4 as <-. cbn [num_rows set_columns
        set_index_col set_col_indexes set_num_columns].
      destruct (select_columns_keeps E args f2) as [].
      unfold select_columns in Hs3.
      destruct (_ <=? 0); [discriminate|]. destruct (get_index_col _); [|discriminate].
      destruct (vector.empty _); [discriminate|]. injection Hs3 as <-.
      cbn [num_rows set_col_indexes set_index_col_name].
      apply (index_col_before_selection args f2 Hr2). }
    rewrite (num_rows_add_rowgroups _ f' 0) by (rewrite Hn'; reflexivity).
    rewrite Hmd', <- Hmdf, Z.add_0_l. reflexivity.
  - rewrite Hdata. apply (map_col_sig_sizes _ (columns f4)); [exact Hsig|].
    pose proof (init_columns_sizes f3 f4 Hs4) as Hsz.
    assert (Hmd43 : file_md f4 = file_md f3)
      by (unfold init_columns in Hs4; injection Hs4 as <-; reflexivity).
    rewrite Hmdf, Hmd43. eapply Forall_impl; [|exact Hsz]. intros c [H _]. exact H.
Qed.

(** *** The chunk descriptors *)

Lemma staging_of_app i a b :
  staging_of i (a ++ b) = staging_of i a ++ staging_of (i + List.length a) b.
Proof.
  revert i. induction a as [|s a IH]; intro i; cbn [staging_of app List.length].
  - rewrite Nat.add_0_r. reflexivity.
  - rewrite IH, <- app_assoc.
    replace (i + S (List.length a))%nat with (S i + List.length a)%nat by lia. reflexivity.
Qed.

Lemma firstn_snoc {A} cap (l : list A) x :
  firstn cap (l ++ [x])
  = if (List.length (firstn cap l) <? cap)%nat then firstn cap l ++ [x] else firstn cap l.
Proof.
  destruct (Nat.ltb_spec (List.length (firstn cap l)) cap) as [H|H].
  - rewrite length_firstn in H.
    assert (Hl : (List.length l < cap)%nat) by lia.
    rewrite !firstn_all2 by (rewrite ?length_app; cbn; lia). reflexivity.
  - rewrite length_firstn in H.
    rewrite firstn_app. replace (cap - List.length l)%nat with 0%nat by lia.
    cbn. apply app_nil_r.
Qed.

(** What the loop of lines 486-545 has built when it has met [slots]. *)
Lemma add_chunk_spec rg col k (f : frame) :
  let g := add_chunk E rg col k f in
  chunk_map g = chunk_map f ++ [(col, k)]
  /\ (exists d,
        parquet_state.chunk_desc (state g) = parquet_state.chunk_desc (state f) ++ [d]
        /\ ColumnChunkDesc.start_row d = num_rows f
        /\ ColumnChunkDesc.num_rows d = to_uint32 (RowGroup.num_rows rg))
  /\ staged (trace g)
     = staged (trace f)
       ++ (let n := ColumnChunkMetaData.total_compressed_size (ColumnChunk.meta_data col) in
           if n >? 0 then [(List.length (parquet_state.chunk_desc (state f)), n)] else [])
  /\ columns g = columns f /\ num_rows g = num_rows f
  /\ parquet_state.max_num_chunks (state g) = parquet_state.max_num_chunks (state f).
Proof.
  cbv zeta. unfold add_chunk, stage_chunk_data, RMM_ALLOC_unchecked.
  unfold parquet_state.num_chunks.
  destruct (_ >? 0); cbn -[Z.to_nat Z.of_nat]; unfold staged; rewrite ?flat_map_app;
    cbn -[Z.to_nat Z.of_nat];
    rewrite ?app_nil_r, ?Nat2Z.id; repeat split; eexists; repeat split.
Qed.

Lemma add_column_chunks_spec rg cols cap nr chunks : forall (f : frame) slots,
  columns f = cols -> num_rows f = nr ->
  parquet_state.max_num_chunks (state f) = Z.of_nat cap ->
  chunk_map f = map (fun s => fst (fst s)) (firstn cap slots) ->
  map (fun d => (ColumnChunkDesc.start_row d, ColumnChunkDesc.num_rows d))
      (parquet_state.chunk_desc (state f))
  = map (fun s => (snd (fst s), to_uint32 (snd s))) (firstn cap slots) ->
  staged (trace f) = staging_of 0 (firstn cap slots) ->
  let g := fold_left (add_column_chunk E rg) chunks f in
  let slots' := slots ++ map (fun ck => (ck, nr, RowGroup.num_rows rg)) (matches_of cols chunks) in
  columns g = cols /\ num_rows g = nr
  /\ parquet_state.max_num_chunks (state g) = Z.of_nat cap
  /\ chunk_map g = map (fun s => fst (fst s)) (firstn cap slots')
  /\ map (fun d => (ColumnChunkDesc.start_row d, ColumnChunkDesc.num_rows d))
         (parquet_state.chunk_desc (state g))
     = map (fun s => (snd (fst s), to_uint32 (snd s))) (firstn cap slots')
  /\ staged (trace g) = staging_of 0 (firstn cap slots').
Proof.
  induction chunks as [|col chunks IH]; intros f slots Hc Hn Hcap Hmap Hrows Hst; cbv zeta.
  - cbn [fold_left matches_of flat_map map]. rewrite app_nil_r. repeat split; assumption.
  - cbn [fold_left matches_of flat_map]. rewrite map_app, app_assoc.
    fold (matches_of cols chunks).
    set (one := match find_column (column_name col) cols 0 with
                | Some k => [(col, k)]
                | None => []
                end).
    set (slots1 := slots ++ map (fun ck => (ck, nr, RowGroup.num_rows rg)) one).
    set (f1 := add_column_chunk E rg f col).
    assert (H1 : columns f1 = cols /\ num_rows f1 = nr
                 /\ parquet_state.max_num_chunks (state f1) = Z.of_nat cap
                 /\ chunk_map f1 = map (fun s => fst (fst s)) (firstn cap slots1)
                 /\ map (fun d => (ColumnChunkDesc.start_row d, ColumnChunkDesc.num_rows d))
                        (parquet_state.chunk_desc (state f1))
                    = map (fun s => (snd (fst s), to_uint32 (snd s))) (firstn cap slots1)
                 /\ staged (trace f1) = staging_of 0 (firstn cap slots1)).
    { assert (Hlen : List.length (parquet_state.chunk_desc (state f))
                     = List.length (firstn cap slots)).
      { apply (f_equal (@List.length _)) in Hrows. rewrite !length_map in Hrows.
        exact Hrows. }
      unfold f1, slots1, one, add_column_chunk. rewrite Hc.
      destruct (find_column (column_name col) cols 0) as [k|].
      2:{ cbn [map]. rewrite app_nil_r. repeat split; assumption. }
      cbn [map]. unfold parquet_state.num_chunks. rewrite Hcap, Hlen.
      pose proof (firstn_snoc cap slots (col, k, nr, RowGroup.num_rows rg)) as Hsn.
      destruct (Nat.ltb_spec (List.length (firstn cap slots)) cap) as [Hlt|Hge].
      + rewrite (proj2 (Z.ltb_lt _ _)) by lia.
        destruct (add_chunk_spec rg col k f)
          as (Hm & (d & Hd & Hsr & Hnr) & Hs & Hcols & Hnum & Hmax).
        cbv zeta in Hm, Hd, Hs, Hcols, Hnum, Hmax.
        split; [congruence|]. split; [congruence|]. split; [congruence|]. split; [|split].
        * rewrite Hm, Hmap, Hsn, map_app. reflexivity.
        * rewrite Hd, map_app, Hrows, Hsn, map_app. cbn [map fst snd].
          rewrite Hsr, Hnr, Hn. reflexivity.
        * rewrite Hs, Hst, Hsn, staging_of_app, Hlen. cbn [staging_of Nat.add].
          unfold slot_size. cbn [fst]. rewrite app_nil_r. reflexivity.
      + rewrite (proj2 (Z.ltb_ge _ _)) by lia. rewrite Hsn.
        repeat split; assumption. }
    destruct H1 as (A1 & A2 & A3 & A4 & A5 & A6).
    exact (IH f1 slots1 A1 A2 A3 A4 A5 A6).
Qed.

Lemma add_rowgroups_spec cols cap rgs : forall (f : frame) slots,
  columns f = cols ->
  parquet_state.max_num_chunks (state f) = Z.of_nat cap ->
  chunk_map f = map (fun s => fst (fst s)) (firstn cap slots) ->
  map (fun d => (ColumnChunkDesc.start_row d, ColumnChunkDesc.num_rows d))
      (parquet_state.chunk_desc (state f))
  = map (fun s => (snd (fst s), to_uint32 (snd s))) (firstn cap slots) ->
  staged (trace f) = staging_of 0 (firstn cap slots) ->
  let g := fold_left (add_rowgroup E) rgs f in
  let slots' := slots ++ matching_slots cols rgs (num_rows f) in
  chunk_map g = map (fun s => fst (fst s)) (firstn cap slots')
  /\ map (fun d => (ColumnChunkDesc.start_row d, ColumnChunkDesc.num_rows d))
         (parquet_state.chunk_desc (state g))
     = map (fun s => (snd (fst s), to_uint32 (snd s))) (firstn cap slots')
  /\ staged (trace g) = staging_of 0 (firstn cap slots')
  /\ parquet_state.max_num_chunks (state g) = Z.of_nat cap.
Proof.
  induction rgs as [|rg rgs IH]; intros f slots Hc Hcap Hmap Hrows Hst; cbv zeta.
  - cbn [fold_left matching_slots]. rewrite app_nil_r. repeat split; assumption.
  - cbn [fold_left matching_slots]. rewrite app_assoc.
    destruct (add_column_chunks_spec rg cols cap (num_rows f) (RowGroup.columns rg) f slots
                Hc eq_refl Hcap Hmap Hrows Hst) as (Hc' & Hn' & Hcap' & Hmap' & Hrows' & Hst').
    cbv zeta in Hc', Hn', Hcap', Hmap', Hrows', Hst'.
    set (g := fold_left (add_column_chunk E rg) (RowGroup.columns rg) f) in *.
    assert (Hrg : add_rowgroup E f rg
                  = set_num_rows (to_int32 (num_rows f + RowGroup.num_rows rg)) g).
    { unfold add_rowgroup. fold g. rewrite Hn'. reflexivity. }
    rewrite Hrg.
    replace (to_int32 (num_rows f + RowGroup.num_rows rg))
      with (num_rows (set_num_rows (to_int32 (num_rows f + RowGroup.num_rows rg)) g))
      at 2 4 6 by reflexivity.
    apply IH; assumption.
Qed.

Lemma staged_log_other c (f : frame) :
  (forall i n, c <> RMM_ALLOC (buf_compressed_data i) n) ->
  staged (trace (log c f)) = staged (trace f).
Proof.
  intro H. unfold staged. cbn [log trace set_trace]. rewrite flat_map_app. cbn.
  destruct c as [| |b n| | | | | | | | |]; try apply app_nil_r.
  destruct b; try apply app_nil_r. exfalso. eapply H. reflexivity.
Qed.

Lemma nothing_built_before args (f : frame) :
  reaches E args 4 f ->
  chunk_map f = [] /\ parquet_state.chunk_desc (state f) = [] /\ staged (trace f) = []
  /\ num_rows f = 0.
Proof.
  intro Hr.
  assert (Hk : Forall (keeps_through (fun f : frame =>
                  (chunk_map f, parquet_state.chunk_desc (state f), staged (trace f),
                   num_rows f)))
                 (firstn 4 (pipeline E args))).
  { cbn [firstn pipeline]. each_stage; intro g.
    - unfold check_file. destruct (LoadFile E _); [|reflexivity].
      repeat match goal with |- context [if ?b then _ else _] => destruct b end; reflexivity.
    - unfold read_metadata, print_metadata, staged.
      destruct (FileMetaData.row_groups _); cbn; rewrite !flat_map_app; cbn;
        rewrite !app_nil_r; reflexivity.
    - unfold select_columns. destruct (_ <=? 0); [reflexivity|].
      destruct (get_index_col _); [|reflexivity]. destruct (vector.empty _); reflexivity.
    - reflexivity. }
  pose proof (reaches_keeps E _ args 4 f Hk Hr) as H. cbn in H.
  injection H as H1 H2 H3 H4. repeat split; assumption.
Qed.

Lemma chunks_are_mapped_until_capacity_aux (args : pq_read_arg) (f g : frame) :
  reaches E args 4 f ->
  build_chunks E f = Next g ->
  let cap := parquet_state.max_num_chunks (state g) in
  let kept := firstn (Z.to_nat cap)
                     (matching_slots (columns f) (FileMetaData.row_groups (file_md f)) 0) in
  cap = to_int32 (to_size_t (Z.of_nat (List.length (FileMetaData.row_groups (file_md f)))
                             * to_size_t (num_columns f)))
  /\ 0 <= cap
  /\ parquet_state.num_chunks (state g) = Z.of_nat (List.length kept)
  /\ chunk_map g = map (fun s => fst (fst s)) kept
  /\ map (fun d => (ColumnChunkDesc.start_row d, ColumnChunkDesc.num_rows d))
         (parquet_state.chunk_desc (state g))
     = map (fun s => (snd (fst s), to_uint32 (snd s))) kept
  /\ staged (trace g) = staging_of 0 kept.
Proof.
  intros Hr Hs cap kept.
  destruct (nothing_built_before args f Hr) as (Hm0 & Hd0 & Hst0 & Hn0).
  destruct (build_chunks_next f g Hs) as (f' & Ha & Hpos & Hg).
  assert (Ha' : snd (alloc_chunks E
                  (Z.of_nat (List.length (FileMetaData.row_groups (file_md f))))
                  (to_size_t (num_columns f)) f) = f') by (rewrite Ha; reflexivity).
  assert (Hsame : (chunk_map f', columns f', num_rows f', file_md f',
                   parquet_state.chunk_desc (state f'))
                  = (chunk_map f, columns f, num_rows f, file_md f,
                     parquet_state.chunk_desc (state f))
                  /\ staged (trace f') = staged (trace f)
                  /\ parquet_state.max_num_chunks (state f')
                     = to_int32 (to_size_t
                         (Z.of_nat (List.length (FileMetaData.row_groups (file_md f)))
                          * to_size_t (num_columns f)))).
  { rewrite <- Ha'. unfold alloc_chunks, RMM_TRY, CUDA_TRY, try_call, falls_off_the_end.
    repeat match goal with |- context [runtime_ok E ?t ?c] => destruct (runtime_ok E t c) end;
      cbn [snd]; rewrite ?staged_log_other by (intros; discriminate); repeat split. }
  destruct Hsame as (Hsame & Hst' & Hmax). injection Hsame as Hm' Hc' Hn' Hmd' Hd'.
  set (n := Z.to_nat (parquet_state.max_num_chunks (state f'))).
  assert (Hcapn : parquet_state.max_num_chunks (state f') = Z.of_nat n) by (unfold n; lia).
  destruct (add_rowgroups_spec (columns f) n (FileMetaData.row_groups (file_md f')) f' []
              Hc' Hcapn) as (Hmap & Hrows & Hstg & Hcap').
  { rewrite Hm', Hm0. destruct n; reflexivity. }
  { rewrite Hd', Hd0. destruct n; reflexivity. }
  { rewrite Hst', Hst0. destruct n; reflexivity. }
  cbv zeta in Hmap, Hrows, Hstg, Hcap'. cbn [app] in Hmap, Hrows, Hstg.
  rewrite <- Hg, Hn', Hn0, Hmd' in *.
  assert (Hcap : cap = Z.of_nat n) by exact Hcap'.
  unfold kept. rewrite Hcap, Nat2Z.id.
  split; [rewrite <- Hcap; unfold cap; rewrite Hcap', <- Hcapn; exact Hmax|].
  split; [lia|]. split.
  - unfold parquet_state.num_chunks. f_equal.
    apply (f_equal (@List.length _)) in Hrows. rewrite !length_map in Hrows. exact Hrows.
  - repeat split; assumption.
Qed.

(** X14.  The chunk descriptors are set up for the column chunks that
    carry the name of an output column, row group after row group in file
    order, as far as the descriptor array has room: each is mapped to the
    first output column of its name, starts at the rows counted before its
    row group and has the rows of its row group; each with bytes gets a
    device buffer of its compressed size, the others none. *)
Theorem chunks_are_mapped_until_capacity (args : pq_read_arg) (f g : frame) :
  reaches E args 4 f ->
  build_chunks E f = Next g ->
  let cap := parquet_state.max_num_chunks (state g) in
  let kept := firstn (Z.to_nat cap)
                     (matching_slots (columns f) (FileMetaData.row_groups (file_md f)) 0) in
  cap = to_int32 (to_size_t (Z.of_nat (List.length (FileMetaData.row_groups (file_md f)))
                             * to_size_t (num_columns f)))
  /\ 0 <= cap
  /\ parquet_state.num_chunks (state g) = Z.of_nat (List.length kept)
  /\ chunk_map g = map (fun s => fst (fst s)) kept
  /\ map (fun d => (ColumnChunkDesc.start_row d, ColumnChunkDesc.num_rows d))
         (parquet_state.chunk_desc (state g))
     = map (fun s => (snd (fst s), to_uint32 (snd s))) kept
  /\ staged (trace g) = staging_of 0 kept.
Proof. exact (chunks_are_mapped_until_capacity_aux args f g). Qed.

(** **** Files whose row groups all have the columns of the first *)

Lemma find_column_found name cols k :
  match find_column name cols k with Some _ => true | None => false end
  = existsb (String.eqb name) (map gdf_column.col_name cols).
Proof.
  revert k. induction cols as [|c cols IH]; intro k; cbn [find_column map existsb];
    [reflexivity|].
  destruct (String.eqb name (gdf_column.col_name c)); [reflexivity | apply IH].
Qed.

Lemma matches_of_chunks cols chunks :
  map fst (matches_of cols chunks)
  = filter (fun col => match find_column (column_name col) cols 0 with
                       | Some _ => true
                       | None => false
                       end) chunks.
Proof.
  induction chunks as [|c chunks IH]; cbn [matches_of flat_map filter]; [reflexivity|].
  fold (matches_of cols chunks). rewrite map_app, IH.
  destruct (find_column (column_name c) cols 0); reflexivity.
Qed.

Lemma matching_slots_chunks md cols nr :
  map (fun s => fst (fst (fst s))) (matching_slots cols (FileMetaData.row_groups md) nr)
  = matching_chunks md cols.
Proof.
  unfold matching_chunks. revert nr.
  induction (FileMetaData.row_groups md) as [|rg rgs IH]; intro nr;
    cbn [matching_slots map flat_map]; [reflexivity|].
  rewrite map_app, IH, map_map. cbn [fst]. rewrite matches_of_chunks. reflexivity.
Qed.

Lemma matches_of_length cols chunks :
  List.length (matches_of cols chunks)
  = List.length (filter (fun n => existsb (String.eqb n) (map gdf_column.col_name cols))
                        (map column_name chunks)).
Proof.
  rewrite <- (length_map fst), matches_of_chunks, filter_map_comm, length_map.
  f_equal. apply filter_ext. intro c. apply find_column_found.
Qed.

Lemma matching_slots_length cols rgs nr n :
  Forall (fun rg => List.length (matches_of cols (RowGroup.columns rg)) = n) rgs ->
  List.length (matching_slots cols rgs nr) = (List.length rgs * n)%nat.
Proof.
  intro H. revert nr. induction H as [|rg rgs Hrg _ IH]; intro nr;
    cbn [matching_slots List.length]; [reflexivity|].
  rewrite length_app, length_map, IH, Hrg. lia.
Qed.

(** The names of the output columns, once they are set up. *)
Lemma columns_set_up args (f : frame) :
  reaches E args 4 f ->
  Z.of_nat (List.length (row_group0 (file_md f))) < 2 ^ 31 ->
  exists icn,
    let selected := selected_columns (file_md f) (use_cols args) icn in
    map gdf_column.col_name (columns f) = map (fun c => c_str (column_name c)) selected
    /\ num_columns f = Z.of_nat (List.length selected)
    /\ index_col_name f = icn.
Proof.
  intros Hr Hsmall.
  destruct (reaches_succ E args 3 (init_columns E) f eq_refl Hr) as (f3 & Hr3 & Hs4).
  destruct (reaches_succ E args 2 (select_columns E args) f3 eq_refl Hr3) as (f2 & Hr2 & Hs3).
  assert (Hmd43 : file_md f = file_md f3 /\ index_col_name f = index_col_name f3)
    by (unfold init_columns in Hs4; injection Hs4 as <-; split; reflexivity).
  destruct Hmd43 as [Hmd43 Hicn].
  assert (Hmd32 : file_md f3 = file_md f2).
  { unfold select_columns in Hs3.
    destruct (_ <=? 0); [discriminate|]. destruct (get_index_col _); [|discriminate].
    destruct (vector.empty _); [discriminate|]. injection Hs3 as <-. reflexivity. }
  rewrite Hmd43, Hmd32 in Hsmall.
  destruct (select_columns_spec args f2 f3 Hs3 Hsmall)
    as (_ & _ & _ & _ & Hwf & Hsize & Hsel).
  cbv zeta in Hsel.
  destruct (init_columns_spec E f3 f Hs4 Hwf Hsize) as (_ & _ & Hnum & Hcols).
  exists (index_col_name f3). cbv zeta. rewrite Hmd43, Hmd32, <- Hsel.
  split; [|split; [|exact Hicn]].
  - apply (f_equal (map (fun t : string * gdf_dtype * gdf_time_unit => fst (fst t)))) in Hcols.
    rewrite !map_map in Hcols. cbn [fst] in Hcols. rewrite map_map, <- Hmd32. exact Hcols.
  - rewrite Hnum, length_map, contents_length by exact Hwf. reflexivity.
Qed.

Lemma filter_all {A} (l : list A) : filter (fun _ => true) l = l.
Proof. induction l as [|x l IH]; cbn; [reflexivity|]. f_equal. exact IH. Qed.

Lemma selected_by_name md use icn :
  (forall c, In c (row_group0 md) -> c_str (column_name c) = column_name c) ->
  let selected := selected_columns md use icn in
  filter (fun n => existsb (String.eqb n) (map (fun c => c_str (column_name c)) selected))
         (map column_name (row_group0 md))
  = map column_name selected.
Proof.
  intros Hnul selected.
  assert (Hnames : map (fun c => c_str (column_name c)) selected = map column_name selected).
  { apply map_ext_in. intros c Hc. apply Hnul. exact (selected_incl md use icn c Hc). }
  rewrite Hnames. unfold selected, selected_columns. destruct use as [cols|].
  - rewrite filter_map_comm. f_equal. apply filter_ext_in. intros c Hc.
    set (W := (map c_str cols ++ [icn])%list).
    destruct (wanted W c) eqn:Hw.
    + apply existsb_exists. exists (column_name c). split; [|apply String.eqb_refl].
      apply in_map. apply filter_In. split; assumption.
    + apply not_true_is_false. intro Hex. apply existsb_exists in Hex.
      destruct Hex as (n & Hn & Heq). apply String.eqb_eq in Heq. subst n.
      apply in_map_iff in Hn. destruct Hn as (c' & Hname & Hc').
      apply filter_In in Hc'. destruct Hc' as [_ Hw'].
      unfold wanted in Hw, Hw'. rewrite Hname in Hw'. congruence.
  - rewrite filter_map_comm. f_equal.
    rewrite (filter_ext_in _ (fun _ => true)).
    + apply filter_all.
    + intros c Hc. apply existsb_exists. exists (column_name c).
      split; [apply in_map; exact Hc | apply String.eqb_refl].
Qed.

(** X15.  When every row group has the column names of the first and no
    name holds a NUL, the descriptor array has room for every chunk of an
    output column: none is left out, and there are as many as row groups
    times output columns.  (The number of row groups times the number of
    columns of the file fits [int].) *)
Theorem regular_files_lose_no_chunk (args : pq_read_arg) (f g : frame) :
  reaches E args 4 f ->
  build_chunks E f = Next g ->
  let md := file_md f in
  (forall rg, In rg (FileMetaData.row_groups md) ->
     map column_name (RowGroup.columns rg) = map column_name (row_group0 md)) ->
  (forall c, In c (row_group0 md) -> c_str (column_name c) = column_name c) ->
  Z.of_nat (List.length (FileMetaData.row_groups md))
  * Z.of_nat (List.length (row_group0 md)) < 2 ^ 31 ->
  map fst (chunk_map g) = matching_chunks md (columns f)
  /\ parquet_state.num_chunks (state g)
     = Z.of_nat (List.length (FileMetaData.row_groups md)) * num_columns f
  /\ parquet_state.num_chunks (state g) = parquet_state.max_num_chunks (state g).
Proof.
  intros Hr Hs md Hsame Hnul Hfit.
  assert (Hrgs : FileMetaData.row_groups md <> []).
  { intro Hnil.
    destruct (reaches_succ E args 3 (init_columns E) f eq_refl Hr) as (f3 & Hr3 & Hs4).
    destruct (reaches_succ E args 2 (select_columns E args) f3 eq_refl Hr3)
      as (f2 & _ & Hs3).
    assert (Hmd : file_md f2 = md).
    { unfold md. unfold init_columns in Hs4. injection Hs4 as <-. cbn.
      unfold select_columns in Hs3.
      destruct (_ <=? 0); [discriminate|]. destruct (get_index_col _); [|discriminate].
      destruct (vector.empty _); [discriminate|]. injection Hs3 as <-. reflexivity. }
    unfold select_columns, max_num_columns in Hs3. rewrite Hmd, Hnil in Hs3.
    discriminate. }
  assert (Hsmall : Z.of_nat (List.length (row_group0 md)) < 2 ^ 31).
  { destruct (FileMetaData.row_groups md) as [|rg rgs]; [congruence|].
    cbn [List.length] in Hfit. nia. }
  destruct (columns_set_up args f Hr Hsmall) as (icn & Hnames & Hnum & _).
  cbv zeta in Hnames, Hnum. fold md in Hnames, Hnum.
  set (selected := selected_columns md (use_cols args) icn) in *.
  set (N := List.length selected) in *.
  assert (HN : (N <= List.length (row_group0 md))%nat).
  { unfold N, selected, selected_columns. destruct (use_cols args); [|lia].
    apply filter_length_le. }
  (* every row group has as many chunks of output columns as there are
     output columns *)
  assert (Hper : Forall (fun rg => List.length (matches_of (columns f) (RowGroup.columns rg)) = N)
                        (FileMetaData.row_groups md)).
  { apply Forall_forall. intros rg Hrg.
    rewrite matches_of_length, Hnames, (Hsame rg Hrg).
    unfold selected. rewrite (selected_by_name md (use_cols args) icn Hnul).
    rewrite length_map. reflexivity. }
  pose proof (matching_slots_length (columns f) _ 0 N Hper) as Hlen.
  destruct (chunks_are_mapped_until_capacity_aux args f g Hr Hs)
    as (Hcap & Hpos & Hnc & Hmap & _).
  cbv zeta in Hcap, Hnc, Hmap. fold md in Hcap, Hnc, Hmap.
  set (R := List.length (FileMetaData.row_groups md)) in *.
  assert (Hcapv : parquet_state.max_num_chunks (state g) = Z.of_nat (R * N)).
  { rewrite Hcap, Hnum.
    unfold to_size_t, unsigned. rewrite (Z.mod_small (Z.of_nat N)) by lia.
    rewrite Z.mod_small by nia. rewrite to_int32_small by nia. lia. }
  rewrite Hcapv, Nat2Z.id in Hnc, Hmap.
  rewrite firstn_all2 in Hnc, Hmap by lia.
  split; [|split].
  - rewrite Hmap, map_map. apply matching_slots_chunks.
  - rewrite Hnc, Hlen, Hnum. lia.
  - rewrite Hnc, Hlen, Hcapv. reflexivity.
Qed.

(** *** The column buffers *)

Lemma nth_store {A} i j (x d : A) l :
  nth j (store i x l) d
  = if Nat.eqb i j then (if (j <? List.length l)%nat then x else d) else nth j l d.
Proof.
  revert i j; induction l as [|y l IH]; intros i j.
  - destruct i, j; cbn; try reflexivity. destruct (Nat.eqb i j); reflexivity.
  - destruct i, j; cbn [store nth Nat.eqb List.length]; try reflexivity.
    rewrite IH. destruct (Nat.eqb i j); [|reflexivity].
    change (S j <? S (List.length l))%nat with (j <? List.length l)%nat. reflexivity.
Qed.

Lemma store_length {A} i (x : A) l : List.length (store i x l) = List.length l.
Proof.
  revert i; induction l as [|y l IH]; intro i; [destruct i; reflexivity|].
  destruct i; cbn; [reflexivity|]. f_equal. apply IH.
Qed.

Lemma store_store {A} i (x y : A) l : store i x (store i y l) = store i x l.
Proof.
  revert i; induction l as [|z l IH]; intro i; [destruct i; reflexivity|].
  destruct i; cbn; [reflexivity|]. f_equal. apply IH.
Qed.

Lemma flat_map_ext_on {A B} (g h : A -> list B) l :
  (forall x, In x l -> g x = h x) -> flat_map g l = flat_map h l.
Proof.
  induction l as [|x l IH]; intro H; cbn; [reflexivity|].
  rewrite (H x (or_introl eq_refl)), IH; [reflexivity|].
  intros y Hy. apply H. right. exact Hy.
Qed.

Lemma alloc_columns_spec n : forall a (f g : frame),
  alloc_columns E (seq a n) f = (GDF_SUCCESS, g) ->
  trace g = trace f
            ++ flat_map (fun i => column_allocs E i (nth i (columns f) zeroed_column)) (seq a n)
  /\ List.length (columns g) = List.length (columns f)
  /\ forall j, nth_error (columns g) j
               = if ((a <=? j) && (j <? a + n))%nat
                 then option_map (with_buffers j) (nth_error (columns f) j)
                 else nth_error (columns f) j.
Proof.
  induction n as [|n IH]; intros a f g H.
  - cbn in H. injection H as <-. cbn [seq flat_map]. rewrite app_nil_r.
    split; [reflexivity|]. split; [reflexivity|]. intro j.
    destruct (Nat.leb_spec a j); destruct (Nat.ltb_spec j (a + 0)); try reflexivity; lia.
  - cbn [seq alloc_columns] in H. unfold RMM_TRY, CUDA_TRY in H.
    apply try_call_success in H; [|discriminate]. destruct H as [_ H].
    apply try_call_success in H; [|discriminate]. destruct H as [_ H].
    apply try_call_success in H; [|discriminate]. destruct H as [_ H].
    apply IH in H. destruct H as (Ht & Hl & Hn).
    cbn [columns trace log set_trace set_columns set_gpu] in Ht, Hl, Hn.
    rewrite store_store in Ht, Hl, Hn. rewrite store_length in Hl.
    set (c0 := nth a (columns f) zeroed_column) in *.
    split; [|split].
    + rewrite Ht. cbn [seq flat_map]. rewrite <- !app_assoc. cbn [app]. f_equal.
      unfold column_allocs at 2. fold c0. cbn [app]. do 3 f_equal.
      apply flat_map_ext_on. intros i Hi. apply in_seq in Hi.
      rewrite nth_store. destruct (Nat.eqb_spec a i); [lia | reflexivity].
    + exact Hl.
    + intro j. rewrite Hn, nth_error_store.
      destruct (Nat.eqb_spec a j) as [->|Hne].
      * destruct (Nat.leb_spec (S j) j); [lia|]. cbn [andb].
        rewrite Nat.leb_refl. destruct (Nat.ltb_spec j (j + S n)); [|lia]. cbn [andb].
        destruct (nth_error (columns f) j) as [c|] eqn:Hc; [|reflexivity].
        unfold c0. rewrite (nth_error_nth' _ _ zeroed_column _ Hc). reflexivity.
      * destruct (Nat.leb_spec (S a) j); destruct (Nat.leb_spec a j);
          destruct (Nat.ltb_spec j (S a + n)); destruct (Nat.ltb_spec j (a + S n));
          try reflexivity; lia.
Qed.

(** X16.  [alloc_column_data], when it succeeds, has asked for two device
    buffers per output column and zeroed the second: one of
    max(size, 1) * width bytes for the values, the width being that of a
    string descriptor for string columns and the product being the [int]
    product handed on as a [size_t], and one for the validity mask; every
    column then points to its own two buffers. *)
Theorem column_buffers_are_allocated (f g : frame) :
  alloc_column_data E f = Next g ->
  let n := Z.to_nat (num_columns f) in
  trace g = trace f
            ++ flat_map (fun i => column_allocs E i (nth i (columns f) zeroed_column)) (seq 0 n)
  /\ List.length (columns g) = List.length (columns f)
  /\ (forall j c, (j < n)%nat -> nth_error (columns f) j = Some c ->
                  nth_error (columns g) j = Some (with_buffers j c))
  /\ (forall j, (n <= j)%nat -> nth_error (columns g) j = nth_error (columns f) j).
Proof.
  intros H n. unfold alloc_column_data in H. apply GDF_TRY_Next in H.
  destruct H as [H1 H2]. fold n in H1, H2.
  destruct (alloc_columns E (seq 0 n) f) as [e g'] eqn:Ha. cbn [fst snd] in *.
  subst e. injection H2 as ->.
  destruct (alloc_columns_spec n 0 f g Ha) as (Ht & Hl & Hn).
  split; [exact Ht|]. split; [exact Hl|]. split.
  - intros j c Hj Hc. rewrite Hn, Hc. cbn [Nat.leb andb Nat.add].
    destruct (Nat.ltb_spec j n); [reflexivity | lia].
  - intros j Hj. rewrite Hn. cbn [Nat.leb andb Nat.add].
    destruct (Nat.ltb_spec j n); [lia | reflexivity].
Qed.

(** *** The descriptors and the columns *)

Lemma wire_chunks_columns md pages cols p chunks pc ofs i c d :
  nth_error chunks i = Some c ->
  nth_error (wire_chunks E md pages cols p chunks pc ofs) i = Some d ->
  let gdf := nth (snd (snd c)) cols zeroed_column in
  ColumnChunkDesc.valid_map_base d = gdf_column.valid gdf
  /\ ColumnChunkDesc.column_data_base d = gdf_column.data gdf
  /\ (has_string_dictionary E md c = false ->
      ColumnChunkDesc.str_dict_index d = ColumnChunkDesc.str_dict_index (fst c))
  /\ ColumnChunkDesc.page_info d = ColumnChunkDesc.page_info (fst c)
  /\ ColumnChunkDesc.max_num_pages d = ColumnChunkDesc.max_num_pages (fst c)
  /\ ColumnChunkDesc.compressed_data d = ColumnChunkDesc.compressed_data (fst c)
  /\ ColumnChunkDesc.data_type d = ColumnChunkDesc.data_type (fst c).
Proof.
  revert pc ofs i. induction chunks as [|a r IH]; intros pc ofs i Hc Hd.
  - destruct i; discriminate.
  - destruct i; cbn [nth_error wire_chunks] in *.
    + injection Hc as <-. injection Hd as <-. cbv zeta.
      destruct (has_string_dictionary E md a); cbn; repeat split; congruence.
    + exact (IH _ _ _ Hc Hd).
Qed.

(** X17.  The dictionary step leaves as many descriptors as it found and
    points each to the validity mask and the values of the output column
    its chunk is mapped to; it changes nothing else in a descriptor but
    the dictionary-index pointer of a chunk with a string dictionary, and
    it copies the descriptors to the device. *)
Theorem descriptors_point_to_their_columns (f g : frame) :
  build_dictionaries E f = Next g ->
  let chunks := mapped_chunks f in
  List.length (parquet_state.chunk_desc (state g)) = List.length chunks
  /\ parquet_state.chunk_desc_dev (state g) = parquet_state.chunk_desc (state g)
  /\ columns g = columns f
  /\ forall i c d,
       nth_error chunks i = Some c ->
       nth_error (parquet_state.chunk_desc (state g)) i = Some d ->
       let gdf := nth (snd (snd c)) (columns f) zeroed_column in
       ColumnChunkDesc.valid_map_base d = gdf_column.valid gdf
       /\ ColumnChunkDesc.column_data_base d = gdf_column.data gdf
       /\ (has_string_dictionary E (file_md f) c = false ->
           ColumnChunkDesc.str_dict_index d = ColumnChunkDesc.str_dict_index (fst c))
       /\ ColumnChunkDesc.page_info d = ColumnChunkDesc.page_info (fst c)
       /\ ColumnChunkDesc.max_num_pages d = ColumnChunkDesc.max_num_pages (fst c)
       /\ ColumnChunkDesc.compressed_data d = ColumnChunkDesc.compressed_data (fst c)
       /\ ColumnChunkDesc.data_type d = ColumnChunkDesc.data_type (fst c).
Proof.
  intros Hs chunks. unfold build_dictionaries in Hs.
  set (n := count_str_indices E (file_md f) (parquet_state.page_index (state f))
                              (mapped_chunks f) 0 0) in *.
  set (f1 := with_state (parquet_state.set_total_str_indices n) f) in *.
  set (f2 := if n >? 0 then snd (alloc_dictionaries E f1) else f1) in *.
  assert (H2 : mapped_chunks f2 = mapped_chunks f /\ columns f2 = columns f).
  { unfold f2. destruct (n >? 0); [|split; reflexivity].
    unfold alloc_dictionaries, RMM_TRY, try_call.
    destruct (runtime_ok E (trace f1) _); split; reflexivity. }
  destruct H2 as [Hmap Hcols]. rewrite Hmap, Hcols in Hs. fold chunks in Hs.
  set (wired := wire_chunks E (file_md f) (parquet_state.page_index (state f2)) (columns f)
                            (parquet_state.str_dict_index (state f2)) chunks 0 0) in *.
  assert (Hg : parquet_state.chunk_desc (state g) = wired
               /\ parquet_state.chunk_desc_dev (state g) = wired
               /\ columns g = columns f).
  { destruct (n >? 0); injection Hs as <-;
      (split; [reflexivity | split; [reflexivity | exact Hcols]]). }
  destruct Hg as (Hd & Hdev & Hc). rewrite Hd, Hdev.
  split; [apply wire_chunks_length|]. split; [reflexivity|]. split; [exact Hc|].
  intros i c d Hi Hdi. exact (wire_chunks_columns _ _ _ _ _ _ _ _ _ _ Hi Hdi).
Qed.

(** *** The packed type of a descriptor *)

Lemma lor_shiftl_3 t x : 0 <= t < 8 -> 0 <= x -> Z.lor t (Z.shiftl x 3) = t + 8 * x.
Proof.
  intros Ht Hx.
  assert (Hland : Z.land t (Z.shiftl x 3) = 0).
  { apply Z.bits_inj'. intros n Hn. rewrite Z.land_spec, Z.bits_0.
    destruct (Z.lt_ge_cases n 3).
    - rewrite Z.shiftl_spec_low by assumption. apply andb_false_r.
    - replace (Z.testbit t n) with false; [reflexivity|]. symmetry.
      destruct (Z.eq_dec t 0) as [->|]; [apply Z.bits_0|].
      apply Z.bits_above_log2; [lia|].
      assert (Z.log2 t < 3) by (apply Z.log2_lt_pow2; lia). lia. }
  rewrite <- Z.lxor_lor by exact Hland.
  rewrite <- Z.add_nocarry_lxor by exact Hland.
  rewrite Z.shiftl_mul_pow2 by lia. change (2 ^ 3) with 8. lia.
Qed.

Lemma chunk_type_length_nonneg schema column : 0 <= chunk_type_length schema column.
Proof.
  unfold chunk_type_length.
  destruct (gdf_dtype_eqb _ GDF_INT8); [lia|]. destruct (gdf_dtype_eqb _ GDF_INT16); [lia|].
  destruct (Type_eqb _ _); [|lia].
  unfold to_uint16, unsigned. apply Z.mod_pos_bound. lia.
Qed.

(** X18.  The [data_type] of a descriptor packs the physical type into
    its three low bits and a length above them: 1 for an INT8 column, 2
    for an INT16 column, otherwise eight times the byte length of a
    fixed-length byte array, cut to 13 bits, and 0 for the other types.
    (The physical types are numbered below 8.) *)
Theorem data_type_packs_type_and_length
    (rowgroup : RowGroup.t) (col : ColumnChunk.t) (k : nat) (f : frame) :
  let schema := schema_at E (file_md f) (ColumnChunk.schema_idx col) in
  let column := nth k (columns f) zeroed_column in
  0 <= Type_value E (SchemaElement.type schema) < 8 ->
  exists d,
    parquet_state.chunk_desc (state (add_chunk E rowgroup col k f))
    = parquet_state.chunk_desc (state f) ++ [d]
    /\ Z.land (ColumnChunkDesc.data_type d) 7 = Type_value E (SchemaElement.type schema)
    /\ Z.shiftr (ColumnChunkDesc.data_type d) 3
       = if gdf_dtype_eqb (gdf_column.dtype column) GDF_INT8 then 1
         else if gdf_dtype_eqb (gdf_column.dtype column) GDF_INT16 then 2
         else if Type_eqb (SchemaElement.type schema) FIXED_LEN_BYTE_ARRAY
              then (8 * SchemaElement.type_length schema) mod 2 ^ 13
              else 0.
Proof.
  intros schema column Ht.
  assert (Hd : exists d,
            parquet_state.chunk_desc (state (add_chunk E rowgroup col k f))
            = parquet_state.chunk_desc (state f) ++ [d]
            /\ ColumnChunkDesc.data_type d
               = to_uint16 (Z.lor (Type_value E (SchemaElement.type schema))
                                  (Z.shiftl (chunk_type_length schema column) 3))).
  { unfold add_chunk, stage_chunk_data, RMM_ALLOC_unchecked.
    destruct (_ >? 0); cbn; eexists; split; reflexivity. }
  destruct Hd as (d & Hd & Hdt). exists d. split; [exact Hd|].
  pose proof (chunk_type_length_nonneg schema column) as Hl.
  rewrite Hdt, lor_shiftl_3 by assumption.
  set (t := Type_value E (SchemaElement.type schema)) in *.
  set (x := chunk_type_length schema column) in *.
  unfold to_uint16, unsigned. change (2 ^ 16) with 65536.
  split.
  - change 7 with (Z.ones 3). rewrite Z.land_ones by lia. change (2 ^ 3) with 8.
    Z.div_mod_to_equations. lia.
  - rewrite Z.shiftr_div_pow2 by lia. change (2 ^ 3) with 8.
    assert (Hx : (t + 8 * x) mod 65536 / 8 = x mod 8192)
      by (Z.div_mod_to_equations; lia).
    rewrite Hx. unfold x, chunk_type_length.
    destruct (gdf_dtype_eqb _ GDF_INT8); [reflexivity|].
    destruct (gdf_dtype_eqb _ GDF_INT16); [reflexivity|].
    destruct (Type_eqb _ _); [|reflexivity].
    unfold to_uint16, unsigned. rewrite Z.shiftl_mul_pow2 by lia.
    change (2 ^ 3) with 8. change (2 ^ 16) with 65536. change (2 ^ 13) with 8192.
    Z.div_mod_to_equations. lia.
Qed.

(** *** Codecs the reader does not inflate *)

Lemma no_supported_chunk pages chunks pc :
  Forall (fun c => supported (chunk_codec c) = false) chunks ->
  filter (fun x => supported (fst (fst x))) (chunk_page_records E pages chunks pc) = [].
Proof.
  intro H. revert pc. induction H as [|c chunks Hc _ IH]; intro pc; [reflexivity|].
  cbn [chunk_page_records filter fst]. rewrite Hc. apply IH.
Qed.

(** X19.  Chunks compressed with a codec other than GZIP and SNAPPY are
    neither inflated nor refused: when no chunk has one of these two, the
    decompression step makes no call, allocates nothing and leaves the
    page records and the descriptors as they are. *)
Theorem other_codecs_pass_through (f : frame) :
  Forall (fun c => supported (chunk_codec c) = false) (mapped_chunks f) ->
  exists g,
    decompress_pages E f = Next g
    /\ trace g = trace f /\ gpu g = gpu f
    /\ parquet_state.page_index (state g) = parquet_state.page_index (state f)
    /\ parquet_state.page_index_dev (state g) = parquet_state.page_index_dev (state f)
    /\ parquet_state.chunk_desc (state g) = parquet_state.chunk_desc (state f)
    /\ parquet_state.decompressed_pages (state g)
       = parquet_state.decompressed_pages (state f)
    /\ inflate_in g = inflate_in f.
Proof.
  intro H. unfold decompress_pages.
  destruct (_ >? 0); [|exists f; repeat split].
  destruct (count_compressed_pages_spec E f) as (_ & Hcount & _). cbv zeta in Hcount.
  unfold compressed_chunks in Hcount. rewrite no_supported_chunk in Hcount by exact H.
  rewrite Hcount. change (to_size_t (page_total []) >? 0) with false. cbv iota.
  exists (count_compressed_pages E f). split; [reflexivity|].
  repeat split.
Qed.

(** *** Errors *)

Lemma try_call_result err c (f : frame) k e g :
  try_call E err c f k = (e, g) ->
  (runtime_ok E (trace f) c = false /\ e = err /\ g = log c f)
  \/ (runtime_ok E (trace f) c = true /\ k (log c f) = (e, g)).
Proof.
  unfold try_call. destruct (runtime_ok E (trace f) c); intro H; [right; auto|].
  injection H as <- <-. left. auto.
Qed.

Ltac failing :=
  match goal with
  | H : runtime_ok E (trace ?f) ?c = false |- failed_call E _ _ \/ _ =>
      left; exists (trace f), c; repeat split; assumption
  end.

Ltac walk H :=
  repeat (apply try_call_result in H;
          destruct H as [(? & -> & ->) | [_ H]];
          [cbn [trace log set_trace]; first [failing | left; failing] |]).

Lemma alloc_chunks_result a b (f : frame) e g :
  alloc_chunks E a b f = (e, g) ->
  failed_call E e (trace g) \/ e = no_return_value E (trace g).
Proof.
  unfold alloc_chunks, RMM_TRY, CUDA_TRY. intro H. walk H.
  unfold falls_off_the_end in H. injection H as <- <-. right. reflexivity.
Qed.

Lemma alloc_pages_result (f : frame) e g :
  alloc_pages E f = (e, g) ->
  failed_call E e (trace g) \/ e = no_return_value E (trace g).
Proof.
  unfold alloc_pages, RMM_TRY, CUDA_TRY. intro H. walk H.
  unfold falls_off_the_end in H. injection H as <- <-. right. reflexivity.
Qed.

Lemma dispatch_chunk_op_result op (f : frame) e g :
  dispatch_chunk_op E op f = (e, g) ->
  failed_call E e (trace g) \/ e = no_return_value E (trace g).
Proof.
  unfold dispatch_chunk_op, CUDA_TRY. intro H. walk H.
  unfold falls_off_the_end in H. injection H as <- <-. right. reflexivity.
Qed.

Lemma alloc_columns_result todo : forall (f : frame) e g,
  alloc_columns E todo f = (e, g) ->
  e = GDF_SUCCESS \/ failed_call E e (trace g).
Proof.
  induction todo as [|i rest IH]; intros f e g H.
  - cbn in H. injection H as <- _. left. reflexivity.
  - cbn [alloc_columns] in H. unfold RMM_TRY, CUDA_TRY in H.
    apply try_call_result in H. destruct H as [(Hf & -> & ->) | [_ H]].
    { right. eexists _, _. split; [reflexivity|]. split; [exact Hf | reflexivity]. }
    apply try_call_result in H. destruct H as [(Hf & -> & ->) | [_ H]].
    { right. eexists _, _. split; [reflexivity|]. split; [exact Hf | reflexivity]. }
    apply try_call_result in H. destruct H as [(Hf & -> & ->) | [_ H]].
    { right. eexists _, _. split; [reflexivity|]. split; [exact Hf | reflexivity]. }
    exact (IH _ _ _ H).
Qed.

Lemma GDF_TRY_stop (r : gdf_error * frame) (k : frame -> step) o g :
  GDF_TRY r k = Stop o g ->
  (fst r <> GDF_SUCCESS /\ o = Returned (fst r) /\ g = snd r)
  \/ (fst r = GDF_SUCCESS /\ k (snd r) = Stop o g).
Proof.
  unfold GDF_TRY. destruct (fst r); intro H;
    try (right; split; [reflexivity | exact H]);
    left; injection H as <- <-; repeat split; discriminate.
Qed.

Lemma run_stop (stages : list (frame -> step)) : forall f o g,
  run stages f = Stop o g -> exists s f', In s stages /\ s f' = Stop o g.
Proof.
  induction stages as [|s stages IH]; intros f o g H; [discriminate|].
  cbn [run] in H. destruct (s f) as [f'|o' g'] eqn:Hs.
  - destruct (IH _ _ _ H) as (s' & f'' & Hin & Hs'). exists s', f''. split; [right|]; assumption.
  - injection H as <- <-. exists s, f. split; [left; reflexivity | exact Hs].
Qed.

(** X20.  When a read returns the allocator's or the runtime's error,
    either the last call of its trace is one that failed (an allocation
    for the first, a runtime call for the second), or the error is the
    value that a function which ends without a [return] statement
    ([alloc_chunks], [alloc_pages], [dispatch_chunk_op]) has left behind
    at that trace; the caller's output arguments are not written.  (What
    the destructors free on the way out is not part of the trace.) *)
Theorem errors_come_from_the_last_call (args : pq_read_arg) (e : gdf_error) (f : frame) :
  read_parquet E args = (Returned e, f) ->
  e = GDF_MEMORYMANAGER_ERROR \/ e = GDF_CUDA_ERROR ->
  (failed_call E e (trace f) \/ e = no_return_value E (trace f))
  /\ out f = None.
Proof.
  intros Hread He.
  assert (Hout : out f = None).
  { destruct (out f) as [o|] eqn:Ho; [|reflexivity]. exfalso.
    assert (Hf : snd (read_parquet E args) = f) by (rewrite Hread; reflexivity).
    destruct (read_with_output E args f o Hf Ho) as (g & Hg & Ht).
    unfold read_parquet in Hread. rewrite (reaches_resume E args 11 g Hg) in Hread.
    cbn [skipn pipeline run] in Hread. rewrite Ht in Hread.
    destruct He as [-> | ->]; discriminate Hread. }
  split; [|exact Hout].
  unfold read_parquet in Hread.
  destruct (run (pipeline E args) (entry E)) as [g|o g] eqn:Hrun.
  { destruct He as [-> | ->]; discriminate Hread. }
  injection Hread as -> ->.
  destruct (run_stop _ _ _ _ Hrun) as (s & f' & Hin & Hs).
  cbn [pipeline In] in Hin.
  repeat (destruct Hin as [<-|Hin]); [..|contradiction].
  - (* check_file *)
    exfalso. unfold check_file in Hs. destruct (LoadFile E _).
    + repeat match type of Hs with (if ?b then _ else _) = _ => destruct b end;
        try discriminate; destruct He as [-> | ->]; discriminate Hs.
    + destruct He as [-> | ->]; discriminate Hs.
  - exfalso. unfold read_metadata, print_metadata in Hs.
    destruct (FileMetaData.row_groups _); discriminate Hs.
  - exfalso. unfold select_columns in Hs.
    destruct (_ <=? 0); [destruct He as [-> | ->]; discriminate Hs|].
    destruct (get_index_col _); [|discriminate].
    destruct (vector.empty _); [|discriminate].
    destruct He as [-> | ->]; discriminate Hs.
  - discriminate Hs.
  - unfold build_chunks in Hs. apply GDF_TRY_stop in Hs.
    destruct Hs as [(_ & Ho & ->) | [_ Hs]].
    + injection Ho as ->. eapply alloc_chunks_result. apply surjective_pairing.
    + destruct (_ <? 0); discriminate.
  - unfold count_pages in Hs. apply GDF_TRY_stop in Hs.
    destruct Hs as [(_ & Ho & ->) | [_ Hs]]; [|discriminate].
    injection Ho as ->. eapply dispatch_chunk_op_result. apply surjective_pairing.
  - unfold decode_page_headers in Hs. destruct (_ >? 0); [|discriminate].
    apply GDF_TRY_stop in Hs. destruct Hs as [(_ & Ho & ->) | [_ Hs]].
    + injection Ho as ->. eapply alloc_pages_result. apply surjective_pairing.
    + apply GDF_TRY_stop in Hs. destruct Hs as [(_ & Ho & ->) | [_ Hs]]; [|discriminate].
      injection Ho as ->. eapply dispatch_chunk_op_result. apply surjective_pairing.
  - exfalso. unfold decompress_pages in Hs. repeat destruct (_ >? 0); discriminate.
  - unfold alloc_column_data in Hs. apply GDF_TRY_stop in Hs.
    destruct Hs as [(Hne & Ho & ->) | [_ Hs]]; [|discriminate].
    injection Ho as ->. left.
    destruct (alloc_columns_result (seq 0 (Z.to_nat (num_columns f'))) f' _ _
                (surjective_pairing _)) as [H|H];
      [contradiction | exact H].
  - exfalso. unfold build_dictionaries in Hs. destruct (_ >? 0); discriminate.
  - exfalso. unfold decode_page_data in Hs. destruct (_ >? 0); discriminate.
  - exfalso. unfold transfer_ownership in Hs.
    destruct He as [-> | ->]; discriminate Hs.
Qed.

(** *** The layout of the decompressed pages *)

Lemma laid_out_snoc dp ins r :
  laid_out dp ins ->
  dstDevice r = ptr_add dp (to_size_t (sumZ (map dstSize ins))) ->
  laid_out dp (ins ++ [r]).
Proof.
  intros H Hr i r' Hi.
  destruct (Nat.lt_ge_cases i (List.length ins)) as [Hlt|Hge].
  - rewrite nth_error_app1 in Hi by exact Hlt.
    rewrite firstn_app. replace (i - List.length ins)%nat with 0%nat by lia.
    cbn [firstn]. rewrite app_nil_r. apply H. exact Hi.
  - rewrite nth_error_app2 in Hi by exact Hge.
    destruct (i - List.length ins)%nat as [|k] eqn:Hk; cbn in Hi; [|destruct k; discriminate].
    injection Hi as <-. assert (Hi : i = List.length ins) by lia. subst i.
    rewrite firstn_app, Nat.sub_diag, firstn_all. cbn [firstn]. rewrite app_nil_r.
    exact Hr.
Qed.

Lemma page_at_store_sizes pages i p j :
  page_sizes (page_at E (store_at i (PageInfo.set_compressed_page_data p (page_at E pages i))
                                  pages) j)
  = page_sizes (page_at E pages j).
Proof.
  unfold store_at, page_at.
  destruct (Z.ltb_spec i 0); [reflexivity|].
  destruct (Z.ltb_spec j 0); [reflexivity|].
  rewrite nth_store.
  destruct (Nat.eqb_spec (Z.to_nat i) (Z.to_nat j)) as [Heq|]; [|reflexivity].
  assert (i = j) by lia. subst j.
  destruct (Nat.ltb_spec (Z.to_nat i) (List.length pages)) as [|Hout]; [reflexivity|].
  rewrite nth_overflow by exact Hout. reflexivity.
Qed.

Lemma sumZ_snoc l x : sumZ (l ++ [x]) = sumZ l + x.
Proof. rewrite sumZ_app. unfold sumZ. cbn. lia. Qed.

Section Layout.
Variable dp : ptr.
Variable P0 : list PageInfo.t.
Variable chunks0 : list (ColumnChunkDesc.t * (ColumnChunk.t * nat)).

#[local] Abbreviation filled := (filling E dp P0 chunks0).

Lemma fill_page_filled s idxs i :
  filled s idxs -> filled (fill_page E s i) (idxs ++ [i]).
Proof.
  destruct s as [f ofs]. unfold filling. cbn [fst snd].
  intros (Hsz & Hlay & Hofs & Hdp & Hpages & Hmc & Hlen).
  unfold fill_page, mapped_chunks in *.
  cbn [fst snd inflate_in inflate_out state set_inflate_in set_inflate_out with_state
       set_state parquet_state.decompressed_pages parquet_state.page_index
       parquet_state.set_page_index parquet_state.chunk_desc chunk_map].
  repeat split.
  - rewrite !map_app, Hsz. cbn [map srcSize dstSize]. f_equal.
    specialize (Hpages i). unfold page_sizes in Hpages |- *. rewrite <- Hpages. reflexivity.
  - apply laid_out_snoc; [exact Hlay|]. cbn [dstDevice]. rewrite Hdp, Hofs. reflexivity.
  - rewrite map_app. cbn [map dstSize]. rewrite sumZ_snoc, Hofs.
    apply to_size_t_add_l.
  - exact Hdp.
  - intro j. rewrite page_at_store_sizes. apply Hpages.
  - exact Hmc.
  - rewrite !length_app, Hlen. reflexivity.
Qed.

Lemma fill_pages_filled ks : forall s idxs page_cnt,
  filled s idxs ->
  filled (fold_left (fun s k => fill_page E s (page_cnt + Z.of_nat k)) ks s)
         (idxs ++ map (fun k => page_cnt + Z.of_nat k) ks).
Proof.
  induction ks as [|k ks IH]; intros s idxs page_cnt H; cbn [fold_left map].
  - rewrite app_nil_r. exact H.
  - replace (idxs ++ (page_cnt + Z.of_nat k) :: map (fun k => page_cnt + Z.of_nat k) ks)
      with ((idxs ++ [page_cnt + Z.of_nat k]) ++ map (fun k => page_cnt + Z.of_nat k) ks)
      by (rewrite <- app_assoc; reflexivity).
    apply IH. apply fill_page_filled. exact H.
Qed.

Lemma fill_codec_filled codec chunks : forall page_cnt s idxs,
  filled s idxs ->
  filled (fill_codec E codec chunks page_cnt s)
         (idxs ++ codec_page_indices codec chunks page_cnt).
Proof.
  induction chunks as [|c r IH]; intros page_cnt s idxs H;
    cbn [fill_codec codec_page_indices].
  - rewrite app_nil_r. exact H.
  - rewrite app_assoc. apply IH.
    destruct (Compression_eqb (chunk_codec c) codec).
    + apply fill_pages_filled. exact H.
    + rewrite app_nil_r. exact H.
Qed.

Lemma launch_inflate_filled codec start f ofs idxs :
  (start <= List.length (inflate_out f))%nat ->
  filled (f, ofs) idxs -> filled (launch_inflate E codec start f, ofs) idxs.
Proof.
  unfold filling. cbn [fst snd]. intros Hstart (Hsz & Hlay & Hofs & Hdp & Hpages & Hmc & Hlen).
  assert (Hout : forall (x : gpu_mem * list gpu_inflate_status_s),
            List.length (firstn start (inflate_out f)
                         ++ overlay (snd x) (skipn start (inflate_out f)))
            = List.length (inflate_in f)).
  { intro x. rewrite length_app, overlay_length, length_firstn, length_skipn. lia. }
  unfold launch_inflate. destruct codec; try (repeat split; assumption);
    cbn [inflate_in inflate_out state set_gpu set_inflate_out log set_trace];
    unfold mapped_chunks in *; cbn [state chunk_map set_gpu set_inflate_out];
    repeat split; try assumption; apply Hout.
Qed.

Lemma inflate_codec_filled s cc idxs :
  filled s idxs ->
  filled (inflate_codec E s cc)
         (idxs ++ (if snd cc >? 0 then codec_page_indices (fst cc) chunks0 0 else [])).
Proof.
  intro H. unfold inflate_codec. destruct cc as [codec cnt]. cbn [fst snd].
  destruct (cnt >? 0); [|rewrite app_nil_r; exact H].
  assert (Hmc : mapped_chunks (fst s) = chunks0) by apply H.
  assert (Hlen0 : List.length (inflate_out (fst s)) = List.length (inflate_in (fst s)))
    by apply H.
  rewrite Hmc.
  pose proof (fill_codec_filled codec chunks0 0 s idxs H) as Hf.
  assert (Hgrow : (List.length (inflate_in (fst s))
                   <= List.length (inflate_in (fst (fill_codec E codec chunks0 0 s))))%nat).
  { destruct H as (Hsz & _). destruct Hf as (Hsz' & _).
    apply (f_equal (@List.length _)) in Hsz, Hsz'.
    rewrite !length_map in Hsz, Hsz'. rewrite Hsz, Hsz', length_app. lia. }
  destruct (fill_codec E codec chunks0 0 s) as [f ofs]. cbn [fst] in Hgrow.
  apply launch_inflate_filled.
  - assert (Hl : List.length (inflate_out f) = List.length (inflate_in f)) by apply Hf.
    cbn [inflate_out log set_trace]. lia.
  - destruct Hf as (A & B & C & D & F & G & I). unfold filling. cbn [fst snd] in *.
    unfold mapped_chunks in *. repeat split; assumption.
Qed.

Lemma inflate_codecs_filled ccs : forall s idxs,
  filled s idxs ->
  filled (fold_left (inflate_codec E) ccs s)
         (idxs ++ flat_map (fun cc => if snd cc >? 0
                                      then codec_page_indices (fst cc) chunks0 0
                                      else []) ccs).
Proof.
  induction ccs as [|cc ccs IH]; intros s idxs H; cbn [fold_left flat_map].
  - rewrite app_nil_r. exact H.
  - rewrite app_assoc. apply IH. apply inflate_codec_filled. exact H.
Qed.

Lemma inflate_codecs_result ccs s idxs :
  filled s idxs ->
  let g := fst (fold_left (inflate_codec E) ccs s) in
  map (fun r => (srcSize r, dstSize r)) (inflate_in g)
  = map (fun i => page_sizes (page_at E P0 i))
        (idxs ++ flat_map (fun cc => if snd cc >? 0
                                     then codec_page_indices (fst cc) chunks0 0
                                     else []) ccs)
  /\ laid_out dp (inflate_in g)
  /\ parquet_state.decompressed_pages (state g) = dp
  /\ List.length (inflate_out g) = List.length (inflate_in g).
Proof.
  intros H g. destruct (inflate_codecs_filled ccs s idxs H) as (A & B & _ & D & _ & _ & I).
  repeat split; assumption.
Qed.

End Layout.


(** *** The host's page records after the header decode *)

Lemma dispatch_page_headers_host_pages (f : frame) :
  parquet_state.page_index (state (snd (dispatch_chunk_op E (launch_page_headers E) f)))
  = parquet_state.page_index (state f).
Proof.
  set (P := fun f : frame => parquet_state.page_index (state f)).
  change (P (snd (dispatch_chunk_op E (launch_page_headers E) f)) = P f).
  unfold dispatch_chunk_op, CUDA_TRY.
  apply (try_call_keeps E P); [intro; reflexivity|].
  intro g. rewrite (try_call_keeps E P); [reflexivity | intro; reflexivity |].
  intro h. rewrite (try_call_keeps E P); [reflexivity | intro; reflexivity | intro; reflexivity].
Qed.

Lemma decode_page_headers_host_pages (f : frame) :
  let g := after (decode_page_headers E f) in
  parquet_state.page_index (state g) = parquet_state.page_index (state f)
  \/ parquet_state.page_index (state g)
     = fresh_pages E buf_page_index (parquet_state.total_pages (state f)).
Proof.
  cbv zeta. unfold decode_page_headers. destruct (_ >? 0); [|left; reflexivity].
  unfold alloc_pages, RMM_TRY, CUDA_TRY, try_call, falls_off_the_end.
  destruct (runtime_ok E (trace f) _); [|left; reflexivity].
  match goal with |- context [if runtime_ok E ?t ?c then _ else _] =>
    destruct (runtime_ok E t c) end; [|left; reflexivity].
  destruct (no_return_value E _); try (right; reflexivity).
  right. unfold GDF_TRY at 1. cbn [fst snd].
  rewrite (GDF_TRY_keeps (fun f => parquet_state.page_index (state f)) _ Next _
             (dispatch_page_headers_host_pages _) (fun g => eq_refl)).
  reflexivity.
Qed.

(** *** The value counts of the host's page records *)

(** Decompression writes the new data pointer into a host page record
    and nothing else; the column buffers leave the records alone. *)

Lemma page_at_store_values pages i p j :
  PageInfo.num_values
    (page_at E (store_at i (PageInfo.set_compressed_page_data p (page_at E pages i)) pages) j)
  = PageInfo.num_values (page_at E pages j).
Proof.
  unfold store_at, page_at.
  destruct (Z.ltb_spec i 0); [reflexivity|].
  destruct (Z.ltb_spec j 0); [reflexivity|].
  rewrite nth_store.
  destruct (Nat.eqb_spec (Z.to_nat i) (Z.to_nat j)) as [Heq|]; [|reflexivity].
  assert (i = j) by lia. subst j.
  destruct (Nat.ltb_spec (Z.to_nat i) (List.length pages)) as [|Hout]; [reflexivity|].
  rewrite nth_overflow by exact Hout. reflexivity.
Qed.

Lemma fill_page_values s i j :
  host_values E (fst (fill_page E s i)) j = host_values E (fst s) j.
Proof.
  destruct s as [f ofs]. unfold host_values, fill_page.
  cbn [fst state with_state set_state set_inflate_in set_inflate_out
       parquet_state.page_index parquet_state.set_page_index].
  apply page_at_store_values.
Qed.

Lemma fill_codec_values codec chunks j : forall page_cnt s,
  host_values E (fst (fill_codec E codec chunks page_cnt s)) j = host_values E (fst s) j.
Proof.
  induction chunks as [|c r IH]; intros page_cnt s; [reflexivity|].
  cbn [fill_codec]. rewrite IH. destruct (Compression_eqb _ _); [|reflexivity].
  apply (fold_left_keeps (fun s => host_values E (fst s) j)). intros a x. apply fill_page_values.
Qed.

Lemma launch_inflate_values codec start f j :
  host_values E (launch_inflate E codec start f) j = host_values E f j.
Proof. unfold launch_inflate. destruct codec; reflexivity. Qed.

Lemma inflate_codec_values s cc j :
  host_values E (fst (inflate_codec E s cc)) j = host_values E (fst s) j.
Proof.
  unfold inflate_codec. destruct cc as [codec cnt]. destruct (cnt >? 0); [|reflexivity].
  pose proof (fill_codec_values codec (mapped_chunks (fst s)) j 0 s) as H.
  destruct (fill_codec E codec (mapped_chunks (fst s)) 0 s) as [f ofs].
  cbn [fst] in *. rewrite <- H.
  unfold host_values. unfold launch_inflate. destruct codec; reflexivity.
Qed.

Lemma decompress_pages_values f g j :
  decompress_pages E f = Next g -> host_values E g j = host_values E f j.
Proof.
  unfold decompress_pages. destruct (_ >? 0); [|intro H; injection H as <-; reflexivity].
  assert (Hc : host_values E (count_compressed_pages E f) j = host_values E f j).
  { unfold count_compressed_pages.
    rewrite (fold_left_keeps (fun f => host_values E f j)); [reflexivity|].
    intros a x. reflexivity. }
  destruct (_ >? 0); intro H; injection H as <-; [|exact Hc].
  rewrite <- Hc. unfold inflate_pages, RMM_ALLOC_unchecked.
  match goal with
  | |- context [fold_left (inflate_codec E) ?l ?s0] =>
      pose proof (fold_left_keeps (fun p => host_values E (fst p) j) (inflate_codec E) l s0
                    (fun a x => inflate_codec_values a x j)) as H;
      destruct (fold_left (inflate_codec E) l s0) as [h ofs]
  end.
  cbn [fst] in H. etransitivity; [|exact H]. reflexivity.
Qed.

Lemma alloc_columns_state todo : forall f : frame,
  state (snd (alloc_columns E todo f)) = state f.
Proof.
  induction todo as [|i rest IH]; intro f; [reflexivity|].
  cbn [alloc_columns]. unfold RMM_TRY, CUDA_TRY, try_call.
  repeat match goal with
         | |- context [if runtime_ok E ?t ?c then _ else _] => destruct (runtime_ok E t c)
         end; try reflexivity.
  rewrite IH. reflexivity.
Qed.

Lemma alloc_column_data_values f g j :
  alloc_column_data E f = Next g -> host_values E g j = host_values E f j.
Proof.
  unfold alloc_column_data. intro H. apply GDF_TRY_Next in H.
  destruct H as [_ H]. injection H as <-. unfold host_values.
  rewrite alloc_columns_state. reflexivity.
Qed.

Lemma dictionary_sizes_ext md p1 p2 chunks : forall pc,
  (forall i, PageInfo.num_values (page_at E p1 i) = PageInfo.num_values (page_at E p2 i)) ->
  dictionary_sizes E md p1 chunks pc = dictionary_sizes E md p2 chunks pc.
Proof.
  induction chunks as [|c r IH]; intros pc H; [reflexivity|].
  cbn [dictionary_sizes]. rewrite (IH _ H), H. reflexivity.
Qed.

Lemma host_values_from_header_decode args f7 f :
  reaches E args 7 f7 -> reaches E args 9 f ->
  forall i, host_values E f i = host_values E f7 i.
Proof.
  intros H7 H9 i.
  destruct (reaches_succ E args 8 (alloc_column_data E) f eq_refl H9) as (f8 & H8 & Hs9).
  destruct (reaches_succ E args 7 (decompress_pages E) f8 eq_refl H8) as (g & Hg & Hs8).
  assert (g = f7) by (unfold reaches in *; congruence). subst g.
  rewrite (alloc_column_data_values _ _ i Hs9). apply (decompress_pages_values _ _ i Hs8).
Qed.


End MoreFacts.

(** ** The properties on the bench *)

Import Bench.
Import MoreBench.

Lemma bench_is_benign (s : setup) : benign (env s).
Proof. split; reflexivity. Qed.

(** X1, Scenario A read as a whole: the columns are handed over. *)
Lemma scenario_A_goes_through :
  exists f o,
    read_parquet (env scenario_A) read_all = (Returned GDF_SUCCESS, f) /\ out f = Some o.
Proof.
  apply (benign_read_goes_through (env scenario_A) read_all
           (at_stage scenario_A read_all 4) (bench_is_benign scenario_A)).
  - vm_compute. reflexivity.
  - vm_compute. discriminate.
Defined.

(** C5, on a file whose header magic is wrong. *)
Lemma bad_header_is_rejected :
  LoadFile (env bad_header) (source read_all) = Some bad_header_file
  /\ header_magic bad_header_file <> PARQUET_MAGIC (env bad_header)
  /\ fst (read_parquet (env bad_header) read_all) = Returned GDF_FILE_ERROR
  /\ trace (snd (read_parquet (env bad_header) read_all)) = [].
Proof.
  assert (H1 : LoadFile (env bad_header) (source read_all) = Some bad_header_file)
    by reflexivity.
  assert (H2 : header_magic bad_header_file <> PARQUET_MAGIC (env bad_header))
    by (vm_compute; discriminate).
  split; [exact H1|]. split; [exact H2|].
  exact (bad_envelope_is_a_file_error (env bad_header) read_all bad_header_file
           H1 (or_introl H2)).
Defined.

(** X22, Scenario C: of the columns "a", "b", "idx" with the index hint
    "idx", the allow-list ["a"] selects "a" and "idx", in this order. *)
Lemma scenario_C_selects_a_and_idx :
  let f := at_return scenario_C (read_only ["a"%string]) in
  let o := output_of f in
  read_parquet (env scenario_C) (read_only ["a"%string]) = (Returned GDF_SUCCESS, f)
  /\ out f = Some o
  /\ map (fun c => (gdf_column.col_name c, gdf_column.dtype c, gdf_column.dtype_info c))
         (data_out o)
     = [("a"%string, GDF_INT32, TIME_UNIT_NONE); ("idx"%string, GDF_INT64, TIME_UNIT_NONE)]
  /\ num_cols_out o = 2.
Proof.
  intros f o.
  assert (H1 : read_parquet (env scenario_C) (read_only ["a"%string])
               = (Returned GDF_SUCCESS, f)) by (vm_compute; reflexivity).
  assert (H2 : out f = Some o) by (vm_compute; reflexivity).
  assert (H3 : Z.of_nat (List.length (row_group0 (file_md f))) < 2 ^ 31)
    by (vm_compute; reflexivity).
  destruct (selected_columns_materialized (env scenario_C) (read_only ["a"%string])
              ["a"%string] f o eq_refl H1 H2 H3) as (_ & Hm & Hn).
  split; [exact H1|]. split; [exact H2|]. split.
  - rewrite Hm. vm_compute. reflexivity.
  - rewrite Hn. vm_compute. reflexivity.
Defined.

(** C10, Scenario E and a read whose allow-list names no column. *)
Lemma scenario_E_and_no_match :
  (reaches (env scenario_E) read_all 2 (at_stage scenario_E read_all 2)
   /\ read_parquet (env scenario_E) read_all
      = (Returned GDF_DATASET_EMPTY, at_stage scenario_E read_all 2))
  /\ (reaches (env scenario_A) (read_only ["zzz"%string]) 2
              (at_stage scenario_A (read_only ["zzz"%string]) 2)
      /\ exists f',
           read_parquet (env scenario_A) (read_only ["zzz"%string])
           = (Returned GDF_SUCCESS, f')
           /\ out f' = None
           /\ trace f' = trace (at_stage scenario_A (read_only ["zzz"%string]) 2)).
Proof.
  assert (H1 : reaches (env scenario_E) read_all 2 (at_stage scenario_E read_all 2))
    by (vm_compute; reflexivity).
  assert (H2 : reaches (env scenario_A) (read_only ["zzz"%string]) 2
                 (at_stage scenario_A (read_only ["zzz"%string]) 2))
    by (vm_compute; reflexivity).
  split; (split; [assumption|]).
  - apply (proj1 (empty_dataset_and_empty_selection (env scenario_E) read_all _ H1)).
    eexists _, _. split; vm_compute; reflexivity.
  - apply (proj2 (empty_dataset_and_empty_selection
                    (env scenario_A) (read_only ["zzz"%string]) _ H2)
                 ["zzz"%string] EmptyString).
    + vm_compute. reflexivity.
    + vm_compute. reflexivity.
    + reflexivity.
    + vm_compute. repeat constructor.
Defined.

(** C1: without a hint [get_index_col] returns the empty string, and it
    is added to the wanted names all the same; on the bench the columns
    are "", "a" and "b", there is no hint and the allow-list is ["a"], and
    the read hands over "" and "a" and reports column 0 as the index
    column. *)
Theorem unnamed_column_is_selected :
  let args := read_only ["a"%string] in
  let f := at_return unnamed_column args in
  let o := output_of f in
  FileMetaData.key_value_metadata (parsed unnamed_column) = []
  /\ map column_name (row_group0 (parsed unnamed_column)) = [""; "a"; "b"]%string
  /\ get_index_col (parsed unnamed_column) = Some ""%string
  /\ read_parquet (env unnamed_column) args = (Returned GDF_SUCCESS, f)
  /\ out f = Some o
  /\ map gdf_column.col_name (data_out o) = [""; "a"]%string
  /\ num_cols_out o = 2
  /\ index_col_out o = Some 0.
Proof. vm_compute. repeat split. Qed.

(** C2: whatever the parser answers, the metadata step returns no error:
    it goes on to the next one whenever the metadata it is left with has
    a row group (with none, the read on line 182 is undefined); on the
    bench the parser rejects the footer, and the read returns success
    with two columns. *)
Theorem rejected_footer_read_succeeds :
  (forall gpu_mem (E : Environment gpu_mem) (f : @frame gpu_mem),
     exists f',
       read_metadata E f
       = match FileMetaData.row_groups (file_md f') with
         | [] => Stop Undefined f'
         | _ :: _ => Next f'
         end)
  /\ fst (cp_read (env rejected_footer) (footer_bytes good_file)) = false
  /\ fst (read_parquet (env rejected_footer) read_all) = Returned GDF_SUCCESS
  /\ num_cols_out (output_of (at_return rejected_footer read_all)) = 2.
Proof.
  split; [intros; eexists; reflexivity|].
  vm_compute. repeat split.
Qed.

(** C3: whatever the decompression kernels report, the decompression step
    goes on to the next one; on the bench the kernel reports status 1 for
    the page, and the read returns success. *)
Theorem failed_inflate_read_succeeds :
  (forall gpu_mem (E : Environment gpu_mem) (f : @frame gpu_mem),
     exists f', decompress_pages E f = Next f')
  /\ map status (inflate_out (at_return failed_inflate read_all)) = [1]
  /\ fst (read_parquet (env failed_inflate) read_all) = Returned GDF_SUCCESS
  /\ num_cols_out (output_of (at_return failed_inflate read_all)) = 1.
Proof.
  split.
  - intros gpu_mem E f. unfold decompress_pages.
    repeat destruct (_ >? 0); eexists; reflexivity.
  - vm_compute. repeat split.
Qed.

(** C4: a column chunk met when the descriptor array is full leaves the
    reader as it was; on the bench three chunks match the selected column,
    the descriptor array has room for two, and the read returns success
    with two descriptors. *)
Theorem surplus_chunk_is_dropped :
  (forall gpu_mem (E : Environment gpu_mem) rowgroup (f : @frame gpu_mem) col,
     if parquet_state.num_chunks (state f) <? parquet_state.max_num_chunks (state f)
     then True else add_column_chunk E rowgroup f col = f)
  /\ let f := at_return surplus_chunk read_all in
     List.length (matching_chunks (file_md f) (columns f)) = 3%nat
     /\ parquet_state.max_num_chunks (state f) = 2
     /\ parquet_state.num_chunks (state f) = 2
     /\ fst (read_parquet (env surplus_chunk) read_all) = Returned GDF_SUCCESS.
Proof.
  split.
  - intros gpu_mem E rowgroup f col. unfold add_column_chunk.
    destruct (_ <? _); [exact I|].
    destruct (find_column _ _ _); reflexivity.
  - vm_compute. repeat split.
Qed.

(** C6 as the specification words it fails where no chunk has a page:
    the page-record array is not allocated at all. *)
Lemma no_pages_no_page_index :
  ~ page_index_allocated_once (env no_pages) read_all.
Proof.
  intro H.
  specialize (H (at_stage no_pages read_all 6)).
  assert (Hr : reaches (env no_pages) read_all 6 (at_stage no_pages read_all 6))
    by (vm_compute; reflexivity).
  specialize (H Hr). vm_compute in H. discriminate H.
Defined.

(** C6, Scenario A: two chunks of one page each. *)
Lemma scenario_A_page_index :
  let f := at_stage scenario_A read_all 6 in
  reaches (env scenario_A) read_all 6 f
  /\ parquet_state.total_pages (state f) = 2
  /\ page_index_allocs (trace (snd (read_parquet (env scenario_A) read_all))) = [2].
Proof.
  intro f.
  assert (Hr : reaches (env scenario_A) read_all 6 f) by (vm_compute; reflexivity).
  destruct (page_index_sized_and_partitioned (env scenario_A) read_all f Hr)
    as (HT & _ & Ha & _).
  split; [exact Hr|]. split.
  - rewrite HT. vm_compute. reflexivity.
  - rewrite Ha. vm_compute. reflexivity.
Defined.

(** C7 as the specification words it fails on a footer whose row count
    is not that of its row groups: no value is null, the column has 10
    rows, its page 4 valid values. *)
Lemma short_row_group_null_count :
  ~ null_count_is_rows_less_valid (env short_row_group) read_all.
Proof.
  intro H.
  pose (f := at_return short_row_group read_all).
  assert (H1 : read_parquet (env short_row_group) read_all = (Returned GDF_SUCCESS, f))
    by (vm_compute; reflexivity).
  assert (H2 : out f = Some (output_of f)) by (vm_compute; reflexivity).
  specialize (H f (output_of f) 0%nat (nth 0 (data_out (output_of f)) zeroed_column)
                H1 H2).
  assert (H3 : nth_error (data_out (output_of f)) 0
               = Some (nth 0 (data_out (output_of f)) zeroed_column))
    by (vm_compute; reflexivity).
  specialize (H H3). vm_compute in H. discriminate H.
Defined.

(** C7, Scenario A: three values of column "a" are null. *)
Lemma scenario_A_null_counts :
  let f := at_stage scenario_A read_all 10 in
  let f' := at_stage scenario_A read_all 11 in
  reaches (env scenario_A) read_all 10 f
  /\ decode_page_data (env scenario_A) f = Next f'
  /\ map gdf_column.null_count (columns f') = [3; 0].
Proof.
  intros f f'.
  assert (Hr : reaches (env scenario_A) read_all 10 f) by (vm_compute; reflexivity).
  assert (Hs : decode_page_data (env scenario_A) f = Next f') by (vm_compute; reflexivity).
  assert (H0 : nth_error (columns f') 0 = Some (nth 0 (columns f') zeroed_column))
    by (vm_compute; reflexivity).
  assert (H1 : nth_error (columns f') 1 = Some (nth 1 (columns f') zeroed_column))
    by (vm_compute; reflexivity).
  pose proof (proj1 (null_counts_accumulate (env scenario_A) read_all f f' Hr Hs _ _ H0)) as N0.
  pose proof (proj1 (null_counts_accumulate (env scenario_A) read_all f f' Hr Hs _ _ H1)) as N1.
  split; [exact Hr|]. split; [exact Hs|].
  assert (Hl : columns f' = [nth 0 (columns f') zeroed_column;
                             nth 1 (columns f') zeroed_column])
    by (vm_compute; reflexivity).
  rewrite Hl. cbn [map]. rewrite N0, N1. vm_compute. reflexivity.
Defined.

(** X23, Scenario B, where the host's page array holds the two page
    records: two pages of 2048 bytes, one buffer of 4096. *)
Lemma scenario_B_decompressed_buffer :
  let f := at_stage scenario_B read_all 7 in
  reaches (env scenario_B) read_all 7 f
  /\ decompressed_allocs (trace (snd (read_parquet (env scenario_B) read_all))) = [4096].
Proof.
  intro f.
  assert (Hr : reaches (env scenario_B) read_all 7 f) by (vm_compute; reflexivity).
  destruct (decompressed_buffer_sized (env scenario_B) read_all f Hr)
    as (_ & _ & _ & _ & Ha).
  split; [exact Hr|]. rewrite Ha. vm_compute. reflexivity.
Defined.

(** C8: the header decode leaves the host's page array as it found it or
    as the allocation handed it out, whatever the kernel decoded, and the
    size of the decompressed-data buffer is summed from that array; on the
    bench the two pages of the GZIP chunk have 2048 uncompressed bytes
    each, the host's records say 0, and the read asks for a buffer of 0
    bytes and returns success. *)
Theorem decompressed_buffer_misses_decoded_sizes :
  (forall gpu_mem (E : Environment gpu_mem) (f : @frame gpu_mem),
     let g := after (decode_page_headers E f) in
     parquet_state.page_index (state g) = parquet_state.page_index (state f)
     \/ parquet_state.page_index (state g)
        = fresh_pages E buf_page_index (parquet_state.total_pages (state f)))
  /\ (forall gpu_mem (E : Environment gpu_mem) (f : @frame gpu_mem),
        parquet_state.total_decompressed_size (state (count_compressed_pages E f))
        = to_size_t (sumZ (map PageInfo.uncompressed_page_size (compressed_pages E f))))
  /\ let f := at_stage fresh_host_pages read_all 7 in
     reaches (env fresh_host_pages) read_all 7 f
     /\ map chunk_codec (mapped_chunks f) = [GZIP]
     /\ map PageInfo.uncompressed_page_size (parquet_state.page_index_dev (state f))
        = [2048; 2048]
     /\ map PageInfo.uncompressed_page_size (parquet_state.page_index (state f)) = [0; 0]
     /\ decompressed_allocs (trace (at_return fresh_host_pages read_all)) = [0]
     /\ fst (read_parquet (env fresh_host_pages) read_all) = Returned GDF_SUCCESS.
Proof.
  split; [intros; apply decode_page_headers_host_pages|].
  split; [intros gpu_mem E f; exact (proj1 (count_compressed_pages_spec E f))|].
  vm_compute. repeat split.
Qed.



(** ** More of the properties on the bench *)

(** X2, a read without a source. *)
Lemma no_source_is_a_file_error :
  fst (read_parquet (env scenario_A) no_source) = Returned GDF_FILE_ERROR
  /\ trace (snd (read_parquet (env scenario_A) no_source)) = []
  /\ out (snd (read_parquet (env scenario_A) no_source)) = None.
Proof.
  apply (unreadable_file_is_a_file_error (env scenario_A) no_source).
  left. reflexivity.
Defined.


(** X5, a path of two components. *)
Lemma dot_string_of_a_b :
  to_dot_string ["a"; "b"]%string = "a.b"%string
  /\ Z.of_nat (String.length (to_dot_string ["a"; "b"]%string)) = 3.
Proof.
  destruct (to_dot_string_joins_with_dots ["a"; "b"]%string) as [H1 H2].
  split; [rewrite H1; reflexivity|]. rewrite H2 by discriminate. reflexivity.
Defined.

(** X6, an INT96 column. *)
Lemma int96_is_invalid : fst (to_dtype INT96 UNKNOWN) = GDF_invalid.
Proof.
  apply (proj2 (to_dtype_invalid_iff INT96 UNKNOWN)). split; [reflexivity|].
  cbn. intuition discriminate.
Defined.

(** X7, a timestamp stored as INT64 or as INT96, and an unsigned 32-bit
    integer read as INT32. *)
Lemma timestamps_and_unsigned :
  to_dtype INT64 TIMESTAMP_MILLIS = to_dtype INT96 TIMESTAMP_MILLIS
  /\ to_dtype INT32 UINT_32 = to_dtype INT32 UNKNOWN.
Proof.
  destruct (to_dtype_precedence TIMESTAMP_MILLIS) as (H1 & _ & _).
  destruct (to_dtype_precedence UINT_32) as (_ & H2 & _).
  split.
  - apply H1. cbn. tauto.
  - apply H2. cbn. intuition discriminate.
Defined.

(** X8, Scenario A: no key-value metadata. *)
Lemma scenario_A_has_no_index : get_index_col (parsed scenario_A) = Some EmptyString.
Proof.
  apply (get_index_col_without_pandas (parsed scenario_A)). intros item [].
Defined.

(** X9, Scenario C: the hint "{'index_columns': ['idx'], 'columns': []}". *)
Lemma scenario_C_hint : get_index_col (parsed scenario_C) = Some "idx"%string.
Proof.
  refine (get_index_col_reads_the_hint (parsed scenario_C)
           {| KeyValue.key := "pandas";
              KeyValue.value := "{'index_columns': ['idx'], 'columns': []}" |}
           "{'" "': " "'idx'" ", 'columns': []}"
           eq_refl eq_refl _
           ltac:(cbn; intuition discriminate) ltac:(cbn; intuition discriminate)
           ltac:(vm_compute; reflexivity)).
  intros k Hk. destruct k as [|[|k]]; [vm_compute; discriminate | vm_compute; discriminate | ].
  exfalso. cbn in Hk. lia.
Defined.

(** X10, Scenario A read without an allow-list: both columns. *)
Lemma scenario_A_reads_every_column :
  let f := at_return scenario_A read_all in
  let o := output_of f in
  read_parquet (env scenario_A) read_all = (Returned GDF_SUCCESS, f)
  /\ map col_sig (data_out o)
     = [("a"%string, GDF_INT32, TIME_UNIT_NONE, 10); ("b"%string, GDF_STRING, TIME_UNIT_NONE, 10)]
  /\ num_cols_out o = 2.
Proof.
  intros f o.
  assert (H1 : read_parquet (env scenario_A) read_all = (Returned GDF_SUCCESS, f))
    by (vm_compute; reflexivity).
  assert (H2 : out f = Some o) by (vm_compute; reflexivity).
  assert (H3 : Z.of_nat (List.length (row_group0 (file_md f))) < 2 ^ 31)
    by (vm_compute; reflexivity).
  destruct (every_column_without_allow_list (env scenario_A) read_all f o eq_refl H1 H2 H3)
    as (Hm & Hn).
  split; [exact H1|]. split.
  - rewrite Hm. vm_compute. reflexivity.
  - rewrite Hn. vm_compute. reflexivity.
Defined.

(** X11, Scenario A: the output comes with [GDF_SUCCESS]. *)
Lemma scenario_A_output_with_success :
  out (at_return scenario_A read_all) = Some (output_of (at_return scenario_A read_all))
  /\ fst (read_parquet (env scenario_A) read_all) = Returned GDF_SUCCESS.
Proof.
  assert (H : out (snd (read_parquet (env scenario_A) read_all))
              = Some (output_of (at_return scenario_A read_all)))
    by (vm_compute; reflexivity).
  split; [exact H|].
  exact (proj1 (output_only_on_success (env scenario_A) read_all _ H)).
Defined.

(** X12, Scenario C: the index column "idx" is the second output column. *)
Lemma scenario_C_index_column :
  let f := at_return scenario_C (read_only ["a"%string]) in
  let o := output_of f in
  index_col_out o = Some 1
  /\ exists c, nth_error (data_out o) 1 = Some c /\ gdf_column.col_name c = "idx"%string.
Proof.
  intros f o.
  assert (H1 : read_parquet (env scenario_C) (read_only ["a"%string])
               = (Returned GDF_SUCCESS, f)) by (vm_compute; reflexivity).
  assert (H2 : out f = Some o) by (vm_compute; reflexivity).
  assert (H3 : Z.of_nat (List.length (row_group0 (file_md f))) < 2 ^ 31)
    by (vm_compute; reflexivity).
  assert (H4 : index_col_out o = Some 1) by (vm_compute; reflexivity).
  destruct (index_column_is_reported (env scenario_C) (read_only ["a"%string]) f o H1 H2 H3)
    as (_ & _ & H).
  destruct (H 1 H4) as (_ & _ & (c & Hc & Hn) & _).
  split; [exact H4|]. exists c. split; [exact Hc|]. rewrite Hn. vm_compute. reflexivity.
Defined.

(** X13, a footer of 10 rows over one row group of 4: 4 rows are handed
    over, in a column of size 10. *)
Lemma short_row_group_rows :
  let f := at_return short_row_group read_all in
  let o := output_of f in
  num_rows_out o = 4 /\ map gdf_column.size (data_out o) = [10].
Proof.
  intros f o.
  assert (H1 : read_parquet (env short_row_group) read_all = (Returned GDF_SUCCESS, f))
    by (vm_compute; reflexivity).
  assert (H2 : out f = Some o) by (vm_compute; reflexivity).
  destruct (rows_out_add_up_the_row_groups (env short_row_group) read_all f o H1 H2)
    as (Hr & _).
  split; [rewrite Hr; vm_compute; reflexivity | vm_compute; reflexivity].
Defined.

(** X14, two row groups with three chunks named "a" for one output
    column: room for two descriptors, and two chunks are mapped. *)
Lemma surplus_chunk_fills_the_array :
  let f := at_stage surplus_chunk read_all 4 in
  let g := at_stage surplus_chunk read_all 5 in
  reaches (env surplus_chunk) read_all 4 f
  /\ build_chunks (env surplus_chunk) f = Next g
  /\ List.length (matching_slots (columns f) (FileMetaData.row_groups (file_md f)) 0) = 3%nat
  /\ parquet_state.num_chunks (state g) = 2
  /\ map (fun d => ColumnChunkDesc.start_row d) (parquet_state.chunk_desc (state g)) = [0; 5].
Proof.
  intros f g.
  assert (Hr : reaches (env surplus_chunk) read_all 4 f) by (vm_compute; reflexivity).
  assert (Hs : build_chunks (env surplus_chunk) f = Next g) by (vm_compute; reflexivity).
  destruct (chunks_are_mapped_until_capacity (env surplus_chunk) read_all f g Hr Hs)
    as (_ & _ & Hn & _).
  split; [exact Hr|]. split; [exact Hs|]. split; [vm_compute; reflexivity|]. split.
  - rewrite Hn. vm_compute. reflexivity.
  - vm_compute. reflexivity.
Defined.

(** X15, Scenario A: one row group, two output columns, two chunks. *)
Lemma scenario_A_loses_no_chunk :
  let f := at_stage scenario_A read_all 4 in
  let g := at_stage scenario_A read_all 5 in
  reaches (env scenario_A) read_all 4 f
  /\ build_chunks (env scenario_A) f = Next g
  /\ parquet_state.num_chunks (state g) = 2
  /\ map fst (chunk_map g) = matching_chunks (file_md f) (columns f).
Proof.
  intros f g.
  assert (Hr : reaches (env scenario_A) read_all 4 f) by (vm_compute; reflexivity).
  assert (Hs : build_chunks (env scenario_A) f = Next g) by (vm_compute; reflexivity).
  destruct (regular_files_lose_no_chunk (env scenario_A) read_all f g Hr Hs)
    as (Hm & Hn & _).
  - intros rg [<-|[]]. reflexivity.
  - intros c [<-|[<-|[]]]; reflexivity.
  - vm_compute. reflexivity.
  - split; [exact Hr|]. split; [exact Hs|]. split; [|exact Hm].
    rewrite Hn. vm_compute. reflexivity.
Defined.

(** X16, Scenario A: 10 rows of 4 bytes for "a", 10 string descriptors
    of 16 bytes for "b", two masks of 2 bytes. *)
Lemma scenario_A_column_buffers :
  let f := at_stage scenario_A read_all 8 in
  let g := at_stage scenario_A read_all 9 in
  alloc_column_data (env scenario_A) f = Next g
  /\ trace g = trace f
       ++ [ RMM_ALLOC (buf_column_data 0) 40; RMM_ALLOC (buf_column_valid 0) 2;
            cudaMemset (buffer_start (buf_column_valid 0)) 2;
            RMM_ALLOC (buf_column_data 1) 160; RMM_ALLOC (buf_column_valid 1) 2;
            cudaMemset (buffer_start (buf_column_valid 1)) 2 ].
Proof.
  intros f g.
  assert (Hs : alloc_column_data (env scenario_A) f = Next g) by (vm_compute; reflexivity).
  destruct (column_buffers_are_allocated (env scenario_A) f g Hs) as (Ht & _).
  split; [exact Hs|]. rewrite Ht. f_equal.
Defined.

(** X17, Scenario A: the two descriptors point to the buffers of the two
    columns. *)
Lemma scenario_A_descriptors :
  let f := at_stage scenario_A read_all 9 in
  let g := at_stage scenario_A read_all 10 in
  build_dictionaries (env scenario_A) f = Next g
  /\ map ColumnChunkDesc.column_data_base (parquet_state.chunk_desc (state g))
     = [buffer_start (buf_column_data 0); buffer_start (buf_column_data 1)]
  /\ parquet_state.chunk_desc_dev (state g) = parquet_state.chunk_desc (state g).
Proof.
  intros f g.
  assert (Hs : build_dictionaries (env scenario_A) f = Next g) by (vm_compute; reflexivity).
  destruct (descriptors_point_to_their_columns (env scenario_A) f g Hs) as (_ & Hd & _).
  split; [exact Hs|]. split; [vm_compute; reflexivity | exact Hd].
Defined.

(** X18, the chunk of the INT32 column "a" of Scenario A: type 1, no
    length. *)
Lemma scenario_A_data_type :
  let f := at_stage scenario_A read_all 4 in
  exists d,
    parquet_state.chunk_desc
      (state (add_chunk (env scenario_A) (row_group 10 []) (column "a" UNCOMPRESSED 1) 0 f))
    = parquet_state.chunk_desc (state f) ++ [d]
    /\ Z.land (ColumnChunkDesc.data_type d) 7 = 1
    /\ Z.shiftr (ColumnChunkDesc.data_type d) 3 = 0.
Proof.
  intro f.
  destruct (data_type_packs_type_and_length (env scenario_A) (row_group 10 [])
              (column "a" UNCOMPRESSED 1) 0 f) as (d & Hd & Ht & Hl).
  - split; vm_compute; [intro H; discriminate H | reflexivity].
  - exists d. split; [exact Hd|]. split; [rewrite Ht | rewrite Hl]; vm_compute; reflexivity.
Defined.

(** X19, one LZO chunk: the decompression step makes no call. *)
Lemma lzo_chunk_is_left_alone :
  let f := at_stage lzo_chunk read_all 7 in
  reaches (env lzo_chunk) read_all 7 f
  /\ parquet_state.total_pages (state f) = 1
  /\ exists g, decompress_pages (env lzo_chunk) f = Next g /\ trace g = trace f.
Proof.
  intro f.
  assert (Hr : reaches (env lzo_chunk) read_all 7 f) by (vm_compute; reflexivity).
  destruct (other_codecs_pass_through (env lzo_chunk) f) as (g & Hg & Ht & _).
  - vm_compute. repeat constructor.
  - split; [exact Hr|]. split; [vm_compute; reflexivity|].
    exists g. split; assumption.
Defined.

(** X20, Scenario A without memory for the values of the first column:
    the read returns the allocator's error, and the refused request is
    its last call. *)
Lemma out_of_memory_is_reported :
  let f := snd (read_parquet out_of_memory read_all) in
  read_parquet out_of_memory read_all = (Returned GDF_MEMORYMANAGER_ERROR, f)
  /\ (failed_call out_of_memory GDF_MEMORYMANAGER_ERROR (trace f)
      \/ GDF_MEMORYMANAGER_ERROR = no_return_value out_of_memory (trace f))
  /\ out f = None.
Proof.
  intro f.
  assert (H : read_parquet out_of_memory read_all = (Returned GDF_MEMORYMANAGER_ERROR, f))
    by (vm_compute; reflexivity).
  split; [exact H|].
  exact (errors_come_from_the_last_call out_of_memory read_all _ f H (or_introl eq_refl)).
Defined.


(** X3, the file of Scenario A: 20 bytes, a footer of 4. *)
Lemma good_file_is_accepted :
  Z.of_nat (List.length good_file) = 20
  /\ ender_footer_len good_file = 4
  /\ reaches (env scenario_A) read_all 1 (set_raw good_file (entry (env scenario_A))).
Proof.
  split; [reflexivity|]. split; [reflexivity|].
  apply (envelope_is_accepted_exactly (env scenario_A) read_all good_file).
  - reflexivity.
  - vm_compute. reflexivity.
  - vm_compute. repeat split; intro H; discriminate H.
Defined.
